(** * GCP cost optimizer: the report pipeline of [gcp_cost_analyzer.py]

    The script shells out to [gcloud], decodes the JSON it prints and
    renders a text report.  The development has four parts:

    - [Py]: the fragment of Python the script runs on: the objects
      [json.loads] builds, truthiness, subscripting, [in], [str.split],
      [int], [str] and the exceptions these raise.  A [dict] is a list of
      items, since the summary table is printed in insertion order;
    - the outside of a run: what is printed, the file that is written, and
      how a [gcloud] process ends;
    - [Section Analyzer]: the script's functions, over an arbitrary
      [subprocess.run], an arbitrary [json.loads] and an arbitrary date,
      then the properties of the sections and of the assembled report;
    - the properties at sample worlds ([Sample]). *)

From Stdlib Require Import String Ascii List ZArith Lia Bool DecimalString.
From Stdlib Require DecimalPos DecimalFacts DecimalZ.
Import ListNotations.

Open Scope list_scope.
Open Scope string_scope.

(* ===================================================================== *)
(** ** The Python fragment                                                *)
(* ===================================================================== *)

Module Py.

(** Exceptions the script can meet.  [OSError] stands for whatever
    [subprocess.run] raises besides [CalledProcessError] (no [gcloud]
    binary, undecodable output). *)
Inductive exn : Type :=
| KeyError | TypeError | AttributeError | ValueError | OverflowError
| JSONDecodeError | RecursionError | OSError.

Inductive result (A : Type) : Type :=
| Ok (a : A)
| Raise (e : exn).
Arguments Ok {A} a.
Arguments Raise {A} e.

Definition rbind {A B : Type} (r : result A) (k : A -> result B) : result B :=
  match r with
  | Ok a => k a
  | Raise e => Raise e
  end.

(** A float is carried by what the script can observe of it: its truth
    value, [int(x)] and [repr(x)]. *)
Record pyfloat : Type := {
  float_truth : bool;
  float_trunc : result Z;
  float_repr : string
}.

(** The objects [json.loads] builds.  A [str] is a sequence of 8-bit
    characters; a [dict] keeps its items in insertion order, one per key.
    An [int] that [json.loads] builds has at most 4300 digits: the decoder
    reads it with [int]. *)
#[warnings="-register-all"]
Inductive value : Type :=
| VNone
| VBool (b : bool)
| VInt (n : Z)
| VFloat (x : pyfloat)
| VStr (s : string)
| VList (l : list value)
| VDict (d : list (string * value)).

(** [bool(v)] *)
Definition truthy (v : value) : bool :=
  match v with
  | VNone => false
  | VBool b => b
  | VInt n => negb (n =? 0)%Z
  | VFloat x => float_truth x
  | VStr s => negb (s =? "")
  | VList l => match l with [] => false | _ => true end
  | VDict d => match d with [] => false | _ => true end
  end.

(** [if s:] for [s : Optional[str]], the result of [run_gcloud]: the text,
    when there is one and it is not empty. *)
Definition fetched (s : option string) : option string :=
  match s with
  | Some (String _ _ as text) => Some text
  | _ => None
  end.

(** [bool(v)] for [v : Optional[value]], the result of [get_project_info]. *)
Definition truthy_opt (v : option value) : bool :=
  match v with
  | None => false
  | Some x => truthy x
  end.

(** *** Strings *)

Fixpoint startswith (sub s : string) : bool :=
  match sub, s with
  | EmptyString, _ => true
  | String _ _, EmptyString => false
  | String a sub', String b s' => (a =? b)%char && startswith sub' s'
  end.

(** [sub in s] for two [str]. *)
Fixpoint str_contains (sub s : string) : bool :=
  startswith sub s ||
  match s with
  | EmptyString => false
  | String _ s' => str_contains sub s'
  end.

(** [s.split(sep)] for a one-character separator. *)
Fixpoint split (sep : ascii) (s : string) : list string :=
  match s with
  | EmptyString => [""]
  | String c s' =>
      if (c =? sep)%char then "" :: split sep s'
      else match split sep s' with
           | seg :: segs => String c seg :: segs
           | [] => [String c ""]
           end
  end.

(** [s.split('/')[-1]] *)
Definition last_segment (s : string) : string := last (split "/" s) "".

Definition lower_char (c : ascii) : ascii :=
  let n := nat_of_ascii c in
  if (65 <=? n)%nat && (n <=? 90)%nat then ascii_of_nat (n + 32) else c.

(** [s.lower()]; only the letters A to Z are folded, which is all that an
    occurrence of an ASCII substring in the result depends on. *)
Fixpoint lower (s : string) : string :=
  match s with
  | EmptyString => ""
  | String c s' => String (lower_char c) (lower s')
  end.

(** [sep.join(parts)] *)
Definition join (sep : string) (parts : list string) : string :=
  String.concat sep parts.

(** [''.join(parts)]: what a run of [report += part] appends. *)
Fixpoint cat (parts : list string) : string :=
  match parts with
  | [] => ""
  | p :: ps => p ++ cat ps
  end.

(** ["=" * n] *)
Fixpoint repeat_str (s : string) (n : nat) : string :=
  match n with
  | O => ""
  | S n' => s ++ repeat_str s n'
  end.

(** *** Integers *)

(** The most decimal digits of an [int] that [int] reads from a [str] and
    that [str] prints: the default of [sys.int_max_str_digits]. *)
Definition INT_MAX_STR_DIGITS : Z := 4300.

(** The decimal text of an integer: [str(n)] for a length, a count or a
    decoded [int], which all stay below the limit. *)
Definition str_int (n : Z) : string := NilZero.string_of_int (Z.to_int n).

(** The integer has at most 4300 decimal digits. *)
Definition int_fits (n : Z) : bool := (Z.abs n <? 10 ^ INT_MAX_STR_DIGITS)%Z.

(** [str(n)] for an [int] the script computed, also inside an f-string:
    an [int] of more than 4300 digits raises [ValueError]. *)
Definition py_str_int (n : Z) : result string :=
  if int_fits n then Ok (str_int n) else Raise ValueError.

(** The white space that [int] skips around the digits: the ASCII blanks
    (tab to carriage return, and the space) and, beyond ASCII, U+0085 and
    U+00A0.  The separators 0x1C to 0x1F are not skipped. *)
Definition is_space (c : ascii) : bool :=
  let n := nat_of_ascii c in
  ((9 <=? n) && (n <=? 13) || (n =? 32) || (n =? 133) || (n =? 160))%nat.

Definition digit_of (c : ascii) : option Z :=
  let n := nat_of_ascii c in
  if (48 <=? n)%nat && (n <=? 57)%nat then Some (Z.of_nat (n - 48)) else None.

Fixpoint lstrip (s : string) : string :=
  match s with
  | String c s' => if is_space c then lstrip s' else s
  | EmptyString => ""
  end.

(** Digits with single underscores between them, then optional trailing
    white space.  [after_digit] tells whether the previous character was a
    digit (an underscore or the end is allowed only then). *)
Fixpoint digits (acc : Z) (after_digit : bool) (s : string) : option Z :=
  match s with
  | EmptyString => if after_digit then Some acc else None
  | String c s' =>
      match digit_of c with
      | Some d => digits (10 * acc + d) true s'
      | None =>
          if negb after_digit then None
          else if (c =? "_")%char then
            match s' with
            | String c' _ =>
                match digit_of c' with
                | Some _ => digits acc false s'
                | None => None
                end
            | EmptyString => None
            end
          else if is_space c then
            match lstrip s' with
            | EmptyString => Some acc
            | String _ _ => None
            end
          else None
      end
  end.

(** The integer a text spells for [int]: white space, an optional sign,
    then the digits. *)
Definition parse_int (s : string) : option Z :=
  let body := lstrip s in
  match body with
  | String "-" r => option_map Z.opp (digits 0 false r)
  | String "+" r => digits 0 false r
  | _ => digits 0 false body
  end.

(** How many decimal digits a text has. *)
Fixpoint count_digits (s : string) : Z :=
  match s with
  | EmptyString => 0
  | String c s' =>
      match digit_of c with
      | Some _ => 1 + count_digits s'
      | None => count_digits s'
      end
  end.

(** [int(s)] for a [str], base 10: a text that spells no integer and a
    text of more than 4300 digits both raise [ValueError]. *)
Definition int_of_str (s : string) : result Z :=
  match parse_int s with
  | Some n =>
      if (count_digits s <=? INT_MAX_STR_DIGITS)%Z then Ok n else Raise ValueError
  | None => Raise ValueError
  end.

(** [int(v)] *)
Definition py_int (v : value) : result Z :=
  match v with
  | VInt n => Ok n
  | VBool b => Ok (if b then 1 else 0)%Z
  | VFloat x => float_trunc x
  | VStr s => int_of_str s
  | VNone | VList _ | VDict _ => Raise TypeError
  end.

(** *** repr and str *)

Definition hex_digit (n : nat) : ascii :=
  if (n <? 10)%nat then ascii_of_nat (48 + n) else ascii_of_nat (87 + n).

Definition printable (n : nat) : bool :=
  ((32 <=? n) && (n <? 127)
   || (161 <=? n) && negb (n =? 173))%nat.

Definition repr_char (quote : ascii) (c : ascii) : string :=
  let n := nat_of_ascii c in
  if (c =? quote)%char || (c =? "\")%char then String "\" (String c "")
  else if (n =? 9)%nat then "\t"
  else if (n =? 10)%nat then "\n"
  else if (n =? 13)%nat then "\r"
  else if printable n then String c ""
  else String "\" (String "x"
         (String (hex_digit (n / 16)) (String (hex_digit (n mod 16)) ""))).

Fixpoint repr_chars (quote : ascii) (s : string) : string :=
  match s with
  | EmptyString => ""
  | String c s' => repr_char quote c ++ repr_chars quote s'
  end.

Definition squote : ascii := "'".
Definition dquote : ascii := ascii_of_nat 34.

(** [repr(s)] for a [str]: single quotes, unless the text has a single
    quote and no double quote. *)
Definition repr_str (s : string) : string :=
  let quote :=
    if str_contains (String squote "") s && negb (str_contains (String dquote "") s)
    then dquote else squote in
  String quote (repr_chars quote s ++ String quote "").

(** [repr(v)] *)
Fixpoint py_repr (v : value) : string :=
  match v with
  | VNone => "None"
  | VBool b => if b then "True" else "False"
  | VInt n => str_int n
  | VFloat x => float_repr x
  | VStr s => repr_str s
  | VList l => "[" ++ join ", " (map py_repr l) ++ "]"
  | VDict d =>
      "{" ++ join ", " (map (fun kv => repr_str (fst kv) ++ ": " ++ py_repr (snd kv)) d) ++ "}"
  end.

(** [str(v)], what an f-string field renders. *)
Definition py_str (v : value) : string :=
  match v with
  | VStr s => s
  | _ => py_repr v
  end.

(** *** Containers *)

(** [d.get(k)] on the items of a [dict]. *)
Fixpoint lookup {A : Type} (k : string) (d : list (string * A)) : option A :=
  match d with
  | [] => None
  | (k', x) :: d' => if k =? k' then Some x else lookup k d'
  end.

(** [v == s] for a [str] literal [s]. *)
Definition py_eq_str (v : value) (s : string) : bool :=
  match v with
  | VStr t => t =? s
  | _ => false
  end.

(** [v[k]] for a [str] literal [k]. *)
Definition py_getitem (v : value) (k : string) : result value :=
  match v with
  | VDict d =>
      match lookup k d with
      | Some x => Ok x
      | None => Raise KeyError
      end
  | _ => Raise TypeError
  end.

(** [k in v] for a [str] literal [k]. *)
Definition py_contains (k : string) (v : value) : result bool :=
  match v with
  | VDict d => Ok (match lookup k d with Some _ => true | None => false end)
  | VList l => Ok (existsb (fun x => py_eq_str x k) l)
  | VStr s => Ok (str_contains k s)
  | _ => Raise TypeError
  end.

(** [v.get(k, default)] *)
Definition py_get (v : value) (k : string) (default : value) : result value :=
  match v with
  | VDict d =>
      Ok (match lookup k d with Some x => x | None => default end)
  | _ => Raise AttributeError
  end.

(** [v.split('/')[-1]] *)
Definition py_split_last (v : value) : result string :=
  match v with
  | VStr s => Ok (last_segment s)
  | _ => Raise AttributeError
  end.

(** [v.lower()] *)
Definition py_lower (v : value) : result string :=
  match v with
  | VStr s => Ok (lower s)
  | _ => Raise AttributeError
  end.

(** [len(v)] *)
Definition py_len (v : value) : result Z :=
  match v with
  | VStr s => Ok (Z.of_nat (String.length s))
  | VList l => Ok (Z.of_nat (List.length l))
  | VDict d => Ok (Z.of_nat (List.length d))
  | _ => Raise TypeError
  end.

(** The items a [for x in v] loop or a comprehension visits. *)
Definition py_iter (v : value) : result (list value) :=
  match v with
  | VList l => Ok l
  | VDict d => Ok (map (fun kv => VStr (fst kv)) d)
  | VStr s => Ok (map (fun c => VStr (String c "")) (list_ascii_of_string s))
  | _ => Raise TypeError
  end.

(** A loop body run on every item in order, stopping at the first
    exception. *)
Fixpoint mapM {A B : Type} (f : A -> result B) (l : list A) : result (list B) :=
  match l with
  | [] => Ok []
  | x :: l' =>
      rbind (f x) (fun y => rbind (mapM f l') (fun ys => Ok (y :: ys)))
  end.

(** [[x for x in l if f(x)]] *)
Fixpoint filterM {A : Type} (f : A -> result bool) (l : list A) : result (list A) :=
  match l with
  | [] => Ok []
  | x :: l' =>
      rbind (f x) (fun b =>
      rbind (filterM f l') (fun xs => Ok (if b then x :: xs else xs)))
  end.

(** [any(f(x) for x in l)] *)
Fixpoint anyM {A : Type} (f : A -> result bool) (l : list A) : result bool :=
  match l with
  | [] => Ok false
  | x :: l' => rbind (f x) (fun b => if b then Ok true else anyM f l')
  end.

(** [sum(l)] *)
Definition py_sum (l : list Z) : Z := fold_left Z.add l 0%Z.

End Py.

Import Py.

Declare Scope result_scope.
Delimit Scope result_scope with result.
Notation "x <- r ;; k" := (rbind r (fun x => k))
  (at level 61, r at next level, right associativity) : result_scope.

(* ===================================================================== *)
(** ** What a run does to the outside                                     *)
(* ===================================================================== *)

(** The script prints progress lines, opens one file and writes to it. *)
Inductive event : Type :=
| Print (text : string)
| Open (path : string)
| Write (text : string).

(** A computation that leaves a trace and returns or raises. *)
Definition M (A : Type) : Type := (list event * result A)%type.

Definition ret {A : Type} (a : A) : M A := ([], Ok a).

Definition bind {A B : Type} (m : M A) (k : A -> M B) : M B :=
  match m with
  | (tr, Ok a) => let (tr', r) := k a in ((tr ++ tr')%list, r)
  | (tr, Raise e) => (tr, Raise e)
  end.

Definition emit (e : event) : M unit := ([e], Ok tt).
Definition print (text : string) : M unit := emit (Print text).
Definition lift {A : Type} (r : result A) : M A := ([], r).

Declare Scope run_scope.
Delimit Scope run_scope with run.
Notation "x <- m ;; k" := (bind m (fun x => k))
  (at level 61, m at next level, right associativity) : run_scope.
Notation "m ;; k" := (bind m (fun _ => k))
  (at level 61, right associativity) : run_scope.

(** What was printed, in order. *)
Fixpoint printed (tr : list event) : list string :=
  match tr with
  | [] => []
  | Print s :: tr' => s :: printed tr'
  | _ :: tr' => printed tr'
  end.

(** The content of the file at [path] after the trace, if it was opened:
    [open(path, 'w')] truncates, every write appends. *)
Fixpoint file_after (path : string) (content : option string) (tr : list event)
  : option string :=
  match tr with
  | [] => content
  | Open p :: tr' =>
      file_after path (if p =? path then Some "" else content) tr'
  | Write s :: tr' =>
      file_after path (option_map (fun c => c ++ s) content) tr'
  | Print _ :: tr' => file_after path content tr'
  end.

(** Whether the trace creates or writes any file at all. *)
Definition touches_files (tr : list event) : bool :=
  existsb (fun e => match e with Print _ => false | _ => true end) tr.

(** The outcome of [subprocess.run(command, capture_output=True, text=True,
    check=True)]. *)
Inductive completed : Type :=
| Completed (stdout : string)
| CalledProcessError (stderr : string)
| SpawnError (e : exn).

Definition nl : string := String (ascii_of_nat 10) EmptyString.

(** A piece of text followed by a newline. *)
Definition line (s : string) : string := s ++ nl.

(** The machine type names the compute analysis takes for large. *)
Definition LARGE_TYPES : list string :=
  ["n1-standard-8"; "n1-standard-16";
   "n2-standard-8"; "n2-standard-16";
   "e2-standard-8"; "e2-standard-16"].

(** The [gcloud] subcommands the script runs, each with its JSON flag. *)
Definition CONFIG_LIST : list string := ["config"; "list"; "--format=json"].
Definition INSTANCES_LIST : list string :=
  ["compute"; "instances"; "list"; "--format=json"].
Definition STORAGE_LS : list string := ["storage"; "ls"; "--format=json"].
Definition DISKS_LIST : list string :=
  ["compute"; "disks"; "list"; "--format=json"].
Definition ADDRESSES_LIST : list string :=
  ["compute"; "addresses"; "list"; "--format=json"].
Definition RULES_LIST : list string :=
  ["compute"; "forwarding-rules"; "list"; "--format=json"].

(* ===================================================================== *)
(** ** Reading a report                                                   *)
(* ===================================================================== *)

(** The lines of a text, as [text.split('\n')] gives them. *)
Definition lines (text : string) : list string := split (ascii_of_nat 10) text.

Definition has_line (l : string) (text : string) : bool :=
  existsb (String.eqb l) (lines text).

(** A line that reports that nothing was found: every such line of the
    script starts with [No] and has the word [found]. *)
Definition is_not_found (l : string) : bool :=
  startswith "No " l && str_contains " found" l.

Definition has_not_found_line (text : string) : bool :=
  existsb is_not_found (lines text).

(** [xs] occurs in [ys] in this order, not necessarily side by side. *)
Fixpoint subseq (xs ys : list string) : bool :=
  match xs, ys with
  | [], _ => true
  | _ :: _, [] => false
  | x :: xs', y :: ys' => if x =? y then subseq xs' ys' else subseq xs ys'
  end.

Definition COMPUTE_TITLE : string := "COMPUTE ENGINE OPTIMIZATION RECOMMENDATIONS:".
Definition STORAGE_TITLE : string := "STORAGE OPTIMIZATION RECOMMENDATIONS:".
Definition NETWORK_TITLE : string := "NETWORKING OPTIMIZATION RECOMMENDATIONS:".
Definition BILLING_TITLE : string := "BILLING OPTIMIZATION RECOMMENDATIONS:".
Definition GENERAL_TITLE : string := "GENERAL COST OPTIMIZATION RECOMMENDATIONS:".

(** The title lines of the four sections after the compute section. *)
Definition LATER_TITLES : list string :=
  [STORAGE_TITLE; NETWORK_TITLE; BILLING_TITLE; GENERAL_TITLE].

(** A field of an item, when the item is a [dict] that has it. *)
Definition field (k : string) (item : value) : option value :=
  match item with
  | VDict d => lookup k d
  | _ => None
  end.

(** A field of an item, when it is there and holds a [str]. *)
Definition str_field (k : string) (item : value) : option string :=
  match field k item with
  | Some (VStr s) => Some s
  | _ => None
  end.

(** How an f-string shows a field of an item. *)
Definition shown (k : string) (item : value) : string :=
  match field k item with
  | Some v => py_str v
  | None => ""
  end.

(** The final path segment of a path-like field of an item. *)
Definition segment (k : string) (item : value) : string :=
  match str_field k item with
  | Some s => last_segment s
  | None => ""
  end.

(** A compute instance as the listing describes one: [machineType] and
    [zone] are path-like strings, [status] and [name] are present. *)
Definition is_instance (i : value) : bool :=
  match str_field "machineType" i, field "status" i, field "name" i,
        str_field "zone" i with
  | Some _, Some _, Some _, Some _ => true
  | _, _, _, _ => false
  end.

Definition has_status (label : string) (i : value) : bool :=
  match field "status" i with
  | Some s => py_eq_str s label
  | None => false
  end.

(** The machine type string names one of the large types somewhere. *)
Definition mentions_large (machine_type : string) : bool :=
  existsb (fun large_type => str_contains large_type machine_type) LARGE_TYPES.

Definition is_large_instance (i : value) : bool :=
  match str_field "machineType" i with
  | Some machine_type => mentions_large machine_type
  | None => false
  end.

(** How many digits a decimal number is written with. *)
Definition written_digits (i : Decimal.signed_int) : Z :=
  match i with
  | Decimal.Pos d | Decimal.Neg d => Z.of_nat (Decimal.nb_digits d)
  end.

(** The integer a [sizeGb] value declares: an integer of at most 4300
    digits, or a text made of at most 4300 decimal digits, with a minus
    sign before them for a negative size.  The text is read by the decimal
    reader of the standard library. *)
Definition declared (size : value) : option Z :=
  match size with
  | VInt n => if int_fits n then Some n else None
  | VStr s =>
      match NilZero.int_of_string s with
      | Some i =>
          if (written_digits i <=? INT_MAX_STR_DIGITS)%Z then Some (Z.of_int i)
          else None
      | None => None
      end
  | _ => None
  end.

(** A disk as the listing describes one: [name] is present, [sizeGb]
    declares an integer, [type] is a path-like string. *)
Definition is_disk (d : value) : bool :=
  match field "name" d, field "sizeGb" d, str_field "type" d with
  | Some _, Some size, Some _ =>
      match declared size with Some _ => true | None => false end
  | _, _, _ => false
  end.

(** The disk has no [users] field, or an empty one. *)
Definition lacks_users (d : value) : bool :=
  match field "users" d with
  | Some users => negb (truthy users)
  | None => true
  end.

(** The type of the disk names an SSD. *)
Definition is_ssd_disk (d : value) : bool :=
  match str_field "type" d with
  | Some type => str_contains "ssd" (lower type)
  | None => false
  end.

(** The declared size of a disk, in GB. *)
Definition declared_size (d : value) : Z :=
  match field "sizeGb" d with
  | Some size => match declared size with Some n => n | None => 0%Z end
  | None => 0%Z
  end.

Fixpoint sum_Z (l : list Z) : Z :=
  match l with
  | [] => 0%Z
  | n :: l' => (n + sum_Z l')%Z
  end.

(** *** More of the listings *)

(** The distinct strings of a list, each where it is first seen. *)
Fixpoint first_seen (l : list string) : list string :=
  match l with
  | [] => []
  | x :: l' => x :: filter (fun y => negb (y =? x)) (first_seen l')
  end.

(** How many times a string occurs in a list. *)
Definition occurrences (x : string) (l : list string) : Z :=
  Z.of_nat (List.length (filter (String.eqb x) l)).

Definition is_dict (v : value) : bool :=
  match v with
  | VDict _ => true
  | _ => false
  end.

Definition is_list (v : value) : bool :=
  match v with
  | VList _ => true
  | _ => false
  end.

Definition is_str (v : value) : bool :=
  match v with
  | VStr _ => true
  | _ => false
  end.

(** A disk the storage analysis can read: its [type] is a string, and when
    it lacks users its [name] is present and its [sizeGb] declares an
    integer.  The size and the name of an attached disk are never read. *)
Definition is_listed_disk (d : value) : bool :=
  match d, str_field "type" d with
  | VDict _, Some _ => if lacks_users d then is_disk d else true
  | _, _ => false
  end.

(** An address as the listing describes one: [status], [address] and
    [name] are present. *)
Definition is_address (a : value) : bool :=
  match field "status" a, field "address" a, field "name" a with
  | Some _, Some _, Some _ => true
  | _, _, _ => false
  end.

(** The row the network report shows for a reserved address. *)
Definition static_item (ip : value) : string :=
  line ("   - " ++ shown "address" ip ++ " (Name: " ++ shown "name" ip
        ++ ", Status: " ++ (if lacks_users ip then "Not in use" else "In use")
        ++ ")").

(** The reserved-address recommendation for well-formed addresses. *)
Definition static_section (static : list value) : string :=
  match static with
  | [] => ""
  | _ :: _ =>
      line ("1. You have " ++ str_int (Z.of_nat (List.length static))
            ++ " reserved static external IP addresses:")
      ++ cat (map static_item static)
      ++ line "   Recommendation: Delete unused static IPs as they incur charges even when not attached to resources."
  end.

(** A forwarding rule as the listing describes one: [name] is present and
    [target], when present, is a string. *)
Definition is_rule (r : value) : bool :=
  match field "name" r, field "target" r with
  | Some _, None => true
  | Some _, Some (VStr _) => true
  | _, _ => false
  end.

(** What the rule row shows for the address: the field, or the
    placeholder when the rule has none. *)
Definition rule_address (r : value) : string :=
  match field "IPAddress" r with
  | Some v => py_str v
  | None => "N/A"
  end.

(** What the rule row shows for the target: its final path segment; when
    the rule has none, the final segment of the placeholder N/A, which is
    the letter A. *)
Definition rule_target (r : value) : string :=
  match field "target" r with
  | Some (VStr s) => last_segment s
  | _ => "A"
  end.

(** The row the network report shows for a forwarding rule. *)
Definition rule_item (r : value) : string :=
  line ("   - " ++ shown "name" r ++ " (IP: " ++ rule_address r
        ++ ", Target: " ++ rule_target r ++ ")").

(** The forwarding-rule recommendation for well-formed rules. *)
Definition rules_section (rules : list value) : string :=
  match rules with
  | [] => ""
  | _ :: _ =>
      line ("1. You have " ++ str_int (Z.of_nat (List.length rules))
            ++ " load balancer forwarding rules:")
      ++ cat (map rule_item rules)
      ++ line "   Recommendation: Load balancers incur hourly charges. Consider consolidating load balancers where possible."
  end.

(** *** The text of the sections *)

(** The rows of the machine-type summary for the machine types of a
    listing: one row per distinct type, where the type is first seen, with
    the number of instances of the type. *)
Definition summary_rows (types : list string) : string :=
  cat (map (fun type =>
              line ("  - " ++ type ++ ": " ++ str_int (occurrences type types)
                    ++ " instances"))
           (first_seen types)).

(** The row of a stopped instance. *)
Definition stopped_row (i : value) : string :=
  line ("   - " ++ shown "name" i ++ " (Zone: " ++ segment "zone" i ++ ")").

(** The stopped-instances recommendation: the heading with the number of
    instances, their rows, the advice. *)
Definition stopped_block (stopped : list value) : string :=
  nl
  ++ line ("1. You have " ++ str_int (Z.of_nat (List.length stopped))
           ++ " stopped instances that are still incurring storage costs:")
  ++ cat (map stopped_row stopped)
  ++ line "   Recommendation: Delete unused instances to avoid storage charges.".

(** The row of an unattached disk. *)
Definition disk_row (d : value) : string :=
  line ("   - " ++ shown "name" d ++ " (Size: " ++ shown "sizeGb" d
        ++ " GB, Type: " ++ segment "type" d ++ ")").

(** The unattached-disk report: the heading with the number of disks,
    their rows, the sum of their declared sizes, the advice.  Nothing when
    there is no such disk. *)
Definition unattached_block (unattached : list value) : string :=
  match unattached with
  | [] => ""
  | _ :: _ =>
      line ("1. You have " ++ str_int (Z.of_nat (List.length unattached))
            ++ " unattached persistent disks that are incurring costs:")
      ++ cat (map disk_row unattached)
      ++ line ("   Total unattached disk space: "
               ++ str_int (sum_Z (map declared_size unattached)) ++ " GB")
      ++ line "   Recommendation: Delete unattached disks or create snapshots before deletion if the data is needed."
  end.

(** The SSD recommendation, with the number of SSD disks.  Nothing when
    there is none. *)
Definition ssd_block (ssd : list value) : string :=
  match ssd with
  | [] => ""
  | _ :: _ =>
      nl
      ++ line ("2. You have " ++ str_int (Z.of_nat (List.length ssd))
               ++ " SSD persistent disks:")
      ++ line "   Recommendation: For non-performance-critical workloads, consider using Standard persistent disks to reduce costs."
  end.

(** The heading of the storage-class guidance, its four storage classes
    and the lifecycle recommendation. *)
Definition GUIDANCE_LINES : list string :=
  ["   Storage Class Recommendations:";
   "   - Standard Storage: Use for frequently accessed data (multiple times a month)";
   "   - Nearline Storage: Use for data accessed less than once a month (20% cheaper)";
   "   - Coldline Storage: Use for data accessed less than once a quarter (50% cheaper)";
   "   - Archive Storage: Use for data accessed less than once a year (90% cheaper)";
   "   Recommendation: Set up Object Lifecycle Management to automatically transition objects to cheaper storage classes."].

(** Where the compute, the storage and the network section start. *)
Definition compute_top : string :=
  line "COMPUTE ENGINE OPTIMIZATION RECOMMENDATIONS:" ++ line (repeat_str "=" 50) ++ nl.

Definition storage_top : string :=
  line "STORAGE OPTIMIZATION RECOMMENDATIONS:" ++ line (repeat_str "=" 50) ++ nl.

Definition network_top : string :=
  line "NETWORKING OPTIMIZATION RECOMMENDATIONS:" ++ line (repeat_str "=" 50) ++ nl.

(** The paths a trace opens, in order. *)
Fixpoint opened (tr : list event) : list string :=
  match tr with
  | [] => []
  | Open p :: tr' => p :: opened tr'
  | _ :: tr' => opened tr'
  end.

(** What a trace writes, in order. *)
Fixpoint written (tr : list event) : string :=
  match tr with
  | [] => ""
  | Write s :: tr' => s ++ written tr'
  | _ :: tr' => written tr'
  end.

(** [text] starts with [start]. *)
Definition starts_with (start text : string) : Prop :=
  exists rest, text = start ++ rest.

(* ===================================================================== *)
(** ** Sample worlds                                                      *)
(* ===================================================================== *)

Module Sample.

Definition quoted (s : string) : string :=
  String dquote (s ++ String dquote EmptyString).

(** A JSON text for a value whose strings need no escaping. *)
Fixpoint json_text (v : value) : string :=
  match v with
  | VNone => "null"
  | VBool b => if b then "true" else "false"
  | VInt n => str_int n
  | VFloat x => float_repr x
  | VStr s => quoted s
  | VList l => "[" ++ join ", " (map json_text l) ++ "]"
  | VDict d =>
      "{" ++ join ", " (map (fun kv => quoted (fst kv) ++ ": " ++ json_text (snd kv)) d) ++ "}"
  end.

(** A decoder that knows the given documents and rejects every other
    text. *)
Definition loads (documents : list value) (text : string) : result value :=
  match find (fun v => json_text v =? text) documents with
  | Some v => Ok v
  | None => Raise JSONDecodeError
  end.

Fixpoint same_words (xs ys : list string) : bool :=
  match xs, ys with
  | [], [] => true
  | x :: xs', y :: ys' => (x =? y) && same_words xs' ys'
  | _, _ => false
  end.

(** A [gcloud] that prints the given text for the given subcommands and
    exits with an error for every other one. *)
Definition gcloud (outputs : list (list string * string)) (command : list string)
  : completed :=
  match find (fun e => same_words ("gcloud" :: fst e) command) outputs with
  | Some e => Completed (snd e)
  | None => CalledProcessError "ERROR: (gcloud) not available"
  end.

Definition demo_config : value :=
  VDict [("core", VDict [("account", VStr "dev@example.com"); ("project", VStr "demo")])].

Definition instance (name machine_type status : string) : value :=
  VDict [("name", VStr name);
         ("machineType",
          VStr ("https://www.googleapis.com/compute/v1/projects/demo/zones/us-central1-a/machineTypes/"
                ++ machine_type));
         ("status", VStr status);
         ("zone",
          VStr "https://www.googleapis.com/compute/v1/projects/demo/zones/us-central1-a")].

Definition disk (name size type : string) : value :=
  VDict [("name", VStr name);
         ("sizeGb", VStr size);
         ("type",
          VStr ("https://www.googleapis.com/compute/v1/projects/demo/zones/us-central1-a/diskTypes/"
                ++ type))].

Definition stopped_fleet : list value :=
  [instance "vm-a" "n1-standard-1" "TERMINATED";
   instance "vm-b" "n1-standard-16" "TERMINATED"].

Definition mixed_fleet : list value :=
  [instance "vm-a" "n1-standard-1" "TERMINATED";
   instance "vm-b" "n1-standard-16" "RUNNING";
   instance "vm-c" "n1-standard-1" "RUNNING"].

(** [n2-standard-80] is a machine type of its own; its name starts with
    [n2-standard-8]. *)
Definition vm80 : value := instance "vm-80" "n2-standard-80" "RUNNING".

Definition loose_disks : list value :=
  [disk "data-1" "10" "pd-ssd"; disk "data-2" "200" "pd-standard"].

Definition documents : list value :=
  [demo_config; VDict []; VList []; VNone;
   VList stopped_fleet; VList mixed_fleet; VList [vm80]; VList loose_disks;
   VList [VDict [("name", VStr "vm-x")]]].

Definition json_loads : string -> result value := loads documents.

Definition TODAY : string := "2024-05-17".

(** A project with nothing in it: every listing is the empty array. *)
Definition empty_project : list string -> completed :=
  gcloud [(CONFIG_LIST, json_text demo_config);
          (INSTANCES_LIST, "[]"); (STORAGE_LS, "[]"); (DISKS_LIST, "[]");
          (ADDRESSES_LIST, "[]"); (RULES_LIST, "[]")].

(** Only the configuration can be read; every listing fails. *)
Definition listings_denied : list string -> completed :=
  gcloud [(CONFIG_LIST, json_text demo_config)].

(** No property is set: [gcloud config list] prints the empty object. *)
Definition unset_config : list string -> completed :=
  gcloud [(CONFIG_LIST, "{}");
          (INSTANCES_LIST, "[]"); (STORAGE_LS, "[]"); (DISKS_LIST, "[]");
          (ADDRESSES_LIST, "[]"); (RULES_LIST, "[]")].

(** The configuration text is not JSON. *)
Definition garbled_config : list string -> completed :=
  gcloud [(CONFIG_LIST, "Updates are available for some components.")].

(** Nobody is logged in: every subcommand fails. *)
Definition logged_out : list string -> completed := gcloud [].

(** One listed instance has no [machineType]. *)
Definition odd_instance : list string -> completed :=
  gcloud [(CONFIG_LIST, json_text demo_config);
          (INSTANCES_LIST, json_text (VList [VDict [("name", VStr "vm-x")]]));
          (STORAGE_LS, "[]"); (DISKS_LIST, "[]");
          (ADDRESSES_LIST, "[]"); (RULES_LIST, "[]")].

(** The listings are garbled text. *)
Definition garbled_listings : list string -> completed :=
  gcloud [(CONFIG_LIST, json_text demo_config);
          (INSTANCES_LIST, "<html>"); (STORAGE_LS, "<html>"); (DISKS_LIST, "<html>");
          (ADDRESSES_LIST, "<html>"); (RULES_LIST, "<html>")].

Definition fleet (instances : list value) : list string -> completed :=
  gcloud [(CONFIG_LIST, json_text demo_config);
          (INSTANCES_LIST, json_text (VList instances))].

Definition disks_only (disks : list value) : list string -> completed :=
  gcloud [(CONFIG_LIST, json_text demo_config);
          (DISKS_LIST, json_text (VList disks))].

(** *** More sample listings *)

Definition address (name ip status : string) (users : list value) : value :=
  VDict [("name", VStr name); ("address", VStr ip); ("status", VStr status);
         ("users", VList users)].

Definition some_addresses : list value :=
  [address "ip-a" "34.1.2.3" "RESERVED" [];
   address "ip-b" "34.1.2.4" "IN_USE" [VStr "vm-a"];
   address "ip-c" "34.1.2.5" "RESERVED" [VStr "vm-b"]].

Definition some_rules : list value :=
  [VDict [("name", VStr "lb-a"); ("IPAddress", VStr "34.9.9.9");
          ("target", VStr "https://www.googleapis.com/compute/v1/projects/demo/global/targetHttpProxies/web")];
   VDict [("name", VStr "lb-b")]].

Definition null_target_rules : list value :=
  [VDict [("name", VStr "lb-a"); ("target", VStr "regions/r/targetPools/pool")];
   VDict [("name", VStr "lb-c"); ("target", VNone)]].

(** The second disk is attached and says nothing of its size. *)
Definition some_disks : list value :=
  [disk "data-1" "10" "pd-ssd";
   VDict [("name", VStr "boot"); ("type", VStr "zones/z/diskTypes/pd-SSD");
          ("users", VList [VStr "vm-a"])];
   disk "data-2" "200" "pd-standard"].

Definition odd_size_disks : list value :=
  [disk "data-1" "10" "pd-ssd"; disk "data-3" "10.5" "pd-standard"].

Definition quiet_fleet : list value :=
  [instance "vm-a" "e2-micro" "RUNNING"; instance "vm-b" "e2-small" "RUNNING"].

Definition odd_fleet : list value :=
  [instance "vm-a" "e2-micro" "RUNNING"; VDict [("name", VStr "vm-x")];
   instance "vm-b" "e2-small" "RUNNING"].

(** A configuration with a default region and no [core] section. *)
Definition regional_config : value :=
  VDict [("compute", VDict [("region", VStr "us-central1")])].

Definition more_documents : list value :=
  [demo_config; regional_config; VList some_addresses; VList some_rules; VList null_target_rules;
   VList some_disks; VList odd_size_disks; VList mixed_fleet; VList quiet_fleet;
   VList odd_fleet; VDict [("kind", VStr "compute#instanceList")]; VList []].

Definition more_loads : string -> result value := loads more_documents.

(** A project in which one listing has the given items and every other
    listing is the empty array. *)
Definition project_with (args : list string) (items : value) : list string -> completed :=
  gcloud [(args, json_text items);
          (CONFIG_LIST, json_text demo_config);
          (INSTANCES_LIST, "[]"); (STORAGE_LS, "[]"); (DISKS_LIST, "[]");
          (ADDRESSES_LIST, "[]"); (RULES_LIST, "[]")].

(** The bucket listing is the JSON null; the disks are the given ones. *)
Definition null_buckets (disks : list value) : list string -> completed :=
  gcloud [(CONFIG_LIST, json_text demo_config);
          (STORAGE_LS, "null");
          (DISKS_LIST, json_text (VList disks))].

(** Only the forwarding rules can be listed. *)
Definition rules_only (rules : list value) : list string -> completed :=
  gcloud [(CONFIG_LIST, json_text demo_config);
          (RULES_LIST, json_text (VList rules))].

(** Only the addresses can be listed. *)
Definition addresses_only (addresses : list value) : list string -> completed :=
  gcloud [(CONFIG_LIST, json_text demo_config);
          (ADDRESSES_LIST, json_text (VList addresses))].

(** A size of 4300 digits: five, then 4299 zeros.  Two of them add up to
    an integer of 4301 digits. *)
Definition huge_size : string := "5" ++ repeat_str "0" 4299.

Definition huge_disks : list value :=
  [disk "data-1" huge_size "pd-ssd"; disk "data-2" huge_size "pd-standard"].

Definition huge_loads : string -> result value :=
  loads [demo_config; VList huge_disks; VList []].

(** The [gcloud] binary cannot be started. *)
Definition no_gcloud (command : list string) : completed := SpawnError OSError.

(** A decoder that gives up on every text with an exception of its own. *)
Definition exhausted_loads (text : string) : result value := Raise RecursionError.

End Sample.

(* ===================================================================== *)
(** ** The script                                                         *)
(* ===================================================================== *)

Section Analyzer.

(** The outside world: the [gcloud] process, the JSON decoder and the
    clock read at load time. *)
Variable subprocess_run : list string -> completed.
Variable json_loads : string -> result value.
Variable TODAY : string.

(** Line 9.  The reports directory is made when the script is loaded, and
    opening the report file is taken to succeed. *)
Definition REPORT_FILE : string :=
  "../reports/gcp_cost_report_" ++ TODAY ++ ".txt".

(** Lines 11 to 19: only a failed command is caught; it is reported on
    standard output and gives [None]. *)
Definition run_gcloud (args : list string) : M (option string) :=
  let command := "gcloud" :: args in
  match subprocess_run command with
  | Completed stdout => ret (Some stdout)
  | CalledProcessError stderr =>
      (print ("Error running command: " ++ join " " command) ;;
       print ("Error: " ++ stderr) ;;
       ret None)%run
  | SpawnError e => lift (Raise e)
  end.

(** Lines 21 to 26: the decoder runs outside any [try]. *)
Definition get_project_info : M (option value) :=
  (print "Getting project information..." ;;
   project_info <- run_gcloud CONFIG_LIST ;;
   match fetched project_info with
   | Some text => v <- lift (json_loads text) ;; ret (Some v)
   | None => ret None
   end)%run.

(** *** Compute Engine *)

Definition separator : string := line (repeat_str "=" 50).

(** [machine_types[machine_type] = count] *)
Fixpoint dict_set (k : string) (c : Z) (d : list (string * Z)) : list (string * Z) :=
  match d with
  | [] => [(k, c)]
  | (k', c') :: d' =>
      if k =? k' then (k', c) :: d' else (k', c') :: dict_set k c d'
  end.

(** The body of the counting loop for one machine type. *)
Definition tally (machine_type : string) (machine_types : list (string * Z))
  : result (list (string * Z)) :=
  let machine_types :=
    match lookup machine_type machine_types with
    | None => dict_set machine_type 0%Z machine_types
    | Some _ => machine_types
    end in
  match lookup machine_type machine_types with
  | Some c => Ok (dict_set machine_type (c + 1)%Z machine_types)
  | None => Raise KeyError
  end.

(** [instance['machineType'].split('/')[-1]] *)
Definition machine_type_of (instance : value) : result string :=
  (v <- py_getitem instance "machineType" ;; py_split_last v)%result.

(** [instance['zone'].split('/')[-1]] *)
Definition zone_of (instance : value) : result string :=
  (v <- py_getitem instance "zone" ;; py_split_last v)%result.

(** Lines 49 to 53: the loop that counts instances by machine type. *)
Fixpoint count_machine_types (instances_data : list value)
  (machine_types : list (string * Z)) : result (list (string * Z)) :=
  match instances_data with
  | [] => Ok machine_types
  | instance :: rest =>
      (machine_type <- machine_type_of instance ;;
       machine_types <- tally machine_type machine_types ;;
       count_machine_types rest machine_types)%result
  end.

Definition summary_line (entry : string * Z) : string :=
  line ("  - " ++ fst entry ++ ": " ++ str_int (snd entry) ++ " instances").

(** Lines 55 to 57. *)
Definition summary_table (machine_types : list (string * Z)) : string :=
  line "Instance Types Summary:" ++ cat (map summary_line machine_types).

Definition opportunities_title : string :=
  nl ++ line "Optimization Opportunities:".

(** Line 63: [i['status'] == 'TERMINATED']. *)
Definition is_stopped (i : value) : result bool :=
  (s <- py_getitem i "status" ;; Ok (py_eq_str s "TERMINATED"))%result.

Definition stopped_instances (instances_data : list value) : result (list value) :=
  filterM is_stopped instances_data.

(** The f-string of line 67. *)
Definition stopped_entry (name zone : string) : string :=
  line ("   - " ++ name ++ " (Zone: " ++ zone ++ ")").

Definition stopped_line (instance : value) : result string :=
  (name <- py_getitem instance "name" ;;
   zone <- zone_of instance ;;
   Ok (stopped_entry (py_str name) zone))%result.

(** Lines 71 to 74: [any(large_type in i['machineType'] for large_type in
    LARGE_TYPES)]. *)
Definition is_large (i : value) : result bool :=
  anyM (fun large_type =>
          (mt <- py_getitem i "machineType" ;; py_contains large_type mt)%result)
       LARGE_TYPES.

Definition large_instances (instances_data : list value) : result (list value) :=
  filterM is_large instances_data.

(** The f-string of line 79. *)
Definition large_entry (name machine_type zone : string) : string :=
  line ("   - " ++ name ++ " (Type: " ++ machine_type ++ ", Zone: " ++ zone ++ ")").

Definition large_line (instance : value) : result string :=
  (machine_type <- machine_type_of instance ;;
   name <- py_getitem instance "name" ;;
   zone <- zone_of instance ;;
   Ok (large_entry (py_str name) machine_type zone))%result.

Definition nonempty {A : Type} (l : list A) : bool :=
  match l with [] => false | _ => true end.

Definition len {A : Type} (l : list A) : Z := Z.of_nat (List.length l).

Definition NO_INSTANCES : string := "No Compute Engine instances found.".
Definition NO_INSTANCES_DATA : string :=
  "No Compute Engine instances found or error retrieving data.".
Definition COMPUTE_PARSE_ERROR : string := "Error parsing Compute Engine data.".

Definition compute_header : string :=
  line COMPUTE_TITLE ++ separator ++ nl.

(** The f-string of line 65. *)
Definition stopped_heading (count : Z) : string :=
  nl ++ line ("1. You have " ++ str_int count
              ++ " stopped instances that are still incurring storage costs:").

Definition stopped_advice : string :=
  line "   Recommendation: Delete unused instances to avoid storage charges.".

(** The stopped-instances recommendation, empty when there is none. *)
Definition stopped_report (stopped : list value) : result string :=
  if nonempty stopped then
    (entries <- mapM stopped_line stopped ;;
     Ok (stopped_heading (len stopped) ++ cat entries ++ stopped_advice))%result
  else Ok "".

(** The f-string of line 76. *)
Definition large_heading (count : Z) : string :=
  nl ++ line ("2. You have " ++ str_int count
              ++ " large instances that might be oversized:").

Definition large_advice : string :=
  line "   Recommendation: Monitor CPU and memory usage and consider downsizing if utilization is low.".

(** The oversized-instances recommendation, empty when there is none. *)
Definition large_report (large : list value) : result string :=
  if nonempty large then
    (entries <- mapM large_line large ;;
     Ok (large_heading (len large) ++ cat entries ++ large_advice))%result
  else Ok "".

(** Lines 83 to 89. *)
Definition compute_advice : string :=
  nl ++ line "3. Sustained Use Discount Opportunities:"
  ++ line "   - Instances running continuously for a month automatically receive sustained use discounts."
  ++ line "   - Consider converting eligible workloads to committed use contracts for 1-3 year terms to save 20-60%."
  ++ nl ++ line "4. Preemptible VM Opportunities:"
  ++ line "   - For fault-tolerant, batch processing workloads, consider using preemptible VMs to save up to 80%.".

(** Lines 40 to 91: the report for the decoded listing. *)
Definition compute_report (instances_data : value) : result string :=
  let report := compute_header in
  if negb (truthy instances_data) then
    Ok (report ++ line NO_INSTANCES)
  else
    (items <- py_iter instances_data ;;
     machine_types <- count_machine_types items [] ;;
     let report := report ++ summary_table machine_types in
     let report := report ++ opportunities_title in
     stopped <- stopped_instances items ;;
     stopped_text <- stopped_report stopped ;;
     let report := report ++ stopped_text in
     large <- large_instances items ;;
     large_text <- large_report large ;;
     let report := report ++ large_text in
     Ok (report ++ compute_advice))%result.

(** [try: data = json.loads(text) ... except json.JSONDecodeError: ...]:
    only the decoder's own error is caught. *)
Definition try_loads {A : Type} (text : string)
  (body : value -> result A) (handler : result A) : result A :=
  match json_loads text with
  | Ok data => body data
  | Raise JSONDecodeError => handler
  | Raise e => Raise e
  end.

(** Lines 28 to 38, then [compute_report]. *)
Definition analyze_compute_instances : M string :=
  (print "Analyzing Compute Engine instances..." ;;
   instances <- run_gcloud INSTANCES_LIST ;;
   match fetched instances with
   | None => ret NO_INSTANCES_DATA
   | Some text => lift (try_loads text compute_report (Ok COMPUTE_PARSE_ERROR))
   end)%run.

(** *** Storage *)

Definition storage_header : string :=
  line STORAGE_TITLE ++ separator ++ nl.

(** Lines 114 to 119: the heading, the four storage classes and the
    lifecycle recommendation. *)
Definition storage_class_guidance : string :=
  line "   Storage Class Recommendations:"
  ++ line "   - Standard Storage: Use for frequently accessed data (multiple times a month)"
  ++ line "   - Nearline Storage: Use for data accessed less than once a month (20% cheaper)"
  ++ line "   - Coldline Storage: Use for data accessed less than once a quarter (50% cheaper)"
  ++ line "   - Archive Storage: Use for data accessed less than once a year (90% cheaper)"
  ++ line "   Recommendation: Set up Object Lifecycle Management to automatically transition objects to cheaper storage classes.".

(** The f-string of line 110. *)
Definition buckets_count (count : Z) : string :=
  line ("1. You have " ++ str_int count ++ " Cloud Storage buckets.").

Definition BUCKETS_PARSE_ERROR : string :=
  "1. You have Cloud Storage buckets, but couldn't parse the data.".
Definition NO_BUCKETS_DATA : string :=
  "No Cloud Storage buckets found or error retrieving data.".
Definition NO_DISKS_DATA : string :=
  "No persistent disks found or error retrieving data.".
Definition DISKS_PARSE_ERROR : string := "Error parsing disk data.".

Definition buckets_title : string := line "Cloud Storage Optimization:".
Definition disks_title : string := nl ++ line "Persistent Disk Optimization:".

(** Lines 105 to 121: what the bucket analysis appends. *)
Definition buckets_report (buckets : option string) : result string :=
  let report := buckets_title in
  match fetched buckets with
  | Some text =>
      (counted <-
         try_loads text
           (fun buckets_data =>
              n <- py_len buckets_data ;; Ok (buckets_count n))
           (Ok (line BUCKETS_PARSE_ERROR)) ;;
       Ok (report ++ counted ++ storage_class_guidance))%result
  | None => Ok (report ++ line NO_BUCKETS_DATA)
  end.

(** ['users' not in d or not d['users']] *)
Definition is_unattached (d : value) : result bool :=
  (has <- py_contains "users" d ;;
   if negb has then Ok true
   else users <- py_getitem d "users" ;; Ok (negb (truthy users)))%result.

Definition unattached_disks (disks_data : list value) : result (list value) :=
  filterM is_unattached disks_data.

(** [int(d['sizeGb'])] *)
Definition size_of (d : value) : result Z :=
  (v <- py_getitem d "sizeGb" ;; py_int v)%result.

(** The f-string of line 135. *)
Definition disk_entry (name size type : string) : string :=
  line ("   - " ++ name ++ " (Size: " ++ size ++ " GB, Type: " ++ type ++ ")").

Definition disk_line (disk : value) : result string :=
  (name <- py_getitem disk "name" ;;
   size <- py_getitem disk "sizeGb" ;;
   type <- py_getitem disk "type" ;;
   type <- py_split_last type ;;
   Ok (disk_entry (py_str name) (py_str size) type))%result.

(** The f-string of line 132. *)
Definition unattached_heading (count : Z) : string :=
  line ("1. You have " ++ str_int count
        ++ " unattached persistent disks that are incurring costs:").

(** The f-string of line 136: the total is an [int] the script computed,
    and printing it raises when it has more than 4300 digits. *)
Definition unattached_total (total_size_gb : Z) : result string :=
  (total <- py_str_int total_size_gb ;;
   Ok (line ("   Total unattached disk space: " ++ total ++ " GB")))%result.

Definition unattached_advice : string :=
  line "   Recommendation: Delete unattached disks or create snapshots before deletion if the data is needed.".

(** The unattached-disk report, empty when there is none. *)
Definition unattached_report (unattached : list value) : result string :=
  if nonempty unattached then
    (sizes <- mapM size_of unattached ;;
     let total_size_gb := py_sum sizes in
     entries <- mapM disk_line unattached ;;
     total <- unattached_total total_size_gb ;;
     Ok (unattached_heading (len unattached)
         ++ cat entries
         ++ total
         ++ unattached_advice))%result
  else Ok "".

(** ['ssd' in d['type'].lower()] *)
Definition is_ssd (d : value) : result bool :=
  (type <- py_getitem d "type" ;;
   type <- py_lower type ;;
   Ok (str_contains "ssd" type))%result.

Definition ssd_disks (disks_data : list value) : result (list value) :=
  filterM is_ssd disks_data.

(** Lines 141 to 143. *)
Definition ssd_report (ssd : list value) : string :=
  if nonempty ssd then
    nl ++ line ("2. You have " ++ str_int (len ssd) ++ " SSD persistent disks:")
    ++ line "   Recommendation: For non-performance-critical workloads, consider using Standard persistent disks to reduce costs."
  else "".

(** Lines 127 to 143: the body of the [try] of the disk analysis. *)
Definition disks_body (disks_data : value) : result string :=
  (items <- py_iter disks_data ;;
   unattached <- unattached_disks items ;;
   unattached_text <- unattached_report unattached ;;
   ssd <- ssd_disks items ;;
   Ok (unattached_text ++ ssd_report ssd))%result.

(** Lines 123 to 147: what the disk analysis appends. *)
Definition disks_report (disks : option string) : result string :=
  let report := disks_title in
  match fetched disks with
  | Some text =>
      (body <- try_loads text disks_body (Ok (line DISKS_PARSE_ERROR)) ;;
       Ok (report ++ body))%result
  | None => Ok (report ++ line NO_DISKS_DATA)
  end.

(** Lines 93 to 149: both listings are fetched before the report is
    built. *)
Definition analyze_storage : M string :=
  (print "Analyzing storage resources..." ;;
   buckets <- run_gcloud STORAGE_LS ;;
   disks <- run_gcloud DISKS_LIST ;;
   let report := storage_header in
   buckets_text <- lift (buckets_report buckets) ;;
   disks_text <- lift (disks_report disks) ;;
   ret (report ++ buckets_text ++ disks_text))%run.

(** *** Networking *)

Definition network_header : string :=
  line NETWORK_TITLE ++ separator ++ nl.

Definition NO_ADDRESSES_DATA : string :=
  "No external IP addresses found or error retrieving data.".
Definition ADDRESSES_PARSE_ERROR : string := "Error parsing IP address data.".
Definition NO_RULES_DATA : string :=
  "No load balancers found or error retrieving data.".
Definition RULES_PARSE_ERROR : string := "Error parsing forwarding rules data.".

Definition addresses_title : string := line "External IP Address Optimization:".
Definition rules_title : string := nl ++ line "Load Balancer Optimization:".

(** Line 169: [a['status'] == 'RESERVED']. *)
Definition is_reserved (a : value) : result bool :=
  (s <- py_getitem a "status" ;; Ok (py_eq_str s "RESERVED"))%result.

Definition static_ips (addresses_data : list value) : result (list value) :=
  filterM is_reserved addresses_data.

(** ['users' in ip and ip['users']], as a truth value. *)
Definition in_use (ip : value) : result bool :=
  (has <- py_contains "users" ip ;;
   if has then users <- py_getitem ip "users" ;; Ok (truthy users)
   else Ok false)%result.

(** Lines 173 to 175. *)
Definition ip_line (ip : value) : result string :=
  (used <- in_use ip ;;
   let status := if used then "In use" else "Not in use" in
   address <- py_getitem ip "address" ;;
   name <- py_getitem ip "name" ;;
   Ok (line ("   - " ++ py_str address ++ " (Name: " ++ py_str name
             ++ ", Status: " ++ status ++ ")")))%result.

(** Lines 167 to 176: the body of the [try] of the address analysis. *)
Definition addresses_body (addresses_data : value) : result string :=
  if truthy addresses_data then
    (items <- py_iter addresses_data ;;
     static <- static_ips items ;;
     if nonempty static then
       lines <- mapM ip_line static ;;
       Ok (line ("1. You have " ++ str_int (len static)
                 ++ " reserved static external IP addresses:")
           ++ cat lines
           ++ line "   Recommendation: Delete unused static IPs as they incur charges even when not attached to resources.")
     else Ok "")%result
  else Ok "".

(** Lines 163 to 180: what the address analysis appends. *)
Definition addresses_report (addresses : option string) : result string :=
  let report := addresses_title in
  match fetched addresses with
  | Some text =>
      (body <- try_loads text addresses_body (Ok (line ADDRESSES_PARSE_ERROR)) ;;
       Ok (report ++ body))%result
  | None => Ok (report ++ line NO_ADDRESSES_DATA)
  end.

(** Line 190. *)
Definition rule_line (rule : value) : result string :=
  (name <- py_getitem rule "name" ;;
   address <- py_get rule "IPAddress" (VStr "N/A") ;;
   target <- py_get rule "target" (VStr "N/A") ;;
   target <- py_split_last target ;;
   Ok (line ("   - " ++ py_str name ++ " (IP: " ++ py_str address
             ++ ", Target: " ++ target ++ ")")))%result.

(** Lines 186 to 191: the body of the [try] of the forwarding-rule
    analysis. *)
Definition rules_body (rules_data : value) : result string :=
  if truthy rules_data then
    (n <- py_len rules_data ;;
     items <- py_iter rules_data ;;
     lines <- mapM rule_line items ;;
     Ok (line ("1. You have " ++ str_int n ++ " load balancer forwarding rules:")
         ++ cat lines
         ++ line "   Recommendation: Load balancers incur hourly charges. Consider consolidating load balancers where possible."))%result
  else Ok "".

(** Lines 182 to 195: what the forwarding-rule analysis appends. *)
Definition rules_report (forwarding_rules : option string) : result string :=
  let report := rules_title in
  match fetched forwarding_rules with
  | Some text =>
      (body <- try_loads text rules_body (Ok (line RULES_PARSE_ERROR)) ;;
       Ok (report ++ body))%result
  | None => Ok (report ++ line NO_RULES_DATA)
  end.

(** Lines 151 to 197: both listings are fetched before the report is
    built. *)
Definition analyze_network : M string :=
  (print "Analyzing networking resources..." ;;
   addresses <- run_gcloud ADDRESSES_LIST ;;
   forwarding_rules <- run_gcloud RULES_LIST ;;
   let report := network_header in
   addresses_text <- lift (addresses_report addresses) ;;
   rules_text <- lift (rules_report forwarding_rules) ;;
   ret (report ++ addresses_text ++ rules_text))%run.

(** *** Billing and general advice *)

Definition billing_header : string :=
  line BILLING_TITLE ++ separator ++ nl.

(** Lines 202 to 217. *)
Definition billing_report : string :=
  billing_header
  ++ line "1. Set up Budget Alerts:"
  ++ line "   - Create budget alerts to notify you when spending approaches predefined thresholds"
  ++ line "   - Use the following command to create a budget alert:"
  ++ line "     gcloud billing budgets create --billing-account=ACCOUNT_ID --display-name=BUDGET_NAME --budget-amount=1000USD --threshold-rules=percent=80"
  ++ nl
  ++ line "2. Export Billing Data to BigQuery:"
  ++ line "   - Export your billing data to BigQuery for detailed analysis"
  ++ line "   - Create custom dashboards to track spending by project, service, and label"
  ++ line "   - Use Data Studio to visualize your spending patterns"
  ++ nl
  ++ line "3. Use Labels for Cost Allocation:"
  ++ line "   - Apply consistent labels to all resources for better cost tracking"
  ++ line "   - Example labels: environment (prod, dev, test), team, project, application".

(** Lines 199 to 219. *)
Definition analyze_billing : M string :=
  (print "Analyzing billing data..." ;;
   ret billing_report)%run.

Definition general_header : string :=
  nl ++ line GENERAL_TITLE ++ line (repeat_str "=" 41).

Definition general_advice : list string :=
  [
   EmptyString;
   "1. Resource Rightsizing:";
   "   - Regularly review and rightsize your resources based on actual usage patterns";
   "   - Use GCP's Recommender API to get automatic rightsizing recommendations";
   EmptyString;
   "2. Committed Use Discounts:";
   "   - Purchase committed use contracts for steady-state workloads to save up to 57%";
   "   - Analyze your usage patterns to determine optimal commitment levels";
   EmptyString;
   "3. Sustained Use Discounts:";
   "   - GCP automatically applies sustained use discounts for resources used for significant portions of the month";
   "   - Consolidate workloads to maximize these discounts";
   EmptyString;
   "4. Preemptible VMs:";
   "   - Use preemptible VMs for fault-tolerant, batch processing workloads to save up to 80%";
   "   - Ensure your applications can handle interruptions";
   EmptyString;
   "5. Storage Optimization:";
   "   - Use appropriate storage classes based on access frequency";
   "   - Implement lifecycle policies to automatically transition objects to cheaper storage classes";
   "   - Delete unnecessary snapshots and unattached persistent disks";
   EmptyString;
   "6. Networking Optimization:";
   "   - Avoid using external IPs for internal communication";
   "   - Use Cloud NAT for outbound traffic instead of assigning external IPs to each instance";
   "   - Delete unused static external IPs";
   EmptyString;
   "7. Budgets and Alerts:";
   "   - Set up budget alerts to notify you when spending approaches predefined thresholds";
   "   - Use GCP's Cost Explorer to identify cost trends and anomalies";
   EmptyString;
   "8. Scheduled Resources:";
   "   - Schedule non-production resources to shut down during off-hours";
   "   - Use Cloud Scheduler and Cloud Functions to automate resource management";
   EmptyString;
   "9. Containerization:";
   "   - Consider using Google Kubernetes Engine (GKE) to optimize resource utilization";
   "   - Use GKE Autopilot to let Google manage capacity provisioning";
   EmptyString;
   "10. Billing Export:";
   "    - Export billing data to BigQuery for detailed analysis";
   "    - Create custom dashboards to track spending by project, service, and label"
  ].

(** Lines 221 to 269: the literal starts with a newline. *)
Definition generate_cost_recommendations : string :=
  general_header ++ cat (map line general_advice).

(** *** The assembler *)

(** Lines 287 and 288: the project line of the preamble, when the decoded
    configuration names a project. *)
Definition project_line (project_info : value) : result (option string) :=
  (has_core <- py_contains "core" project_info ;;
   if has_core then
     core <- py_getitem project_info "core" ;;
     has_project <- py_contains "project" core ;;
     if has_project then
       core <- py_getitem project_info "core" ;;
       project <- py_getitem core "project" ;;
       Ok (Some ("Project: " ++ py_str project ++ nl ++ nl))
     else Ok None
   else Ok None)%result.

Definition write (text : string) : M unit := emit (Write text).

Definition AUTH_ERROR : string :=
  "Error: Unable to get project information. Make sure you're authenticated with GCP.".
Definition AUTH_HINT : string := "Run 'gcloud auth login' to authenticate.".

(** Lines 278 to 280. *)
Definition auth_hint : M unit :=
  (print AUTH_ERROR ;; print AUTH_HINT)%run.

(** Lines 283 to 307: the body of [with open(REPORT_FILE, 'w') as f]. *)
Definition write_report (project_info : value) : M unit :=
  (emit (Open REPORT_FILE) ;;
   write (line ("GCP COST OPTIMIZATION REPORT - " ++ TODAY)) ;;
   write (separator ++ nl) ;;
   project <- lift (project_line project_info) ;;
   match project with
   | Some text => write text
   | None => ret tt
   end ;;
   compute_report <- analyze_compute_instances ;;
   write (compute_report ++ nl ++ nl) ;;
   storage_report <- analyze_storage ;;
   write (storage_report ++ nl ++ nl) ;;
   network_report <- analyze_network ;;
   write (network_report ++ nl ++ nl) ;;
   billing_report <- analyze_billing ;;
   write (billing_report ++ nl ++ nl) ;;
   write generate_cost_recommendations)%run.

(** The f-string of line 309. *)
Definition REPORT_GENERATED : string := "Report generated: " ++ REPORT_FILE.

(** Lines 271 to 310. *)
Definition main : M unit :=
  (print "GCP Cost Optimization Tool" ;;
   print "=========================" ;;
   project_info <- get_project_info ;;
   if truthy_opt project_info then
     match project_info with
     | Some info =>
         write_report info ;;
         print REPORT_GENERATED ;;
         print "To view the report, open it in a text editor."
     | None => auth_hint
     end
   else auth_hint)%run.

(* ===================================================================== *)
(** ** What the script is given                                           *)
(* ===================================================================== *)

(** [run_gcloud args] returns, and the caller's [if data:] sees [data]:
    [None] when the command failed or printed nothing. *)
Definition fetches (args : list string) (data : option string) : Prop :=
  exists tr o, run_gcloud args = (tr, Ok o) /\ fetched o = data.

(** The command prints a text that decodes to [v]. *)
Definition decodes (args : list string) (v : value) : Prop :=
  exists text, fetches args (Some text) /\ json_loads text = Ok v.

(** The command prints a text that is not JSON. *)
Definition garbled (args : list string) : Prop :=
  exists text, fetches args (Some text) /\ json_loads text = Raise JSONDecodeError.

(** A listing with nothing to analyse: no data, not JSON, or the empty
    array. *)
Definition degraded (args : list string) : Prop :=
  fetches args None \/ garbled args \/ decodes args (VList []).

(** The computation returns [a]. *)
Definition returns {A : Type} (m : M A) (a : A) : Prop := snd m = Ok a.

(** The computation raises [e]. *)
Definition raises {A : Type} (m : M A) (e : exn) : Prop := snd m = Raise e.

(** The title of the report, before the project line. *)
Definition preamble : string :=
  line ("GCP COST OPTIMIZATION REPORT - " ++ TODAY) ++ (separator ++ nl).

(** The text the project line adds to the preamble. *)
Definition project_text (project : option string) : string :=
  match project with
  | Some text => text
  | None => ""
  end.

(** The text of the report file once every section is written. *)
Definition full_report (project compute storage network : string) : string :=
  preamble
  ++ project
  ++ (compute ++ nl ++ nl) ++ (storage ++ nl ++ nl) ++ (network ++ nl ++ nl)
  ++ (billing_report ++ nl ++ nl) ++ generate_cost_recommendations.

(** The rows the compute report shows for a well-formed instance. *)
Definition stopped_item (i : value) : string :=
  stopped_entry (shown "name" i) (segment "zone" i).

Definition large_item (i : value) : string :=
  large_entry (shown "name" i) (segment "machineType" i) (segment "zone" i).

(** The stopped-instances recommendation for well-formed instances. *)
Definition stopped_section (stopped : list value) : string :=
  if nonempty stopped then
    stopped_heading (len stopped) ++ cat (map stopped_item stopped) ++ stopped_advice
  else "".

(** The oversized-instances recommendation for well-formed instances. *)
Definition large_section (large : list value) : string :=
  if nonempty large then
    large_heading (len large) ++ cat (map large_item large) ++ large_advice
  else "".

(** The sum of the counts of a summary table. *)
Definition total (machine_types : list (string * Z)) : Z :=
  sum_Z (map snd machine_types).

(* ===================================================================== *)
(** ** Facts about texts and lines                                        *)
(* ===================================================================== *)

Lemma app_assoc_s (a b c : string) : (a ++ b) ++ c = a ++ (b ++ c).
Proof. induction a as [|x a IH]; simpl; [reflexivity | now rewrite IH]. Qed.

Lemma app_empty_r (a : string) : a ++ "" = a.
Proof. induction a as [|x a IH]; simpl; [reflexivity | now rewrite IH]. Qed.

Lemma startswith_app (sub s : string) : startswith sub (sub ++ s) = true.
Proof.
  induction sub as [|c sub IH]; simpl; [reflexivity|].
  now rewrite Ascii.eqb_refl, IH.
Qed.

Lemma str_contains_app (sub a b : string) : str_contains sub (a ++ sub ++ b) = true.
Proof.
  induction a as [|c a IH]; simpl.
  - destruct (sub ++ b) eqn:E; simpl; rewrite <- E, startswith_app; reflexivity.
  - rewrite IH. apply orb_true_r.
Qed.

Lemma str_contains_suffix (sub a : string) : str_contains sub (a ++ sub) = true.
Proof. rewrite <- (app_empty_r sub) at 2. apply str_contains_app. Qed.

Lemma split_not_nil (c : ascii) (s : string) : split c s <> [].
Proof.
  destruct s as [|x s]; simpl; [discriminate|].
  destruct (x =? c)%char; [discriminate|].
  destruct (split c s); discriminate.
Qed.

Lemma split_app_sep (c : ascii) (a b : string) :
  split c (a ++ String c b) = (split c a ++ split c b)%list.
Proof.
  induction a as [|x a IH]; simpl.
  - now rewrite Ascii.eqb_refl.
  - rewrite IH. destruct (x =? c)%char; [reflexivity|].
    destruct (split c a) eqn:E; [now apply split_not_nil in E | reflexivity].
Qed.

Lemma split_single (c : ascii) (s seg : string) : split c s = [seg] -> s = seg.
Proof.
  revert seg. induction s as [|x s IH]; simpl; intros seg H.
  - now injection H.
  - destruct (x =? c)%char.
    + injection H as _ H. now apply split_not_nil in H.
    + destruct (split c s) as [|seg' segs] eqn:E; [now apply split_not_nil in E|].
      injection H as H1 H2. subst. now rewrite (IH seg' eq_refl).
Qed.

Lemma last_cons_not_nil (x : string) (l : list string) :
  l <> [] -> last (x :: l) "" = last l "".
Proof. destruct l; [congruence | reflexivity]. Qed.

(** The final segment of a path is what the path ends with. *)
Lemma last_segment_suffix (s : string) : exists p, s = p ++ last_segment s.
Proof.
  unfold last_segment. induction s as [|x s [p IH]].
  - now exists "".
  - simpl split. destruct (x =? "/")%char.
    + rewrite last_cons_not_nil by apply split_not_nil.
      exists (String x p). simpl. now rewrite <- IH.
    + destruct (split "/" s) as [|seg segs] eqn:E; [now apply split_not_nil in E|].
      destruct segs as [|seg2 segs].
      * apply split_single in E. subst. now exists "".
      * exists (String x p). simpl. simpl in IH. now rewrite <- IH.
Qed.

Lemma lines_line (a b : string) : lines (line a ++ b) = (lines a ++ lines b)%list.
Proof.
  unfold lines, line, nl. rewrite app_assoc_s. simpl. apply split_app_sep.
Qed.

Lemma subseq_nil_l (ys : list string) : subseq [] ys = true.
Proof. now destruct ys. Qed.

Lemma subseq_tail (x : string) (xs ys : list string) :
  subseq (x :: xs) ys = true -> subseq xs ys = true.
Proof.
  revert x xs. induction ys as [|y ys IH]; intros x xs H; [discriminate|].
  destruct xs as [|x' xs]; [reflexivity|].
  simpl in H. simpl. destruct (x =? y).
  - destruct (x' =? y); [now apply IH in H | exact H].
  - apply IH in H. destruct (x' =? y); [|exact H].
    destruct xs as [|x2 xs]; [apply subseq_nil_l | now apply IH in H].
Qed.

Lemma subseq_cons_r (xs : list string) (y : string) (ys : list string) :
  subseq xs ys = true -> subseq xs (y :: ys) = true.
Proof.
  destruct xs as [|x xs]; [reflexivity|]. intro H. simpl.
  destruct (x =? y); [now apply subseq_tail in H | exact H].
Qed.

Lemma subseq_app_r (xs ps ys : list string) :
  subseq xs ys = true -> subseq xs (ps ++ ys)%list = true.
Proof.
  intro H. induction ps as [|p ps IH]; [exact H|].
  simpl app. now apply subseq_cons_r.
Qed.

Lemma subseq_cons (x : string) (xs ys : list string) :
  subseq xs ys = true -> subseq (x :: xs) (x :: ys) = true.
Proof. intro H. simpl. now rewrite String.eqb_refl. Qed.

Lemma existsb_app_r {A : Type} (f : A -> bool) (ps ys : list A) :
  existsb f ys = true -> existsb f (ps ++ ys)%list = true.
Proof. intro H. rewrite existsb_app, H. apply orb_true_r. Qed.

(* ===================================================================== *)
(** ** Facts about loops                                                  *)
(* ===================================================================== *)

Lemma Ok_inj {A : Type} (a b : A) : Ok a = Ok b -> a = b.
Proof. now intros [= ->]. Qed.

Lemma filterM_pure {A : Type} (f : A -> result bool) (g : A -> bool) (l : list A) :
  (forall x, In x l -> f x = Ok (g x)) -> filterM f l = Ok (filter g l).
Proof.
  induction l as [|x l IH]; intro H; simpl; [reflexivity|].
  rewrite (H x (or_introl eq_refl)). simpl.
  rewrite IH by (intros y Hy; apply H; now right). reflexivity.
Qed.

Lemma mapM_pure {A B : Type} (f : A -> result B) (g : A -> B) (l : list A) :
  (forall x, In x l -> f x = Ok (g x)) -> mapM f l = Ok (map g l).
Proof.
  induction l as [|x l IH]; intro H; simpl; [reflexivity|].
  rewrite (H x (or_introl eq_refl)). simpl.
  rewrite IH by (intros y Hy; apply H; now right). reflexivity.
Qed.

Lemma filter_all {A : Type} (g : A -> bool) (l : list A) :
  forallb g l = true -> filter g l = l.
Proof.
  induction l as [|x l IH]; simpl; [reflexivity|].
  intro H. apply andb_prop in H as [Hx Hl]. now rewrite Hx, IH.
Qed.

Lemma py_sum_from (l : list Z) (a : Z) : fold_left Z.add l a = (a + sum_Z l)%Z.
Proof.
  revert a. induction l as [|n l IH]; intro a; simpl; [lia|].
  rewrite IH. lia.
Qed.

Lemma py_sum_sum_Z (l : list Z) : py_sum l = sum_Z l.
Proof. unfold py_sum. now rewrite py_sum_from. Qed.

Lemma len_cons {A : Type} (x : A) (l : list A) : len (x :: l) = (len l + 1)%Z.
Proof. unfold len. simpl List.length. lia. Qed.

(* ===================================================================== *)
(** ** Facts about integers and their decimal text                        *)
(* ===================================================================== *)

Lemma count_digits_length (s : string) :
  (0 <= count_digits s <= Z.of_nat (String.length s))%Z.
Proof.
  induction s as [|c s IH]; [simpl; lia|].
  cbn [count_digits String.length]. destruct (digit_of c); lia.
Qed.

Lemma digits_uint_acc (d : Decimal.uint) (p : positive) :
  digits (Z.pos p) true (NilEmpty.string_of_uint d)
  = Some (Z.pos (Pos.of_uint_acc d p)).
Proof.
  revert p. induction d as [|d IH|d IH|d IH|d IH|d IH|d IH|d IH|d IH|d IH|d IH];
    intro p; [reflexivity|..];
    cbn [NilEmpty.string_of_uint Pos.of_uint_acc digits];
    match goal with
    | |- context [digit_of ?c] =>
        let k := eval cbv in (digit_of c) in change (digit_of c) with k
    end;
    cbv iota;
    match goal with
    | |- digits ?acc true _ = Some (Z.pos (Pos.of_uint_acc _ ?q)) =>
        replace acc with (Z.pos q) by lia
    end;
    apply IH.
Qed.

Lemma digits_uint_zero (d : Decimal.uint) (after_digit : bool) :
  d <> Decimal.Nil \/ after_digit = true ->
  digits 0 after_digit (NilEmpty.string_of_uint d) = Some (Z.of_uint d).
Proof.
  unfold Z.of_uint. revert after_digit.
  induction d as [|d IH|d IH|d IH|d IH|d IH|d IH|d IH|d IH|d IH|d IH];
    intros after_digit H.
  - destruct H as [H| ->]; [congruence | reflexivity].
  - cbn [NilEmpty.string_of_uint Pos.of_uint digits].
    change (digit_of "0") with (Some 0%Z). cbv iota.
    change (10 * 0 + 0)%Z with 0%Z. apply IH. now right.
  - apply (digits_uint_acc d 1).
  - apply (digits_uint_acc d 2).
  - apply (digits_uint_acc d 3).
  - apply (digits_uint_acc d 4).
  - apply (digits_uint_acc d 5).
  - apply (digits_uint_acc d 6).
  - apply (digits_uint_acc d 7).
  - apply (digits_uint_acc d 8).
  - apply (digits_uint_acc d 9).
Qed.

(** A text of decimal digits is read as the number it spells, and as its
    opposite after a minus sign. *)
Lemma parse_int_uint (d : Decimal.uint) :
  d <> Decimal.Nil ->
  parse_int (NilEmpty.string_of_uint d) = Some (Z.of_uint d)
  /\ parse_int (String "-" (NilEmpty.string_of_uint d)) = Some (- Z.of_uint d)%Z.
Proof.
  intro H. pose proof (digits_uint_zero d false (or_introl H)) as Hd. split.
  - destruct d; [congruence|..]; unfold parse_int;
      cbn [NilEmpty.string_of_uint lstrip] in *;
      match goal with
      | |- context [is_space ?c] => change (is_space c) with false
      end; cbv iota; cbv beta iota zeta; exact Hd.
  - unfold parse_int. cbn [lstrip]. change (is_space "-") with false.
    cbv beta iota zeta. now rewrite Hd.
Qed.

Lemma count_digits_uint (d : Decimal.uint) :
  count_digits (NilEmpty.string_of_uint d) = Z.of_nat (Decimal.nb_digits d).
Proof.
  induction d as [|d IH|d IH|d IH|d IH|d IH|d IH|d IH|d IH|d IH|d IH];
    [reflexivity|..];
    cbn [NilEmpty.string_of_uint count_digits Decimal.nb_digits];
    match goal with
    | |- context [digit_of ?c] =>
        let k := eval cbv in (digit_of c) in change (digit_of c) with k
    end;
    cbv iota; rewrite IH; lia.
Qed.

Lemma uint_of_string_nonnil (c : ascii) (s : string) (d : Decimal.uint) :
  NilEmpty.uint_of_string (String c s) = Some d -> d <> Decimal.Nil.
Proof.
  intros H ->. apply NilEmpty.sus in H. discriminate.
Qed.

(** On a text of at most 4300 decimal digits, with a minus sign before
    them for a negative number, [int] gives the integer that the decimal
    reader of the standard library gives. *)
Lemma int_of_str_decimal (s : string) (i : Decimal.signed_int) :
  NilZero.int_of_string s = Some i ->
  (written_digits i <= INT_MAX_STR_DIGITS)%Z ->
  int_of_str s = Ok (Z.of_int i).
Proof.
  intros H Hlen. unfold int_of_str.
  destruct s as [|a s]; [discriminate|]. cbn [NilZero.int_of_string] in H.
  destruct (a =? "-")%char eqn:Ha.
  - apply Ascii.eqb_eq in Ha. subst a.
    destruct s as [|b s]; [discriminate|]. cbn [NilZero.uint_of_string] in H.
    destruct (NilEmpty.uint_of_string (String b s)) as [d|] eqn:Hd; [|discriminate].
    injection H as <-. pose proof (uint_of_string_nonnil _ _ _ Hd) as Hnil.
    apply NilEmpty.sus in Hd. rewrite <- Hd.
    destruct (parse_int_uint d Hnil) as [_ ->].
    cbn [count_digits]. change (digit_of "-") with (@None Z). cbv iota.
    rewrite count_digits_uint. cbn [written_digits] in Hlen.
    apply Z.leb_le in Hlen. now rewrite Hlen.
  - cbn [NilZero.uint_of_string] in H.
    destruct (NilEmpty.uint_of_string (String a s)) as [d|] eqn:Hd; [|discriminate].
    injection H as <-. pose proof (uint_of_string_nonnil _ _ _ Hd) as Hnil.
    apply NilEmpty.sus in Hd. rewrite <- Hd.
    destruct (parse_int_uint d Hnil) as [-> _].
    rewrite count_digits_uint. cbn [written_digits] in Hlen.
    apply Z.leb_le in Hlen. now rewrite Hlen.
Qed.

(** The number that digits after [acc] spell lies between [acc] and
    [acc + 1], both followed by as many zeros. *)
Lemma of_uint_acc_bounds (d : Decimal.uint) (acc : positive) :
  (Z.pos acc * 10 ^ Z.of_nat (Decimal.nb_digits d)
   <= Z.pos (Pos.of_uint_acc d acc)
   < (Z.pos acc + 1) * 10 ^ Z.of_nat (Decimal.nb_digits d))%Z.
Proof.
  revert acc. induction d as [|d IH|d IH|d IH|d IH|d IH|d IH|d IH|d IH|d IH|d IH];
    intro acc; [simpl; lia|..];
    cbn [Pos.of_uint_acc Decimal.nb_digits];
    rewrite Nat2Z.inj_succ, Z.pow_succ_r by lia;
    match goal with
    | |- context [Pos.of_uint_acc d ?q] => specialize (IH q)
    end;
    assert (0 < 10 ^ Z.of_nat (Decimal.nb_digits d))%Z by (apply Z.pow_pos_nonneg; lia);
    nia.
Qed.

(** The decimal digits of a positive number start with no zero. *)
Lemma to_uint_head (p : positive) :
  exists acc l,
    Pos.of_uint (Pos.to_uint p) = N.pos (Pos.of_uint_acc l acc)
    /\ Decimal.nb_digits (Pos.to_uint p) = S (Decimal.nb_digits l)
    /\ (1 <= Z.pos acc <= 9)%Z.
Proof.
  pose proof (DecimalPos.Unsigned.to_of (Pos.to_uint p)) as H.
  rewrite DecimalPos.Unsigned.of_to in H. cbn [N.to_uint] in H.
  pose proof (DecimalPos.Unsigned.to_uint_nonzero p) as Hz.
  destruct (Pos.to_uint p) as [|l|l|l|l|l|l|l|l|l|l] eqn:E.
  - now apply DecimalPos.Unsigned.to_uint_nonnil in E.
  - exfalso. unfold Decimal.unorm in H. rewrite DecimalFacts.nzhead_D0 in H.
    destruct (Decimal.nzhead l) eqn:En; try discriminate.
    + injection H as Hl. apply Hz. now rewrite <- Hl.
    + now apply DecimalFacts.nzhead_nonzero in En.
  - exists 1%positive, l. repeat split; lia.
  - exists 2%positive, l. repeat split; lia.
  - exists 3%positive, l. repeat split; lia.
  - exists 4%positive, l. repeat split; lia.
  - exists 5%positive, l. repeat split; lia.
  - exists 6%positive, l. repeat split; lia.
  - exists 7%positive, l. repeat split; lia.
  - exists 8%positive, l. repeat split; lia.
  - exists 9%positive, l. repeat split; lia.
Qed.

(** A positive number of [k] decimal digits lies from [10^(k-1)] up to
    [10^k]. *)
Lemma nb_digits_bounds (p : positive) :
  (10 ^ (Z.of_nat (Decimal.nb_digits (Pos.to_uint p)) - 1) <= Z.pos p
   < 10 ^ Z.of_nat (Decimal.nb_digits (Pos.to_uint p)))%Z.
Proof.
  destruct (to_uint_head p) as (acc & l & Hval & -> & Hacc).
  rewrite DecimalPos.Unsigned.of_to in Hval. injection Hval as ->.
  pose proof (of_uint_acc_bounds l acc) as Hb.
  rewrite Nat2Z.inj_succ.
  replace (Z.succ (Z.of_nat (Decimal.nb_digits l)) - 1)%Z
    with (Z.of_nat (Decimal.nb_digits l)) by lia.
  rewrite Z.pow_succ_r by lia.
  assert (0 < 10 ^ Z.of_nat (Decimal.nb_digits l))%Z by (apply Z.pow_pos_nonneg; lia).
  nia.
Qed.

(** How many digits the decimal text of a number has, against the
    limit. *)
Lemma nb_digits_limit (p : positive) (k : Z) :
  (0 <= k)%Z ->
  (Z.of_nat (Decimal.nb_digits (Pos.to_uint p)) <= k <-> Z.pos p < 10 ^ k)%Z.
Proof.
  intro Hk. pose proof (nb_digits_bounds p) as [Hlo Hhi]. split; intro H.
  - eapply Z.lt_le_trans; [exact Hhi|]. apply Z.pow_le_mono_r; lia.
  - destruct (Z.le_gt_cases (Z.of_nat (Decimal.nb_digits (Pos.to_uint p))) k) as [|Hgt];
      [assumption|].
    exfalso.
    assert (10 ^ k <= 10 ^ (Z.of_nat (Decimal.nb_digits (Pos.to_uint p)) - 1))%Z
      by (apply Z.pow_le_mono_r; lia).
    lia.
Qed.

Lemma INT_MAX_STR_DIGITS_nonneg : (0 <= INT_MAX_STR_DIGITS)%Z.
Proof. discriminate. Qed.

Lemma str_int_pos (p : positive) :
  str_int (Z.pos p) = NilEmpty.string_of_uint (Pos.to_uint p)
  /\ str_int (Z.neg p) = String "-" (NilEmpty.string_of_uint (Pos.to_uint p)).
Proof.
  unfold str_int. cbn [Z.to_int NilZero.string_of_int]. unfold NilZero.string_of_uint.
  pose proof (DecimalPos.Unsigned.to_uint_nonnil p).
  now destruct (Pos.to_uint p).
Qed.

Lemma int_fits_pos (p : positive) :
  int_fits (Z.pos p)
  = (Z.of_nat (Decimal.nb_digits (Pos.to_uint p)) <=? INT_MAX_STR_DIGITS)%Z
  /\ int_fits (Z.neg p) = int_fits (Z.pos p).
Proof.
  split; [|reflexivity]. unfold int_fits. cbn [Z.abs].
  pose proof (nb_digits_limit p INT_MAX_STR_DIGITS INT_MAX_STR_DIGITS_nonneg) as Hl.
  destruct (Z.leb_spec (Z.of_nat (Decimal.nb_digits (Pos.to_uint p))) INT_MAX_STR_DIGITS);
    destruct (Z.ltb_spec (Z.pos p) (10 ^ INT_MAX_STR_DIGITS)); try reflexivity;
    exfalso; lia.
Qed.

(** Reading back the decimal text of an integer gives the integer when it
    has at most 4300 digits, and [ValueError] when it has more. *)
Lemma int_of_str_str_int (n : Z) :
  int_of_str (str_int n) = if int_fits n then Ok n else Raise ValueError.
Proof.
  destruct n as [|p|p]; [vm_compute; reflexivity| |].
  - destruct (str_int_pos p) as [-> _]. unfold int_of_str.
    pose proof (DecimalPos.Unsigned.to_uint_nonnil p) as Hnil.
    destruct (parse_int_uint _ Hnil) as [-> _].
    unfold Z.of_uint. rewrite DecimalPos.Unsigned.of_to. cbn [Z.of_N].
    rewrite count_digits_uint. destruct (int_fits_pos p) as [-> _]. reflexivity.
  - destruct (str_int_pos p) as [_ ->]. unfold int_of_str.
    pose proof (DecimalPos.Unsigned.to_uint_nonnil p) as Hnil.
    destruct (parse_int_uint _ Hnil) as [_ ->].
    unfold Z.of_uint. rewrite DecimalPos.Unsigned.of_to. cbn [Z.of_N Z.opp].
    cbn [count_digits]. change (digit_of "-") with (@None Z). cbv iota.
    rewrite count_digits_uint. destruct (int_fits_pos p) as [Hp ->]. rewrite Hp.
    reflexivity.
Qed.

(** The decimal text of an integer of at most 4300 digits declares this
    integer. *)
Lemma declared_str_int (n : Z) :
  int_fits n = true -> declared (VStr (str_int n)) = Some n.
Proof.
  intro Hfit. cbn [declared]. unfold str_int. rewrite NilZero.isi.
  - rewrite DecimalZ.of_to.
    replace (written_digits (Z.to_int n) <=? INT_MAX_STR_DIGITS)%Z with true;
      [reflexivity|].
    destruct n as [|p|p]; [reflexivity| |]; cbn [Z.to_int written_digits].
    + destruct (int_fits_pos p) as [Hp _]. now rewrite <- Hp.
    + destruct (int_fits_pos p) as [Hp Hn]. now rewrite <- Hp, <- Hn.
  - destruct n as [|p|p]; cbn [Z.to_int]; try discriminate.
    intro H. injection H as H. now apply DecimalPos.Unsigned.to_uint_nonnil in H.
  - destruct n as [|p|p]; cbn [Z.to_int]; try discriminate.
    intro H. injection H as H. now apply DecimalPos.Unsigned.to_uint_nonnil in H.
Qed.

(* ===================================================================== *)
(** ** The summary table                                                  *)
(* ===================================================================== *)

Lemma lookup_dict_set (k : string) (c : Z) (d : list (string * Z)) :
  lookup k (dict_set k c d) = Some c.
Proof.
  induction d as [|[k' c'] d IH]; simpl.
  - now rewrite String.eqb_refl.
  - destruct (k =? k') eqn:E; simpl; rewrite E; [reflexivity | exact IH].
Qed.

Lemma total_dict_set_fresh (k : string) (c : Z) (d : list (string * Z)) :
  lookup k d = None -> total (dict_set k c d) = (total d + c)%Z.
Proof.
  unfold total. induction d as [|[k' c'] d IH]; simpl; intro H; [lia|].
  destruct (k =? k'); [discriminate|]. simpl. rewrite IH by exact H. lia.
Qed.

Lemma total_dict_set_known (k : string) (c c0 : Z) (d : list (string * Z)) :
  lookup k d = Some c0 -> total (dict_set k c d) = (total d - c0 + c)%Z.
Proof.
  unfold total. induction d as [|[k' c'] d IH]; simpl; intro H; [discriminate|].
  destruct (k =? k').
  - injection H as ->. simpl. lia.
  - simpl. rewrite IH by exact H. lia.
Qed.

(** One more instance of a type adds one to the table's total. *)
Lemma tally_total (machine_type : string) (d : list (string * Z)) :
  exists d', tally machine_type d = Ok d' /\ total d' = (total d + 1)%Z.
Proof.
  unfold tally. destruct (lookup machine_type d) as [c|] eqn:E.
  - rewrite E. eexists; split; [reflexivity|].
    rewrite (total_dict_set_known _ _ c) by exact E. lia.
  - rewrite lookup_dict_set. eexists; split; [reflexivity|].
    rewrite (total_dict_set_known _ _ 0%Z) by apply lookup_dict_set.
    rewrite total_dict_set_fresh by exact E. lia.
Qed.

(** What the analysis reads off a well-formed instance. *)
Lemma instance_fields (i : value) :
  is_instance i = true ->
  exists d mt st nm z,
    i = VDict d /\ lookup "machineType" d = Some (VStr mt)
    /\ lookup "status" d = Some st /\ lookup "name" d = Some nm
    /\ lookup "zone" d = Some (VStr z).
Proof.
  unfold is_instance, str_field, field. destruct i as [| | | | |l|d]; try discriminate.
  destruct (lookup "machineType" d) as [[| | | |mt| |]|] eqn:Hmt; try discriminate.
  destruct (lookup "status" d) as [st|] eqn:Hst; try discriminate.
  destruct (lookup "name" d) as [nm|] eqn:Hnm; try discriminate.
  destruct (lookup "zone" d) as [[| | | |z| |]|] eqn:Hz; try discriminate.
  intros _. now exists d, mt, st, nm, z.
Qed.

Ltac instance_fields H :=
  let d := fresh "d" in let mt := fresh "mt" in let st := fresh "st" in
  let nm := fresh "nm" in let z := fresh "z" in
  let Hmt := fresh "Hmt" in let Hst := fresh "Hst" in
  let Hnm := fresh "Hnm" in let Hz := fresh "Hz" in
  destruct (instance_fields _ H) as (d & mt & st & nm & z & -> & Hmt & Hst & Hnm & Hz).

Lemma machine_type_of_instance (i : value) :
  is_instance i = true -> machine_type_of i = Ok (segment "machineType" i).
Proof.
  intro H. instance_fields H.
  unfold machine_type_of, segment, str_field, field. simpl. now rewrite Hmt.
Qed.

Lemma zone_of_instance (i : value) :
  is_instance i = true -> zone_of i = Ok (segment "zone" i).
Proof.
  intro H. instance_fields H.
  unfold zone_of, segment, str_field, field. simpl. now rewrite Hz.
Qed.

Lemma is_stopped_instance (i : value) :
  is_instance i = true -> is_stopped i = Ok (has_status "TERMINATED" i).
Proof.
  intro H. instance_fields H.
  unfold is_stopped, has_status, field. simpl. now rewrite Hst.
Qed.

Lemma stopped_line_instance (i : value) :
  is_instance i = true -> stopped_line i = Ok (stopped_item i).
Proof.
  intro H. unfold stopped_line, stopped_item. rewrite (zone_of_instance i H).
  instance_fields H. unfold shown, field. simpl. now rewrite Hnm.
Qed.

Lemma large_line_instance (i : value) :
  is_instance i = true -> large_line i = Ok (large_item i).
Proof.
  intro H. unfold large_line, large_item.
  rewrite (machine_type_of_instance i H), (zone_of_instance i H).
  instance_fields H. unfold shown, field. simpl. now rewrite Hnm.
Qed.

(** The test of line 71 on an item whose [machineType] is a string. *)
Lemma is_large_str (i : value) (machine_type : string) :
  str_field "machineType" i = Some machine_type ->
  is_large i = Ok (mentions_large machine_type).
Proof.
  unfold str_field, field. destruct i as [| | | | |l|d]; try discriminate.
  destruct (lookup "machineType" d) as [[| | | |mt| |]|] eqn:E; try discriminate.
  intro H. injection H as ->.
  unfold is_large, mentions_large, LARGE_TYPES. simpl. rewrite E. simpl.
  repeat (destruct (str_contains _ machine_type); [reflexivity|]; simpl).
  reflexivity.
Qed.

Lemma is_large_instance_ok (i : value) :
  is_instance i = true -> is_large i = Ok (is_large_instance i).
Proof.
  intro H. unfold is_large_instance.
  destruct (str_field "machineType" i) as [mt|] eqn:E.
  - now apply is_large_str.
  - unfold is_instance in H. now rewrite E in H.
Qed.

Lemma count_machine_types_total (items : list value) :
  forallb is_instance items = true ->
  forall acc, exists table,
    count_machine_types items acc = Ok table
    /\ total table = (total acc + len items)%Z.
Proof.
  induction items as [|i items IH]; simpl; intros H acc.
  - exists acc. split; [reflexivity | unfold len; simpl; lia].
  - apply andb_prop in H as [Hi Hitems].
    rewrite (machine_type_of_instance i Hi). simpl.
    destruct (tally_total (segment "machineType" i) acc) as (acc' & -> & Hacc').
    simpl. destruct (IH Hitems acc') as (table & Htable & Htotal).
    exists table. split; [exact Htable|]. rewrite Htotal, Hacc', len_cons. lia.
Qed.

(* ===================================================================== *)
(** ** Facts about runs                                                   *)
(* ===================================================================== *)

Lemma snd_bind {A B : Type} (m : M A) (k : A -> M B) :
  snd (bind m k) = match snd m with Ok a => snd (k a) | Raise e => Raise e end.
Proof. destruct m as [tr [a|e]]; simpl; [now destruct (k a) | reflexivity]. Qed.

Lemma fst_bind {A B : Type} (m : M A) (k : A -> M B) :
  fst (bind m k)
  = (fst m ++ match snd m with Ok a => fst (k a) | Raise _ => [] end)%list.
Proof.
  destruct m as [tr [a|e]]; simpl; [now destruct (k a) | now rewrite app_nil_r].
Qed.

Ltac run_steps :=
  repeat first
    [ rewrite snd_bind
    | rewrite fst_bind
    | progress (cbn [print write emit lift ret snd fst rbind]) ].

Lemma fetched_idem (o : option string) : fetched (fetched o) = fetched o.
Proof. now destruct o as [[|c s]|]. Qed.

Lemma fetches_snd (args : list string) (data : option string) :
  fetches args data ->
  exists o, snd (run_gcloud args) = Ok o /\ fetched o = data.
Proof. intros (tr & o & H & Hf). exists o. now rewrite H. Qed.

Lemma fetched_text (args : list string) (text : string) :
  fetches args (Some text) -> fetched (Some text) = Some text.
Proof. intros (tr & [[|c s]|] & _ & Hf); try discriminate. now injection Hf as <-. Qed.

(** What the compute analyzer returns, by what its fetch gave. *)
Lemma compute_section (data : option string) :
  fetches INSTANCES_LIST data ->
  snd analyze_compute_instances
  = match data with
    | None => Ok NO_INSTANCES_DATA
    | Some text => try_loads text compute_report (Ok COMPUTE_PARSE_ERROR)
    end.
Proof.
  intro H. apply fetches_snd in H as (o & Ho & Hf).
  unfold analyze_compute_instances. run_steps.
  rewrite Ho. run_steps. rewrite Hf. now destruct data.
Qed.

Lemma buckets_report_fetched (o : option string) :
  buckets_report (fetched o) = buckets_report o.
Proof. unfold buckets_report. now rewrite fetched_idem. Qed.

Lemma disks_report_fetched (o : option string) :
  disks_report (fetched o) = disks_report o.
Proof. unfold disks_report. now rewrite fetched_idem. Qed.

Lemma addresses_report_fetched (o : option string) :
  addresses_report (fetched o) = addresses_report o.
Proof. unfold addresses_report. now rewrite fetched_idem. Qed.

Lemma rules_report_fetched (o : option string) :
  rules_report (fetched o) = rules_report o.
Proof. unfold rules_report. now rewrite fetched_idem. Qed.

(** What the storage analyzer returns, by what its two fetches gave. *)
Lemma storage_section (buckets disks : option string) :
  fetches STORAGE_LS buckets -> fetches DISKS_LIST disks ->
  snd analyze_storage
  = (buckets_text <- buckets_report buckets ;;
     disks_text <- disks_report disks ;;
     Ok (storage_header ++ buckets_text ++ disks_text))%result.
Proof.
  intros Hb Hd.
  apply fetches_snd in Hb as (ob & Hob & <-).
  apply fetches_snd in Hd as (od & Hod & <-).
  rewrite buckets_report_fetched, disks_report_fetched.
  unfold analyze_storage. run_steps. rewrite Hob. run_steps.
  rewrite Hod. run_steps.
  destruct (buckets_report ob); run_steps; [|reflexivity].
  now destruct (disks_report od).
Qed.

(** What the network analyzer returns, by what its two fetches gave. *)
Lemma network_section (addresses rules : option string) :
  fetches ADDRESSES_LIST addresses -> fetches RULES_LIST rules ->
  snd analyze_network
  = (addresses_text <- addresses_report addresses ;;
     rules_text <- rules_report rules ;;
     Ok (network_header ++ addresses_text ++ rules_text))%result.
Proof.
  intros Ha Hr.
  apply fetches_snd in Ha as (oa & Hoa & <-).
  apply fetches_snd in Hr as (or & Hor & <-).
  rewrite addresses_report_fetched, rules_report_fetched.
  unfold analyze_network. run_steps. rewrite Hoa. run_steps.
  rewrite Hor. run_steps.
  destruct (addresses_report oa); run_steps; [|reflexivity].
  now destruct (rules_report or).
Qed.

(* ===================================================================== *)
(** ** The compute report of a well-formed listing                        *)
(* ===================================================================== *)

Lemma forallb_filter {A : Type} (p g : A -> bool) (l : list A) :
  forallb p l = true -> forallb p (filter g l) = true.
Proof.
  induction l as [|x l IH]; simpl; [reflexivity|].
  intro H. apply andb_prop in H as [Hx Hl].
  destruct (g x); simpl; [rewrite Hx|]; now apply IH.
Qed.

Lemma stopped_report_instances (l : list value) :
  forallb is_instance l = true -> stopped_report l = Ok (stopped_section l).
Proof.
  intro H. unfold stopped_report, stopped_section.
  destruct (nonempty l); [|reflexivity].
  rewrite (mapM_pure stopped_line stopped_item); [reflexivity|].
  intros i Hi. apply stopped_line_instance.
  now apply (proj1 (forallb_forall _ _) H).
Qed.

Lemma large_report_instances (l : list value) :
  forallb is_instance l = true -> large_report l = Ok (large_section l).
Proof.
  intro H. unfold large_report, large_section.
  destruct (nonempty l); [|reflexivity].
  rewrite (mapM_pure large_line large_item); [reflexivity|].
  intros i Hi. apply large_line_instance.
  now apply (proj1 (forallb_forall _ _) H).
Qed.

Lemma stopped_instances_filter (items : list value) :
  forallb is_instance items = true ->
  stopped_instances items = Ok (filter (has_status "TERMINATED") items).
Proof.
  intro H. apply filterM_pure. intros i Hi. apply is_stopped_instance.
  now apply (proj1 (forallb_forall _ _) H).
Qed.

Lemma large_instances_filter (items : list value) :
  forallb is_instance items = true ->
  large_instances items = Ok (filter is_large_instance items).
Proof.
  intro H. apply filterM_pure. intros i Hi. apply is_large_instance_ok.
  now apply (proj1 (forallb_forall _ _) H).
Qed.

(** The whole compute report of a non-empty listing of well-formed
    instances. *)
Lemma compute_report_fleet (items : list value) :
  nonempty items = true -> forallb is_instance items = true ->
  exists table,
    count_machine_types items [] = Ok table
    /\ compute_report (VList items)
       = Ok (compute_header ++ summary_table table ++ opportunities_title
             ++ stopped_section (filter (has_status "TERMINATED") items)
             ++ large_section (filter is_large_instance items)
             ++ compute_advice).
Proof.
  intros Hne H.
  destruct (count_machine_types_total items H []) as (table & Htable & _).
  exists table. split; [exact Htable|].
  unfold compute_report.
  replace (truthy (VList items)) with true by (now destruct items).
  simpl. rewrite Htable. simpl.
  rewrite (stopped_instances_filter items H). simpl.
  rewrite stopped_report_instances by now apply forallb_filter. simpl.
  rewrite (large_instances_filter items H). simpl.
  rewrite large_report_instances by now apply forallb_filter. simpl.
  now rewrite !app_assoc_s.
Qed.

(* ===================================================================== *)
(** ** The compute section                                                *)
(* ===================================================================== *)

(** The final segment of a machine type occurs in the machine type, so a
    large final segment makes the instance large. *)
Lemma large_segment_mentions_large (machine_type : string) :
  In (last_segment machine_type) LARGE_TYPES -> mentions_large machine_type = true.
Proof.
  intro H. unfold mentions_large. apply existsb_exists.
  exists (last_segment machine_type). split; [exact H|].
  destruct (last_segment_suffix machine_type) as [p Hp].
  rewrite Hp at 2. apply str_contains_suffix.
Qed.

(** C1, as the code has it: an instance is selected as large exactly when
    its machineType string contains one of the fixed large type names as a
    substring.  So an instance whose final segment is one of the names is
    selected, an instance whose machineType contains none of them is never
    listed, and the oversized-instances recommendation shows one row per
    selected instance. *)
Theorem C1_large_is_substring_match (items : list value) :
  decodes INSTANCES_LIST (VList items) ->
  nonempty items = true ->
  forallb is_instance items = true ->
  large_instances items = Ok (filter is_large_instance items)
  /\ (forall i, In i (filter is_large_instance items) <->
        In i items /\ exists machine_type large_type,
          str_field "machineType" i = Some machine_type
          /\ In large_type LARGE_TYPES
          /\ str_contains large_type machine_type = true)
  /\ (forall i machine_type,
        In i items -> str_field "machineType" i = Some machine_type ->
        In (last_segment machine_type) LARGE_TYPES ->
        In i (filter is_large_instance items))
  /\ exists before,
       returns analyze_compute_instances
         (before ++ large_section (filter is_large_instance items) ++ compute_advice).
Proof.
  intros (text & Hfetch & Hloads) Hne H.
  split; [now apply large_instances_filter|]. split; [|split].
  - intro i. rewrite filter_In. split.
    + intros [Hi Hlarge]. split; [exact Hi|]. unfold is_large_instance in Hlarge.
      destruct (str_field "machineType" i) as [mt|]; [|discriminate].
      apply existsb_exists in Hlarge as (t & Ht & Hin). now exists mt, t.
    + intros (Hi & mt & t & Hmt & Ht & Hin). split; [exact Hi|].
      unfold is_large_instance. rewrite Hmt. apply existsb_exists. now exists t.
  - intros i mt Hi Hmt Hseg. apply filter_In. split; [exact Hi|].
    unfold is_large_instance. rewrite Hmt. now apply large_segment_mentions_large.
  - destruct (compute_report_fleet items Hne H) as (table & _ & Hreport).
    exists (compute_header ++ summary_table table ++ opportunities_title
            ++ stopped_section (filter (has_status "TERMINATED") items)).
    unfold returns. rewrite (compute_section (Some text) Hfetch).
    unfold try_loads. rewrite Hloads, Hreport. now rewrite !app_assoc_s.
Qed.

(* ===================================================================== *)
(** ** The storage section                                                *)
(* ===================================================================== *)

Lemma int_fits_lt (n : Z) :
  (Z.abs n < 10 ^ INT_MAX_STR_DIGITS)%Z <-> int_fits n = true.
Proof. unfold int_fits. symmetry. apply Z.ltb_lt. Qed.

(** [int] reads the integer that a size declares. *)
Lemma py_int_declared (size : value) (n : Z) :
  declared size = Some n -> py_int size = Ok n.
Proof.
  destruct size as [| | m | |s| |]; try discriminate; cbn [declared py_int].
  - destruct (int_fits m); [now intros [= ->] | discriminate].
  - destruct (NilZero.int_of_string s) as [i|] eqn:Hi; [|discriminate].
    destruct (Z.leb_spec (written_digits i) INT_MAX_STR_DIGITS) as [Hlen|];
      [|discriminate].
    intros [= <-]. now apply int_of_str_decimal.
Qed.

Lemma disk_fields (d : value) :
  is_disk d = true ->
  exists items nm size n type,
    d = VDict items /\ lookup "name" items = Some nm
    /\ lookup "sizeGb" items = Some size /\ declared size = Some n
    /\ lookup "type" items = Some (VStr type).
Proof.
  unfold is_disk, str_field, field. destruct d as [| | | | |l|items]; try discriminate.
  destruct (lookup "name" items) as [nm|] eqn:Hnm; try discriminate.
  destruct (lookup "sizeGb" items) as [size|] eqn:Hsize; try discriminate.
  destruct (lookup "type" items) as [[| | | |type| |]|] eqn:Htype; try discriminate.
  destruct (declared size) as [n|] eqn:Hn; try discriminate.
  intros _. now exists items, nm, size, n, type.
Qed.

Ltac disk_fields H :=
  let items := fresh "items" in let nm := fresh "nm" in
  let size := fresh "size" in let n := fresh "n" in let type := fresh "type" in
  let Hnm := fresh "Hnm" in let Hsize := fresh "Hsize" in
  let Hn := fresh "Hn" in let Htype := fresh "Htype" in
  destruct (disk_fields _ H)
    as (items & nm & size & n & type & -> & Hnm & Hsize & Hn & Htype).

Lemma is_unattached_disk (d : value) :
  is_disk d = true -> is_unattached d = Ok (lacks_users d).
Proof.
  intro H. disk_fields H. unfold is_unattached, lacks_users, field.
  cbn [py_contains py_getitem rbind].
  now destruct (lookup "users" items).
Qed.

Lemma size_of_disk (d : value) :
  is_disk d = true -> size_of d = Ok (declared_size d).
Proof.
  intro H. disk_fields H. unfold size_of, declared_size, field.
  cbn [py_getitem]. rewrite Hsize, Hn. cbn [rbind]. apply (py_int_declared _ _ Hn).
Qed.

Lemma disk_line_disk (d : value) :
  is_disk d = true -> disk_line d = Ok (disk_row d).
Proof.
  intro H. disk_fields H.
  unfold disk_line, disk_row, disk_entry, shown, segment, str_field, field.
  cbn [py_getitem py_split_last rbind].
  now rewrite Hnm, Hsize, Htype.
Qed.

Lemma is_ssd_disk_ok (d : value) :
  is_disk d = true -> is_ssd d = Ok (is_ssd_disk d).
Proof.
  intro H. disk_fields H. unfold is_ssd, is_ssd_disk, str_field, field.
  cbn [py_getitem py_lower rbind].
  now rewrite Htype.
Qed.

(** The unattached-disk report of well-formed disks: it is printed when
    the sum of the sizes has at most 4300 digits, and the line of the
    total raises when it has more. *)
Lemma unattached_report_disks (l : list value) :
  forallb is_disk l = true ->
  unattached_report l
  = if nonempty l && negb (int_fits (sum_Z (map declared_size l)))
    then Raise ValueError
    else Ok (unattached_block l).
Proof.
  intro H. unfold unattached_report, unattached_block.
  destruct l as [|d l]; [reflexivity|]. cbn [nonempty andb].
  assert (Hin : forall x, In x (d :: l) -> is_disk x = true)
    by now apply forallb_forall.
  rewrite (mapM_pure size_of declared_size)
    by (intros x Hx; apply size_of_disk; now apply Hin).
  cbn [rbind].
  rewrite (mapM_pure disk_line disk_row)
    by (intros x Hx; apply disk_line_disk; now apply Hin).
  cbn [rbind]. rewrite py_sum_sum_Z. unfold unattached_total, py_str_int.
  destruct (int_fits (sum_Z (map declared_size (d :: l)))); [|reflexivity].
  cbn [rbind negb]. unfold unattached_heading, unattached_advice, len.
  now rewrite ?app_assoc_s.
Qed.

Lemma ssd_report_text (l : list value) : ssd_report l = ssd_block l.
Proof. now destruct l. Qed.

Lemma listed_disk_fields (d : value) :
  is_listed_disk d = true ->
  exists items type,
    d = VDict items /\ lookup "type" items = Some (VStr type)
    /\ (lacks_users d = true -> is_disk d = true).
Proof.
  unfold is_listed_disk, str_field, field.
  destruct d as [| | | | |l|items]; try discriminate.
  destruct (lookup "type" items) as [[| | | |type| |]|] eqn:Htype; try discriminate.
  intro H. exists items, type. split; [reflexivity|]. split; [exact Htype|].
  intro Hl. now rewrite Hl in H.
Qed.

Lemma is_unattached_listed (d : value) :
  is_listed_disk d = true -> is_unattached d = Ok (lacks_users d).
Proof.
  intro H. destruct (listed_disk_fields d H) as (its & ty & -> & _ & _).
  unfold is_unattached, lacks_users, field. cbn [py_contains py_getitem rbind].
  now destruct (lookup "users" its).
Qed.

Lemma is_ssd_listed (d : value) :
  is_listed_disk d = true -> is_ssd d = Ok (is_ssd_disk d).
Proof.
  intro H. destruct (listed_disk_fields d H) as (its & ty & -> & Hty & _).
  unfold is_ssd, is_ssd_disk, str_field, field. cbn [py_getitem py_lower rbind].
  now rewrite Hty.
Qed.

Lemma is_disk_listed (d : value) : is_disk d = true -> is_listed_disk d = true.
Proof.
  intro H. unfold is_listed_disk. rewrite H. disk_fields H.
  unfold str_field, field. rewrite Htype. now destruct (lacks_users (VDict items)).
Qed.

(** The disk analysis of a listing it can read. *)
Lemma disks_body_listed (items : list value) :
  forallb is_listed_disk items = true ->
  disks_body (VList items)
  = if nonempty (filter lacks_users items)
       && negb (int_fits (sum_Z (map declared_size (filter lacks_users items))))
    then Raise ValueError
    else Ok (unattached_block (filter lacks_users items)
             ++ ssd_block (filter is_ssd_disk items)).
Proof.
  intro H. unfold disks_body. cbn [py_iter rbind].
  assert (Hin : forall d, In d items -> is_listed_disk d = true)
    by now apply forallb_forall.
  unfold unattached_disks.
  rewrite (filterM_pure is_unattached lacks_users)
    by (intros d Hd; apply is_unattached_listed; now apply Hin).
  cbn [rbind]. rewrite unattached_report_disks.
  2:{ apply forallb_forall. intros d Hd. apply filter_In in Hd as [Hd Hl].
      destruct (listed_disk_fields d (Hin d Hd)) as (its & ty & _ & _ & Hdisk).
      now apply Hdisk. }
  destruct (nonempty (filter lacks_users items)
            && negb (int_fits (sum_Z (map declared_size (filter lacks_users items)))));
    [reflexivity|].
  cbn [rbind]. unfold ssd_disks.
  rewrite (filterM_pure is_ssd is_ssd_disk)
    by (intros d Hd; apply is_ssd_listed; now apply Hin).
  cbn [rbind]. now rewrite ssd_report_text.
Qed.

(** The storage section over a disk listing that the analysis can read,
    when the bucket analysis returns. *)
Lemma storage_section_listed (buckets : option string) (buckets_text : string)
  (items : list value) :
  fetches STORAGE_LS buckets ->
  buckets_report buckets = Ok buckets_text ->
  decodes DISKS_LIST (VList items) ->
  forallb is_listed_disk items = true ->
  snd analyze_storage
  = if nonempty (filter lacks_users items)
       && negb (int_fits (sum_Z (map declared_size (filter lacks_users items))))
    then Raise ValueError
    else Ok (storage_top ++ buckets_text
             ++ nl ++ line "Persistent Disk Optimization:"
             ++ unattached_block (filter lacks_users items)
             ++ ssd_block (filter is_ssd_disk items)).
Proof.
  intros Hb Hbt (text & Hfetch & Hloads) H.
  rewrite (storage_section buckets (Some text) Hb Hfetch).
  rewrite Hbt. cbn [rbind]. unfold disks_report.
  rewrite (fetched_text _ _ Hfetch). unfold try_loads.
  rewrite Hloads, (disks_body_listed items H).
  destruct (nonempty (filter lacks_users items)
            && negb (int_fits (sum_Z (map declared_size (filter lacks_users items)))));
    [reflexivity|].
  cbn [rbind]. apply f_equal.
  unfold storage_header, storage_top, separator, disks_title, STORAGE_TITLE.
  now rewrite ?app_assoc_s.
Qed.

(** A row of the disk listing shows the name of its disk. *)
Lemma disk_row_shows_name (d : value) :
  str_contains (shown "name" d) (disk_row d) = true.
Proof.
  unfold disk_row, line. rewrite !app_assoc_s. apply str_contains_app.
Qed.

(** C7, as the code has it: when the bucket analysis returns, for every
    non-empty disk list in which every item is a well-formed disk that
    lacks a users field, or has it empty, and whose declared sizes add up
    to an integer of at most 4300 digits, every disk is selected, [int]
    reads every declared size, and the storage section has the
    unattached-disk report right under the title of the disk analysis: the
    heading with the number of disks, one row per disk that shows its
    name, the total that is the integer sum of the declared sizes, and the
    advice. *)
Theorem C7_all_unattached_total_and_names
  (buckets : option string) (buckets_text : string) (items : list value) :
  fetches STORAGE_LS buckets ->
  buckets_report buckets = Ok buckets_text ->
  decodes DISKS_LIST (VList items) ->
  nonempty items = true ->
  forallb is_disk items = true ->
  forallb lacks_users items = true ->
  (Z.abs (sum_Z (map declared_size items)) < 10 ^ INT_MAX_STR_DIGITS)%Z ->
  unattached_disks items = Ok items
  /\ mapM size_of items = Ok (map declared_size items)
  /\ (exists after,
        returns analyze_storage
          (storage_top ++ buckets_text
           ++ nl ++ line "Persistent Disk Optimization:"
           ++ unattached_block items
           ++ after))
  /\ (forall d, In d items ->
        str_contains (shown "name" d) (disk_row d) = true).
Proof.
  intros Hb Hbt Hdec Hne H Hall Hsum.
  assert (Hin : forall d, In d items -> is_disk d = true)
    by now apply forallb_forall.
  split; [|split; [|split]].
  - unfold unattached_disks.
    rewrite (filterM_pure is_unattached lacks_users)
      by (intros d Hd; apply is_unattached_disk; now apply Hin).
    now rewrite filter_all.
  - apply mapM_pure. intros d Hd. apply size_of_disk. now apply Hin.
  - eexists. unfold returns.
    rewrite (storage_section_listed buckets buckets_text items Hb Hbt Hdec).
    + rewrite (filter_all _ _ Hall). apply int_fits_lt in Hsum. rewrite Hsum.
      rewrite andb_false_r. reflexivity.
    + apply forallb_forall. intros d Hd. apply is_disk_listed. now apply Hin.
  - intros d _. apply disk_row_shows_name.
Qed.

(** C10, as the code has it: when the disk analysis returns and the
    bucket-listing fetch returns a non-empty text that is not JSON or that
    decodes to a value with a length (the listing, also the empty array,
    count 0), the storage section has the four storage-class lines and the
    lifecycle recommendation after the line of the count or of the parse
    error; when the fetch returns no data the section has the no-data line
    instead and none of the guidance lines.  A text that decodes to a
    value without a length makes the storage analyzer raise TypeError, and
    there is no storage section. *)
Theorem C10_guidance_follows_the_fetch (disks : option string) (disks_text : string) :
  fetches DISKS_LIST disks ->
  disks_report disks = Ok disks_text ->
  (garbled STORAGE_LS ->
   returns analyze_storage
     (storage_top ++ line "Cloud Storage Optimization:"
      ++ line "1. You have Cloud Storage buckets, but couldn't parse the data."
      ++ cat (map line GUIDANCE_LINES)
      ++ disks_text))
  /\ (forall v n, decodes STORAGE_LS v -> py_len v = Ok n ->
       returns analyze_storage
         (storage_top ++ line "Cloud Storage Optimization:"
          ++ line ("1. You have " ++ str_int n ++ " Cloud Storage buckets.")
          ++ cat (map line GUIDANCE_LINES)
          ++ disks_text))
  /\ (fetches STORAGE_LS None ->
       returns analyze_storage
         (storage_top ++ line "Cloud Storage Optimization:"
          ++ line "No Cloud Storage buckets found or error retrieving data."
          ++ disks_text))
  /\ (forall v, decodes STORAGE_LS v -> py_len v = Raise TypeError ->
        raises analyze_storage TypeError)
  /\ forallb
       (fun g => negb (str_contains g
                         (storage_top ++ line "Cloud Storage Optimization:"
                          ++ line "No Cloud Storage buckets found or error retrieving data.")))
       GUIDANCE_LINES = true.
Proof.
  intros Hd Hdt.
  assert (Htop : forall body : string,
            storage_header ++ (buckets_title ++ body) ++ disks_text
            = storage_top ++ line "Cloud Storage Optimization:" ++ body ++ disks_text).
  { intro body.
    unfold storage_header, storage_top, separator, buckets_title, STORAGE_TITLE.
    now rewrite !app_assoc_s. }
  split; [|split; [|split; [|split]]].
  - intros (text & Hfetch & Hloads). unfold returns.
    rewrite (storage_section (Some text) disks Hfetch Hd).
    unfold buckets_report. rewrite (fetched_text _ _ Hfetch).
    unfold try_loads. rewrite Hloads. cbn [rbind]. rewrite Hdt. cbn [rbind].
    apply f_equal. rewrite Htop. unfold BUCKETS_PARSE_ERROR, storage_class_guidance.
    cbn [GUIDANCE_LINES map cat]. now rewrite ?app_assoc_s, ?app_empty_r.
  - intros v n (text & Hfetch & Hloads) Hlen. unfold returns.
    rewrite (storage_section (Some text) disks Hfetch Hd).
    unfold buckets_report. rewrite (fetched_text _ _ Hfetch).
    unfold try_loads. rewrite Hloads, Hlen. cbn [rbind]. rewrite Hdt. cbn [rbind].
    apply f_equal. rewrite Htop. unfold buckets_count, storage_class_guidance.
    cbn [GUIDANCE_LINES map cat]. now rewrite ?app_assoc_s, ?app_empty_r.
  - intro Hfetch. unfold returns.
    rewrite (storage_section None disks Hfetch Hd).
    unfold buckets_report, fetched. cbn [rbind]. rewrite Hdt. cbn [rbind].
    apply f_equal. now rewrite Htop.
  - intros v (text & Hfetch & Hloads) Hlen. unfold raises.
    rewrite (storage_section (Some text) disks Hfetch Hd).
    unfold buckets_report. rewrite (fetched_text _ _ Hfetch).
    unfold try_loads. now rewrite Hloads, Hlen.
  - vm_compute. reflexivity.
Qed.

(* ===================================================================== *)
(** ** The network section                                                *)
(* ===================================================================== *)

(** A sub-analysis of a listing that gives nothing returns. *)
Lemma addresses_report_degraded :
  degraded ADDRESSES_LIST ->
  exists data text, fetches ADDRESSES_LIST data /\ addresses_report data = Ok text.
Proof.
  intros [Hf|[(text & Hf & Hl)|(text & Hf & Hl)]].
  - now exists None, (addresses_title ++ line NO_ADDRESSES_DATA).
  - exists (Some text). eexists. split; [exact Hf|]. unfold addresses_report.
    rewrite (fetched_text _ _ Hf). unfold try_loads. now rewrite Hl.
  - exists (Some text). eexists. split; [exact Hf|]. unfold addresses_report.
    rewrite (fetched_text _ _ Hf). unfold try_loads. now rewrite Hl.
Qed.

Lemma rules_report_degraded :
  degraded RULES_LIST ->
  exists data text, fetches RULES_LIST data /\ rules_report data = Ok text.
Proof.
  intros [Hf|[(text & Hf & Hl)|(text & Hf & Hl)]].
  - now exists None, (rules_title ++ line NO_RULES_DATA).
  - exists (Some text). eexists. split; [exact Hf|]. unfold rules_report.
    rewrite (fetched_text _ _ Hf). unfold try_loads. now rewrite Hl.
  - exists (Some text). eexists. split; [exact Hf|]. unfold rules_report.
    rewrite (fetched_text _ _ Hf). unfold try_loads. now rewrite Hl.
Qed.

Lemma disks_report_degraded :
  degraded DISKS_LIST ->
  exists data text, fetches DISKS_LIST data /\ disks_report data = Ok text.
Proof.
  intros [Hf|[(text & Hf & Hl)|(text & Hf & Hl)]].
  - now exists None, (disks_title ++ line NO_DISKS_DATA).
  - exists (Some text). eexists. split; [exact Hf|]. unfold disks_report.
    rewrite (fetched_text _ _ Hf). unfold try_loads. now rewrite Hl.
  - exists (Some text). eexists. split; [exact Hf|]. unfold disks_report.
    rewrite (fetched_text _ _ Hf). unfold try_loads. now rewrite Hl.
Qed.

Lemma degraded_network_returns :
  degraded ADDRESSES_LIST -> degraded RULES_LIST ->
  exists network, returns analyze_network network.
Proof.
  intros Ha Hr.
  destruct (addresses_report_degraded Ha) as (a & atext & Hfa & Hra).
  destruct (rules_report_degraded Hr) as (r & rtext & Hfr & Hrr).
  unfold returns. rewrite (network_section a r Hfa Hfr), Hra, Hrr. now eexists.
Qed.

(** The network section, by what the two sub-analyses append. *)
Lemma network_section_text (addresses rules : option string)
  (addresses_body rules_body : string) :
  fetches ADDRESSES_LIST addresses -> fetches RULES_LIST rules ->
  addresses_report addresses = Ok (addresses_title ++ addresses_body) ->
  rules_report rules = Ok (rules_title ++ rules_body) ->
  returns analyze_network
    (network_top ++ line "External IP Address Optimization:" ++ addresses_body
     ++ nl ++ line "Load Balancer Optimization:" ++ rules_body).
Proof.
  intros Ha Hr Hat Hrt. unfold returns.
  rewrite (network_section addresses rules Ha Hr), Hat, Hrt. cbn [rbind].
  apply f_equal.
  unfold network_header, network_top, separator, addresses_title, rules_title,
    NETWORK_TITLE.
  now rewrite ?app_assoc_s.
Qed.

(** What each sub-analysis appends under its title when its listing gives
    nothing. *)
Lemma addresses_report_cases :
  (fetches ADDRESSES_LIST None ->
   exists data, fetches ADDRESSES_LIST data
     /\ addresses_report data
        = Ok (addresses_title
              ++ line "No external IP addresses found or error retrieving data."))
  /\ (garbled ADDRESSES_LIST ->
      exists data, fetches ADDRESSES_LIST data
        /\ addresses_report data
           = Ok (addresses_title ++ line "Error parsing IP address data."))
  /\ (decodes ADDRESSES_LIST (VList []) ->
      exists data, fetches ADDRESSES_LIST data
        /\ addresses_report data = Ok (addresses_title ++ "")).
Proof.
  split; [|split].
  - intro Hf. now exists None.
  - intros (text & Hf & Hl). exists (Some text). split; [exact Hf|].
    unfold addresses_report. rewrite (fetched_text _ _ Hf). unfold try_loads.
    now rewrite Hl.
  - intros (text & Hf & Hl). exists (Some text). split; [exact Hf|].
    unfold addresses_report. rewrite (fetched_text _ _ Hf). unfold try_loads.
    now rewrite Hl.
Qed.

Lemma rules_report_cases :
  (fetches RULES_LIST None ->
   exists data, fetches RULES_LIST data
     /\ rules_report data
        = Ok (rules_title ++ line "No load balancers found or error retrieving data."))
  /\ (garbled RULES_LIST ->
      exists data, fetches RULES_LIST data
        /\ rules_report data
           = Ok (rules_title ++ line "Error parsing forwarding rules data."))
  /\ (decodes RULES_LIST (VList []) ->
      exists data, fetches RULES_LIST data
        /\ rules_report data = Ok (rules_title ++ "")).
Proof.
  split; [|split].
  - intro Hf. now exists None.
  - intros (text & Hf & Hl). exists (Some text). split; [exact Hf|].
    unfold rules_report. rewrite (fetched_text _ _ Hf). unfold try_loads.
    now rewrite Hl.
  - intros (text & Hf & Hl). exists (Some text). split; [exact Hf|].
    unfold rules_report. rewrite (fetched_text _ _ Hf). unfold try_loads.
    now rewrite Hl.
Qed.

(** Every part the address analysis returns starts with its title. *)
Lemma addresses_report_starts (addresses : option string) (text : string) :
  addresses_report addresses = Ok text ->
  exists body, text = addresses_title ++ body.
Proof.
  unfold addresses_report. destruct (fetched addresses) as [t|].
  - destruct (try_loads t addresses_body (Ok (line ADDRESSES_PARSE_ERROR))) as [body|];
      [|discriminate].
    cbn [rbind]. intro H. apply Ok_inj in H. subst text. now exists body.
  - intro H. apply Ok_inj in H. subst text. now eexists.
Qed.

(** Every part the forwarding-rule analysis returns starts with its
    title. *)
Lemma rules_report_starts (rules : option string) (text : string) :
  rules_report rules = Ok text ->
  exists body, text = rules_title ++ body.
Proof.
  unfold rules_report. destruct (fetched rules) as [t|].
  - destruct (try_loads t rules_body (Ok (line RULES_PARSE_ERROR))) as [body|];
      [|discriminate].
    cbn [rbind]. intro H. apply Ok_inj in H. subst text. now exists body.
  - intro H. apply Ok_inj in H. subst text. now eexists.
Qed.

(** C4, as the code has it: each of the two network sub-analyses, whenever
    the other one returns its part, emits under its title its none-found
    line when its fetch returns no data, its parse-error line, which is no
    none-found line, when the text is not JSON, and nothing when the
    listing is the empty array; in each of these cases the network
    analyzer returns its section, and it raises nothing whenever each of
    the two listings gives no data, is not JSON or is the empty array. *)
Theorem C4_network_falls_back_by_case :
  (forall (rules : option string) (rules_text : string),
     fetches RULES_LIST rules -> rules_report rules = Ok rules_text ->
     (fetches ADDRESSES_LIST None ->
      returns analyze_network
        (network_top ++ line "External IP Address Optimization:"
         ++ line "No external IP addresses found or error retrieving data."
         ++ rules_text))
     /\ (garbled ADDRESSES_LIST ->
         returns analyze_network
           (network_top ++ line "External IP Address Optimization:"
            ++ line "Error parsing IP address data."
            ++ rules_text))
     /\ (decodes ADDRESSES_LIST (VList []) ->
         returns analyze_network
           (network_top ++ line "External IP Address Optimization:"
            ++ rules_text)))
  /\ (forall (addresses : option string) (addresses_text : string),
        fetches ADDRESSES_LIST addresses ->
        addresses_report addresses = Ok addresses_text ->
        (fetches RULES_LIST None ->
         returns analyze_network
           (network_top ++ addresses_text
            ++ nl ++ line "Load Balancer Optimization:"
            ++ line "No load balancers found or error retrieving data."))
        /\ (garbled RULES_LIST ->
            returns analyze_network
              (network_top ++ addresses_text
               ++ nl ++ line "Load Balancer Optimization:"
               ++ line "Error parsing forwarding rules data."))
        /\ (decodes RULES_LIST (VList []) ->
            returns analyze_network
              (network_top ++ addresses_text
               ++ nl ++ line "Load Balancer Optimization:")))
  /\ (degraded ADDRESSES_LIST -> degraded RULES_LIST ->
      exists network, returns analyze_network network)
  /\ map is_not_found
       ["No external IP addresses found or error retrieving data.";
        "Error parsing IP address data.";
        "No load balancers found or error retrieving data.";
        "Error parsing forwarding rules data."]
     = [true; false; true; false].
Proof.
  split; [|split; [|split; [exact degraded_network_returns | reflexivity]]].
  - intros rules rules_text Hr Hrt.
    destruct (rules_report_starts rules rules_text Hrt) as (rbody & ->).
    destruct addresses_report_cases as (Hnone & Hgarbled & Hempty).
    split; [|split]; intro H.
    + destruct (Hnone H) as (a & Ha & Hat).
      pose proof (network_section_text a rules _ _ Ha Hr Hat Hrt) as Hn.
      unfold rules_title. now rewrite ?app_assoc_s in *.
    + destruct (Hgarbled H) as (a & Ha & Hat).
      pose proof (network_section_text a rules _ _ Ha Hr Hat Hrt) as Hn.
      unfold rules_title. now rewrite ?app_assoc_s in *.
    + destruct (Hempty H) as (a & Ha & Hat).
      pose proof (network_section_text a rules _ _ Ha Hr Hat Hrt) as Hn.
      unfold rules_title. now rewrite ?app_assoc_s in *.
  - intros addresses addresses_text Ha Hat.
    destruct (addresses_report_starts addresses addresses_text Hat) as (abody & ->).
    destruct rules_report_cases as (Hnone & Hgarbled & Hempty).
    split; [|split]; intro H.
    + destruct (Hnone H) as (r & Hr & Hrt).
      pose proof (network_section_text addresses r _ _ Ha Hr Hat Hrt) as Hn.
      unfold addresses_title. now rewrite ?app_assoc_s in *.
    + destruct (Hgarbled H) as (r & Hr & Hrt).
      pose proof (network_section_text addresses r _ _ Ha Hr Hat Hrt) as Hn.
      unfold addresses_title. now rewrite ?app_assoc_s in *.
    + destruct (Hempty H) as (r & Hr & Hrt).
      pose proof (network_section_text addresses r _ _ Ha Hr Hat Hrt) as Hn.
      unfold addresses_title. rewrite ?app_assoc_s in *.
      now rewrite app_empty_r in Hn.
Qed.

(* ===================================================================== *)
(** ** Traces                                                             *)
(* ===================================================================== *)

Lemma touches_files_app (tr1 tr2 : list event) :
  touches_files (tr1 ++ tr2)%list = touches_files tr1 || touches_files tr2.
Proof. apply existsb_app. Qed.

Lemma file_after_app (path : string) (tr1 tr2 : list event) (content : option string) :
  file_after path content (tr1 ++ tr2)%list
  = file_after path (file_after path content tr1) tr2.
Proof.
  revert content. induction tr1 as [|[text|p|text] tr1 IH]; intro content;
    simpl; [reflexivity | apply IH ..].
Qed.

Lemma file_after_prints (path : string) (tr : list event) (content : option string) :
  touches_files tr = false -> file_after path content tr = content.
Proof.
  revert content. induction tr as [|[text|p|text] tr IH]; intro content; simpl;
    [reflexivity | apply IH | discriminate ..].
Qed.

Lemma printed_app (tr1 tr2 : list event) :
  printed (tr1 ++ tr2)%list = (printed tr1 ++ printed tr2)%list.
Proof.
  induction tr1 as [|[text|p|text] tr1 IH]; simpl; [reflexivity | | exact IH ..].
  now rewrite IH.
Qed.

(** Fetching only prints. *)
Lemma run_gcloud_prints (args : list string) :
  touches_files (fst (run_gcloud args)) = false.
Proof. unfold run_gcloud. now destruct (subprocess_run ("gcloud" :: args)). Qed.

Lemma lift_prints {A : Type} (r : result A) : touches_files (fst (lift r)) = false.
Proof. reflexivity. Qed.

Lemma bind_prints {A B : Type} (m : M A) (k : A -> M B) :
  touches_files (fst m) = false ->
  (forall a, touches_files (fst (k a)) = false) ->
  touches_files (fst (bind m k)) = false.
Proof.
  intros Hm Hk. rewrite fst_bind, touches_files_app, Hm.
  destruct (snd m); [apply Hk | reflexivity].
Qed.

Lemma analyze_compute_prints :
  touches_files (fst analyze_compute_instances) = false.
Proof.
  unfold analyze_compute_instances.
  apply bind_prints; [reflexivity|]. intros _.
  apply bind_prints; [apply run_gcloud_prints|]. intro o.
  now destruct (fetched o).
Qed.

Lemma analyze_storage_prints : touches_files (fst analyze_storage) = false.
Proof.
  unfold analyze_storage.
  apply bind_prints; [reflexivity|]. intros _.
  apply bind_prints; [apply run_gcloud_prints|]. intro b.
  apply bind_prints; [apply run_gcloud_prints|]. intro d.
  apply bind_prints; [apply lift_prints|]. intro bt.
  apply bind_prints; [apply lift_prints|]. now intro dt.
Qed.

Lemma analyze_network_prints : touches_files (fst analyze_network) = false.
Proof.
  unfold analyze_network.
  apply bind_prints; [reflexivity|]. intros _.
  apply bind_prints; [apply run_gcloud_prints|]. intro a.
  apply bind_prints; [apply run_gcloud_prints|]. intro r.
  apply bind_prints; [apply lift_prints|]. intro atext.
  apply bind_prints; [apply lift_prints|]. now intro rtext.
Qed.

Lemma get_project_info_prints : touches_files (fst get_project_info) = false.
Proof.
  unfold get_project_info.
  apply bind_prints; [reflexivity|]. intros _.
  apply bind_prints; [apply run_gcloud_prints|]. intro o.
  destruct (fetched o); [|reflexivity].
  apply bind_prints; [apply lift_prints|]. now intro v.
Qed.

(* ===================================================================== *)
(** ** The project identity                                               *)
(* ===================================================================== *)

Lemma get_project_info_no_data :
  fetches CONFIG_LIST None -> returns get_project_info None.
Proof.
  intro H. apply fetches_snd in H as (o & Ho & Hf).
  unfold returns, get_project_info. run_steps. rewrite Ho. run_steps.
  now rewrite Hf.
Qed.

Lemma get_project_info_text (text : string) :
  fetches CONFIG_LIST (Some text) ->
  snd get_project_info
  = match json_loads text with Ok v => Ok (Some v) | Raise e => Raise e end.
Proof.
  intro H. apply fetches_snd in H as (o & Ho & Hf).
  unfold get_project_info. run_steps. rewrite Ho. run_steps.
  rewrite Hf. run_steps. now destruct (json_loads text).
Qed.

Lemma get_project_info_decodes (info : value) :
  decodes CONFIG_LIST info -> returns get_project_info (Some info).
Proof.
  intros (text & Hf & Hl). unfold returns.
  now rewrite (get_project_info_text text Hf), Hl.
Qed.

Lemma get_project_info_garbled :
  garbled CONFIG_LIST -> raises get_project_info JSONDecodeError.
Proof.
  intros (text & Hf & Hl). unfold raises.
  now rewrite (get_project_info_text text Hf), Hl.
Qed.

(** What the fetch of a listing can come to. *)
Lemma fetch_cases (args : list string) :
  fetches args None
  \/ (exists text, fetches args (Some text))
  \/ (exists e, snd (run_gcloud args) = Raise e).
Proof.
  unfold fetches, run_gcloud.
  destruct (subprocess_run ("gcloud" :: args)) as [[|c text]|stderr|e].
  - left. now exists [], (Some "").
  - right. left. exists (String c text). now exists [], (Some (String c text)).
  - left. eexists. exists None. split; reflexivity.
  - right. right. now exists e.
Qed.

(* ===================================================================== *)
(** ** The assembled report                                               *)
(* ===================================================================== *)

(** The three ways [main] goes on after the project identity. *)
Lemma main_run :
  main
  = ((Print "GCP Cost Optimization Tool"
      :: Print "========================="
      :: fst get_project_info
      ++ match snd get_project_info with
         | Ok (Some info) =>
             if truthy info then
               fst (write_report info)
               ++ match snd (write_report info) with
                  | Ok _ =>
                      [Print REPORT_GENERATED;
                       Print "To view the report, open it in a text editor."]
                  | Raise _ => []
                  end
             else [Print AUTH_ERROR; Print AUTH_HINT]
         | Ok None => [Print AUTH_ERROR; Print AUTH_HINT]
         | Raise _ => []
         end)%list,
     match snd get_project_info with
     | Ok (Some info) =>
         if truthy info then
           match snd (write_report info) with
           | Ok _ => Ok tt
           | Raise e => Raise e
           end
         else Ok tt
     | Ok None => Ok tt
     | Raise e => Raise e
     end).
Proof.
  rewrite (surjective_pairing main). unfold main, auth_hint. f_equal.
  - run_steps. destruct (snd get_project_info) as [[info|]|e];
      cbn [truthy_opt]; [|reflexivity ..].
    destruct (truthy info); run_steps; [|reflexivity].
    now destruct (snd (write_report info)) as [[]|e].
  - run_steps. destruct (snd get_project_info) as [[info|]|e];
      cbn [truthy_opt]; [|reflexivity ..].
    destruct (truthy info); run_steps; [|reflexivity].
    now destruct (snd (write_report info)) as [[]|e].
Qed.

(** The report file once the project line and the three fetched sections
    are there. *)
Lemma write_report_run (info : value) (project : option string)
  (compute storage network : string) :
  project_line info = Ok project ->
  returns analyze_compute_instances compute ->
  returns analyze_storage storage ->
  returns analyze_network network ->
  snd (write_report info) = Ok tt
  /\ file_after REPORT_FILE None (fst (write_report info))
     = Some (full_report (project_text project) compute storage network).
Proof.
  unfold returns. intros Hp Hc Hs Hn. unfold write_report, analyze_billing. split.
  - run_steps. rewrite Hp. run_steps.
    destruct project; run_steps; rewrite Hc; run_steps; rewrite Hs; run_steps;
      rewrite Hn; run_steps; reflexivity.
  - run_steps. rewrite Hp. run_steps.
    destruct project; run_steps; rewrite Hc; run_steps; rewrite Hs; run_steps;
      rewrite Hn; run_steps.
    all: rewrite ?file_after_app.
    all: cbn [file_after app option_map].
    all: rewrite String.eqb_refl.
    all: rewrite (file_after_prints _ _ _ analyze_compute_prints),
           (file_after_prints _ _ _ analyze_storage_prints),
           (file_after_prints _ _ _ analyze_network_prints).
    all: cbn [option_map project_text]; unfold full_report, preamble.
    all: f_equal; cbn [append]; now rewrite !app_assoc_s.
Qed.

(* ===================================================================== *)
(** ** Titles and none-found lines in a report                            *)
(* ===================================================================== *)

Lemma subseq_after_break (xs : list string) (X Y : string) :
  subseq xs (lines Y) = true -> subseq xs (lines (X ++ nl ++ Y)) = true.
Proof.
  intro H. unfold lines, nl. cbn [append]. rewrite split_app_sep.
  now apply subseq_app_r.
Qed.

Lemma subseq_title (t : string) (xs : list string) (Y : string) :
  lines t = [t] -> subseq xs (lines Y) = true ->
  subseq (t :: xs) (lines (line t ++ Y)) = true.
Proof.
  intros Ht H. rewrite lines_line, Ht. cbn [app]. now apply subseq_cons.
Qed.

(** A section that starts with its title at the start of a line and is
    followed by a blank line. *)
Lemma section_title_in_order (t : string) (xs : list string) (body T : string) :
  lines t = [t] -> subseq xs (lines T) = true ->
  subseq (t :: xs)
    (lines (((line t ++ separator ++ nl) ++ body) ++ nl ++ nl ++ T)) = true.
Proof.
  intros Ht H.
  replace (((line t ++ separator ++ nl) ++ body) ++ nl ++ nl ++ T)
    with (line t ++ ((separator ++ nl ++ body ++ nl) ++ nl ++ T))
    by now rewrite !app_assoc_s.
  apply subseq_title; [exact Ht|]. now apply subseq_after_break.
Qed.

Lemma tail_titles :
  subseq [BILLING_TITLE; GENERAL_TITLE]
    (lines ((billing_report ++ nl ++ nl) ++ generate_cost_recommendations)) = true.
Proof. vm_compute. reflexivity. Qed.

Lemma later_titles_in_order (storage_body network_body : string) :
  subseq LATER_TITLES
    (lines (((storage_header ++ storage_body) ++ nl ++ nl)
            ++ ((network_header ++ network_body) ++ nl ++ nl)
            ++ (billing_report ++ nl ++ nl) ++ generate_cost_recommendations))
  = true.
Proof.
  unfold LATER_TITLES, storage_header, network_header.
  rewrite (app_assoc_s _ (nl ++ nl)), (app_assoc_s nl nl).
  apply section_title_in_order; [reflexivity|].
  rewrite (app_assoc_s _ (nl ++ nl)), (app_assoc_s nl nl).
  apply section_title_in_order; [reflexivity|].
  rewrite <- app_assoc_s. apply tail_titles.
Qed.

Lemma not_found_at_start (l Y : string) :
  is_not_found l = true -> lines l = [l] ->
  has_not_found_line (line l ++ Y) = true.
Proof.
  intros Hnf Hl. unfold has_not_found_line. rewrite lines_line, Hl.
  cbn [app existsb]. now rewrite Hnf.
Qed.

Lemma not_found_after_break (l X Y : string) :
  is_not_found l = true -> lines l = [l] ->
  has_not_found_line (X ++ nl ++ line l ++ Y) = true.
Proof.
  intros Hnf Hl. unfold has_not_found_line.
  replace (lines (X ++ nl ++ line l ++ Y))
    with (lines X ++ lines (line l ++ Y))%list
    by (unfold lines, nl; cbn [append]; now rewrite split_app_sep).
  apply existsb_app_r. now apply not_found_at_start.
Qed.

(** Every section the storage analyzer returns starts with its header. *)
Lemma storage_starts (storage : string) :
  returns analyze_storage storage ->
  exists body, storage = storage_header ++ body.
Proof.
  unfold returns, analyze_storage. run_steps.
  destruct (snd (run_gcloud STORAGE_LS)) as [b|]; [|discriminate]. run_steps.
  destruct (snd (run_gcloud DISKS_LIST)) as [d|]; [|discriminate]. run_steps.
  destruct (buckets_report b) as [bt|]; [|discriminate]. run_steps.
  destruct (disks_report d) as [dt|]; [|discriminate]. run_steps.
  intro H. injection H as <-. now exists (bt ++ dt).
Qed.

(** Every section the network analyzer returns starts with its header. *)
Lemma network_starts (network : string) :
  returns analyze_network network ->
  exists body, network = network_header ++ body.
Proof.
  unfold returns, analyze_network. run_steps.
  destruct (snd (run_gcloud ADDRESSES_LIST)) as [a|]; [|discriminate]. run_steps.
  destruct (snd (run_gcloud RULES_LIST)) as [r|]; [|discriminate]. run_steps.
  destruct (addresses_report a) as [atext|]; [|discriminate]. run_steps.
  destruct (rules_report r) as [rtext|]; [|discriminate]. run_steps.
  intro H. injection H as <-. now exists (atext ++ rtext).
Qed.

(** Every report of a decoded instance listing starts with the compute
    header. *)
Lemma compute_report_starts (v : value) (compute : string) :
  compute_report v = Ok compute ->
  exists body, compute = compute_header ++ body.
Proof.
  unfold compute_report. destruct (truthy v); cbn [negb].
  - destruct (py_iter v) as [items|]; [|discriminate]. cbn [rbind].
    destruct (count_machine_types items []) as [table|]; [|discriminate]. cbn [rbind].
    destruct (stopped_instances items) as [stopped|]; [|discriminate]. cbn [rbind].
    destruct (stopped_report stopped) as [st|]; [|discriminate]. cbn [rbind].
    destruct (large_instances items) as [large|]; [|discriminate]. cbn [rbind].
    destruct (large_report large) as [lt|]; [|discriminate]. cbn [rbind].
    intro H. injection H as <-. eexists. now rewrite !app_assoc_s.
  - intro H. injection H as <-. now eexists.
Qed.

(** The titles of the four later sections stand in the report in order. *)
Lemma full_report_later_titles (project compute storage network : string) :
  returns analyze_storage storage -> returns analyze_network network ->
  subseq LATER_TITLES (lines (full_report project compute storage network)) = true.
Proof.
  intros Hs Hn.
  destruct (storage_starts _ Hs) as [sb ->].
  destruct (network_starts _ Hn) as [nb ->].
  unfold full_report.
  replace (preamble ++ project ++ (compute ++ nl ++ nl)
           ++ ((storage_header ++ sb) ++ nl ++ nl)
           ++ ((network_header ++ nb) ++ nl ++ nl)
           ++ (billing_report ++ nl ++ nl) ++ generate_cost_recommendations)
    with ((preamble ++ project ++ compute ++ nl) ++ nl
          ++ (((storage_header ++ sb) ++ nl ++ nl)
              ++ ((network_header ++ nb) ++ nl ++ nl)
              ++ (billing_report ++ nl ++ nl) ++ generate_cost_recommendations))
    by now rewrite !app_assoc_s.
  apply subseq_after_break, later_titles_in_order.
Qed.

(** When the project line is written, it ends its line. *)
Lemma project_line_ends (info : value) (project : option string) :
  project_line info = Ok project ->
  exists q, preamble ++ project_text project = q ++ nl.
Proof.
  unfold project_line.
  destruct (py_contains "core" info) as [[|]|]; cbn [rbind]; try discriminate.
  - destruct (py_getitem info "core") as [core|]; cbn [rbind]; [|discriminate].
    destruct (py_contains "project" core) as [[|]|]; cbn [rbind]; try discriminate.
    + destruct (py_getitem core "project") as [p|]; cbn [rbind]; [|discriminate].
      intro H. injection H as <-. cbn [project_text].
      exists (preamble ++ "Project: " ++ py_str p ++ nl).
      now rewrite !app_assoc_s.
    + intro H. injection H as <-. cbn [project_text]. unfold preamble.
      exists (line ("GCP COST OPTIMIZATION REPORT - " ++ TODAY) ++ separator).
      now rewrite !app_assoc_s, app_empty_r.
  - intro H. injection H as <-. cbn [project_text]. unfold preamble.
    exists (line ("GCP COST OPTIMIZATION REPORT - " ++ TODAY) ++ separator).
    now rewrite !app_assoc_s, app_empty_r.
Qed.

(** With a decoded instance listing, the five titles stand in order. *)
Lemma full_report_all_titles (info v : value) (project : option string)
  (compute storage network : string) :
  project_line info = Ok project ->
  compute_report v = Ok compute ->
  returns analyze_storage storage -> returns analyze_network network ->
  subseq (COMPUTE_TITLE :: LATER_TITLES)
    (lines (full_report (project_text project) compute storage network)) = true.
Proof.
  intros Hp Hc Hs Hn.
  destruct (compute_report_starts _ _ Hc) as [cb ->].
  destruct (storage_starts _ Hs) as [sb ->].
  destruct (network_starts _ Hn) as [nb ->].
  destruct (project_line_ends _ _ Hp) as [q Hq].
  unfold full_report. rewrite <- (app_assoc_s preamble), Hq.
  unfold compute_header.
  replace ((q ++ nl)
           ++ (((line COMPUTE_TITLE ++ separator ++ nl) ++ cb) ++ nl ++ nl)
           ++ ((storage_header ++ sb) ++ nl ++ nl)
           ++ ((network_header ++ nb) ++ nl ++ nl)
           ++ (billing_report ++ nl ++ nl) ++ generate_cost_recommendations)
    with (q ++ nl
          ++ (((line COMPUTE_TITLE ++ separator ++ nl) ++ cb) ++ nl ++ nl
              ++ (((storage_header ++ sb) ++ nl ++ nl)
                  ++ ((network_header ++ nb) ++ nl ++ nl)
                  ++ (billing_report ++ nl ++ nl) ++ generate_cost_recommendations)))
    by now rewrite !app_assoc_s.
  apply subseq_after_break.
  apply section_title_in_order; [reflexivity|].
  apply later_titles_in_order.
Qed.

(* ===================================================================== *)
(** ** Sections of listings that give nothing                             *)
(* ===================================================================== *)

Lemma fetches_of_snd (args : list string) (o : option string) :
  snd (run_gcloud args) = Ok o -> fetches args (fetched o).
Proof.
  intro H. exists (fst (run_gcloud args)), o. split; [|reflexivity].
  now rewrite <- H, <- surjective_pairing.
Qed.

Lemma fetches_fun (args : list string) (d1 d2 : option string) :
  fetches args d1 -> fetches args d2 -> d1 = d2.
Proof.
  intros (tr1 & o1 & H1 & <-) (tr2 & o2 & H2 & <-).
  rewrite H1 in H2. now injection H2 as _ ->.
Qed.

(** A fetched text comes from a command that succeeded, which prints
    nothing. *)
Lemma fetches_some_run (args : list string) (text : string) :
  fetches args (Some text) -> run_gcloud args = ([], Ok (Some text)).
Proof.
  unfold fetches, run_gcloud.
  destruct (subprocess_run ("gcloud" :: args)) as [out|stderr|e];
    intros (tr & o & H & Hf).
  - injection H as <- <-. destruct out; [discriminate|]. now injection Hf as <-.
  - cbn in H. injection H as <- <-. discriminate.
  - discriminate.
Qed.

(** The parts of a storage section that was returned. *)
Lemma storage_parts (storage : string) :
  returns analyze_storage storage ->
  exists b d bt dt,
    fetches STORAGE_LS b /\ fetches DISKS_LIST d
    /\ buckets_report b = Ok bt /\ disks_report d = Ok dt
    /\ storage = storage_header ++ bt ++ dt.
Proof.
  unfold returns, analyze_storage. run_steps.
  destruct (snd (run_gcloud STORAGE_LS)) as [b|] eqn:Hb; [|discriminate]. run_steps.
  destruct (snd (run_gcloud DISKS_LIST)) as [d|] eqn:Hd; [|discriminate]. run_steps.
  destruct (buckets_report b) as [bt|] eqn:Hbt; [|discriminate]. run_steps.
  destruct (disks_report d) as [dt|] eqn:Hdt; [|discriminate]. run_steps.
  intro H. injection H as <-. exists (fetched b), (fetched d), bt, dt.
  rewrite buckets_report_fetched, disks_report_fetched.
  repeat split; try assumption; now apply fetches_of_snd.
Qed.

(** The parts of a network section that was returned. *)
Lemma network_parts (network : string) :
  returns analyze_network network ->
  exists a r atext rtext,
    fetches ADDRESSES_LIST a /\ fetches RULES_LIST r
    /\ addresses_report a = Ok atext /\ rules_report r = Ok rtext
    /\ network = network_header ++ atext ++ rtext.
Proof.
  unfold returns, analyze_network. run_steps.
  destruct (snd (run_gcloud ADDRESSES_LIST)) as [a|] eqn:Ha; [|discriminate]. run_steps.
  destruct (snd (run_gcloud RULES_LIST)) as [r|] eqn:Hr; [|discriminate]. run_steps.
  destruct (addresses_report a) as [atext|] eqn:Hat; [|discriminate]. run_steps.
  destruct (rules_report r) as [rtext|] eqn:Hrt; [|discriminate]. run_steps.
  intro H. injection H as <-. exists (fetched a), (fetched r), atext, rtext.
  rewrite addresses_report_fetched, rules_report_fetched.
  repeat split; try assumption; now apply fetches_of_snd.
Qed.

Lemma buckets_report_none :
  buckets_report None = Ok (buckets_title ++ line NO_BUCKETS_DATA).
Proof. reflexivity. Qed.

Lemma disks_report_none :
  disks_report None = Ok (disks_title ++ line NO_DISKS_DATA).
Proof. reflexivity. Qed.

Lemma addresses_report_none :
  addresses_report None = Ok (addresses_title ++ line NO_ADDRESSES_DATA).
Proof. reflexivity. Qed.

Lemma rules_report_none :
  rules_report None = Ok (rules_title ++ line NO_RULES_DATA).
Proof. reflexivity. Qed.

Lemma compute_no_data_line (compute : string) :
  returns analyze_compute_instances compute ->
  fetches INSTANCES_LIST None \/ decodes INSTANCES_LIST (VList []) ->
  has_not_found_line compute = true.
Proof.
  unfold returns. intros Hc [Hf|(text & Hf & Hl)].
  - rewrite (compute_section None Hf) in Hc. now injection Hc as <-.
  - rewrite (compute_section (Some text) Hf) in Hc. unfold try_loads in Hc.
    rewrite Hl in Hc. now injection Hc as <-.
Qed.

Lemma storage_no_data_line (storage : string) :
  returns analyze_storage storage ->
  fetches STORAGE_LS None \/ fetches DISKS_LIST None ->
  has_not_found_line storage = true.
Proof.
  intros Hs Hnone.
  destruct (storage_parts _ Hs) as (b & d & bt & dt & Hb & Hd & Hbt & Hdt & ->).
  destruct Hnone as [Hf|Hf].
  - rewrite (fetches_fun _ _ _ Hb Hf), buckets_report_none in Hbt.
    apply Ok_inj in Hbt. subst bt.
    replace (storage_header ++ (buckets_title ++ line NO_BUCKETS_DATA) ++ dt)
      with ((storage_header ++ "Cloud Storage Optimization:")
            ++ nl ++ line NO_BUCKETS_DATA ++ dt)
      by (unfold buckets_title, line; now rewrite !app_assoc_s).
    now apply not_found_after_break.
  - rewrite (fetches_fun _ _ _ Hd Hf), disks_report_none in Hdt.
    apply Ok_inj in Hdt. subst dt.
    replace (storage_header ++ bt ++ disks_title ++ line NO_DISKS_DATA)
      with ((storage_header ++ bt ++ nl ++ "Persistent Disk Optimization:")
            ++ nl ++ line NO_DISKS_DATA ++ "")
      by (unfold disks_title, line; now rewrite !app_assoc_s, !app_empty_r).
    now apply not_found_after_break.
Qed.

Lemma network_no_data_line (network : string) :
  returns analyze_network network ->
  fetches ADDRESSES_LIST None \/ fetches RULES_LIST None ->
  has_not_found_line network = true.
Proof.
  intros Hn Hnone.
  destruct (network_parts _ Hn) as (a & r & atext & rtext & Ha & Hr & Hat & Hrt & ->).
  destruct Hnone as [Hf|Hf].
  - rewrite (fetches_fun _ _ _ Ha Hf), addresses_report_none in Hat.
    apply Ok_inj in Hat. subst atext.
    replace (network_header ++ (addresses_title ++ line NO_ADDRESSES_DATA) ++ rtext)
      with ((network_header ++ "External IP Address Optimization:")
            ++ nl ++ line NO_ADDRESSES_DATA ++ rtext)
      by (unfold addresses_title, line; now rewrite !app_assoc_s).
    now apply not_found_after_break.
  - rewrite (fetches_fun _ _ _ Hr Hf), rules_report_none in Hrt.
    apply Ok_inj in Hrt. subst rtext.
    replace (network_header ++ atext ++ rules_title ++ line NO_RULES_DATA)
      with ((network_header ++ atext ++ nl ++ "Load Balancer Optimization:")
            ++ nl ++ line NO_RULES_DATA ++ "")
      by (unfold rules_title, line; now rewrite !app_assoc_s, !app_empty_r).
    now apply not_found_after_break.
Qed.

(** An analyzer all of whose listings give nothing returns its section. *)
Lemma degraded_compute_returns :
  degraded INSTANCES_LIST -> exists compute, returns analyze_compute_instances compute.
Proof.
  unfold returns. intros [Hf|[(text & Hf & Hl)|(text & Hf & Hl)]].
  - rewrite (compute_section None Hf). now eexists.
  - rewrite (compute_section (Some text) Hf). unfold try_loads. rewrite Hl. now eexists.
  - rewrite (compute_section (Some text) Hf). unfold try_loads. rewrite Hl. now eexists.
Qed.

Lemma degraded_storage_returns :
  degraded STORAGE_LS -> degraded DISKS_LIST ->
  exists storage, returns analyze_storage storage.
Proof.
  intros Hb Hd.
  destruct (disks_report_degraded Hd) as (d & dt & Hfd & Hrd).
  unfold returns.
  destruct Hb as [Hf|[(text & Hf & Hl)|(text & Hf & Hl)]].
  - rewrite (storage_section None d Hf Hfd), Hrd. now eexists.
  - rewrite (storage_section (Some text) d Hf Hfd), Hrd. unfold buckets_report.
    rewrite (fetched_text _ _ Hf). unfold try_loads. rewrite Hl. now eexists.
  - rewrite (storage_section (Some text) d Hf Hfd), Hrd. unfold buckets_report.
    rewrite (fetched_text _ _ Hf). unfold try_loads. rewrite Hl. now eexists.
Qed.

(** With the project identity and the three sections, [main] writes the
    whole report and tells where it is. *)
Lemma main_writes_report (info : value) (project : option string)
  (compute storage network : string) :
  decodes CONFIG_LIST info -> truthy info = true ->
  project_line info = Ok project ->
  returns analyze_compute_instances compute ->
  returns analyze_storage storage ->
  returns analyze_network network ->
  returns main tt
  /\ file_after REPORT_FILE None (fst main)
     = Some (full_report (project_text project) compute storage network)
  /\ In REPORT_GENERATED (printed (fst main)).
Proof.
  intros Hinfo Htruthy Hp Hc Hs Hn.
  destruct (write_report_run info project _ _ _ Hp Hc Hs Hn) as [Hw Hfile].
  pose proof (get_project_info_decodes info Hinfo) as Hg. unfold returns in *.
  rewrite main_run. cbn [fst snd]. rewrite Hg, Htruthy, Hw. repeat split.
  - cbn [file_after]. rewrite !file_after_app.
    rewrite (file_after_prints _ _ _ get_project_info_prints), Hfile.
    reflexivity.
  - cbn [printed]. do 2 right. rewrite !printed_app.
    apply in_or_app. right. apply in_or_app. right. now left.
Qed.

Lemma write_report_opens (info : value) :
  touches_files (fst (write_report info)) = true.
Proof. unfold write_report. now rewrite fst_bind. Qed.

(** When the compute analyzer raises, the file stays at the preamble. *)
Lemma write_report_compute_raises (info : value) (project : option string) (e : exn) :
  project_line info = Ok project ->
  raises analyze_compute_instances e ->
  snd (write_report info) = Raise e
  /\ file_after REPORT_FILE None (fst (write_report info))
     = Some (preamble ++ project_text project).
Proof.
  unfold raises. intros Hp Hc. unfold write_report. split.
  - run_steps. rewrite Hp. run_steps.
    destruct project; run_steps; now rewrite Hc.
  - run_steps. rewrite Hp. run_steps.
    destruct project; run_steps; rewrite Hc.
    all: rewrite ?file_after_app.
    all: cbn [file_after app option_map].
    all: rewrite String.eqb_refl.
    all: rewrite (file_after_prints _ _ _ analyze_compute_prints).
    all: cbn [option_map project_text]; unfold preamble.
    all: f_equal; cbn [append]; now rewrite ?app_assoc_s, ?app_empty_r.
Qed.

(** Without a project identity, [main] prints the hint and stops. *)
Lemma main_without_identity :
  (fetches CONFIG_LIST None
   \/ exists v, decodes CONFIG_LIST v /\ truthy v = false) ->
  returns main tt
  /\ touches_files (fst main) = false
  /\ exists before, printed (fst main) = (before ++ [AUTH_ERROR; AUTH_HINT])%list.
Proof.
  intro H.
  assert (Hg : exists o, snd get_project_info = Ok o /\ truthy_opt o = false).
  { destruct H as [Hf|(v & Hv & Hfalse)].
    - exists None. split; [now apply get_project_info_no_data | reflexivity].
    - exists (Some v). split; [now apply get_project_info_decodes | exact Hfalse]. }
  destruct Hg as (o & Hg & Ho). unfold returns. rewrite main_run. cbn [fst snd].
  rewrite Hg.
  assert (Htail : match o with
                  | Some info =>
                      if truthy info then
                        (fst (write_report info)
                         ++ match snd (write_report info) with
                            | Ok _ =>
                                [Print REPORT_GENERATED;
                                 Print "To view the report, open it in a text editor."]
                            | Raise _ => []
                            end)%list
                      else [Print AUTH_ERROR; Print AUTH_HINT]
                  | None => [Print AUTH_ERROR; Print AUTH_HINT]
                  end = [Print AUTH_ERROR; Print AUTH_HINT]).
  { destruct o as [info|]; [|reflexivity]. cbn in Ho. now rewrite Ho. }
  rewrite Htail. repeat split.
  - destruct o as [info|]; [|reflexivity]. cbn in Ho. now rewrite Ho.
  - cbn [touches_files existsb orb]. fold (touches_files
      (fst get_project_info ++ [Print AUTH_ERROR; Print AUTH_HINT])%list).
    rewrite touches_files_app, get_project_info_prints. reflexivity.
  - exists ("GCP Cost Optimization Tool" :: "========================="
            :: printed (fst get_project_info)).
    cbn [printed]. now rewrite printed_app.
Qed.

(* ===================================================================== *)
(** ** The run as a whole                                                 *)
(* ===================================================================== *)

(** A report that was written to its end had its project line and its
    three fetched sections. *)
Lemma write_report_parts (info : value) (u : unit) :
  snd (write_report info) = Ok u ->
  exists (project : option string) (compute storage network : string),
    project_line info = Ok project
    /\ returns analyze_compute_instances compute
    /\ returns analyze_storage storage
    /\ returns analyze_network network.
Proof.
  unfold write_report, returns. run_steps.
  destruct (project_line info) as [project|]; [|discriminate]. run_steps.
  destruct project as [text|]; run_steps.
  all: destruct (snd analyze_compute_instances) as [compute|]; [|discriminate];
    run_steps.
  all: destruct (snd analyze_storage) as [storage|]; [|discriminate]; run_steps.
  all: destruct (snd analyze_network) as [network|]; [|discriminate]; run_steps.
  all: intros _.
  - now exists (Some text), compute, storage, network.
  - now exists None, compute, storage, network.
Qed.

(** C2, as the code has it.  An analyzer all of whose listings give
    nothing (no data, text that is not JSON, or the empty array) raises no
    exception.  In every run that has the project identity and ends
    without an exception, the project line was rendered, every analyzer
    returned its section, and the report file holds the whole report, with
    the storage, network, billing and general title lines in this order,
    after the compute title line whenever the instance listing decodes;
    the section of an analyzer one of whose fetches returned no data has a
    not-found line, and so has the compute section of an empty listing. *)
Theorem C2_sections_of_empty_fetches :
  (degraded INSTANCES_LIST -> exists compute,
     returns analyze_compute_instances compute)
  /\ (degraded STORAGE_LS -> degraded DISKS_LIST -> exists storage,
        returns analyze_storage storage)
  /\ (degraded ADDRESSES_LIST -> degraded RULES_LIST -> exists network,
        returns analyze_network network)
  /\ forall info : value,
       decodes CONFIG_LIST info -> truthy info = true ->
       returns main tt ->
       exists (project : option string) (compute storage network : string),
         project_line info = Ok project
         /\ returns analyze_compute_instances compute
         /\ returns analyze_storage storage
         /\ returns analyze_network network
         /\ file_after REPORT_FILE None (fst main)
            = Some (full_report (project_text project) compute storage network)
         /\ subseq
              ["STORAGE OPTIMIZATION RECOMMENDATIONS:";
               "NETWORKING OPTIMIZATION RECOMMENDATIONS:";
               "BILLING OPTIMIZATION RECOMMENDATIONS:";
               "GENERAL COST OPTIMIZATION RECOMMENDATIONS:"]
              (lines (full_report (project_text project) compute storage network))
            = true
         /\ (forall v, decodes INSTANCES_LIST v ->
               subseq
                 ["COMPUTE ENGINE OPTIMIZATION RECOMMENDATIONS:";
                  "STORAGE OPTIMIZATION RECOMMENDATIONS:";
                  "NETWORKING OPTIMIZATION RECOMMENDATIONS:";
                  "BILLING OPTIMIZATION RECOMMENDATIONS:";
                  "GENERAL COST OPTIMIZATION RECOMMENDATIONS:"]
                 (lines (full_report (project_text project) compute storage network))
               = true)
         /\ (fetches INSTANCES_LIST None \/ decodes INSTANCES_LIST (VList []) ->
             has_not_found_line compute = true)
         /\ (fetches STORAGE_LS None \/ fetches DISKS_LIST None ->
             has_not_found_line storage = true)
         /\ (fetches ADDRESSES_LIST None \/ fetches RULES_LIST None ->
             has_not_found_line network = true).
Proof.
  split; [exact degraded_compute_returns|].
  split; [exact degraded_storage_returns|].
  split; [exact degraded_network_returns|].
  intros info Hinfo Htruthy Hmain.
  pose proof (get_project_info_decodes info Hinfo) as Hg.
  unfold returns in Hg, Hmain.
  rewrite main_run in Hmain. cbn [snd] in Hmain. rewrite Hg, Htruthy in Hmain.
  destruct (snd (write_report info)) as [u|] eqn:Hw; [|discriminate].
  destruct (write_report_parts info u Hw)
    as (project & compute & storage & network & Hp & Hc & Hs & Hn).
  exists project, compute, storage, network.
  destruct (main_writes_report info project _ _ _ Hinfo Htruthy Hp Hc Hs Hn)
    as (_ & Hfile & _).
  split; [exact Hp|]. split; [exact Hc|]. split; [exact Hs|]. split; [exact Hn|].
  split; [exact Hfile|].
  split; [exact (full_report_later_titles _ _ _ _ Hs Hn)|].
  split; [|split; [|split]].
  - intros v (text & Hf & Hl).
    apply (full_report_all_titles info v project compute storage network Hp);
      try assumption.
    unfold returns in Hc. rewrite (compute_section (Some text) Hf) in Hc.
    unfold try_loads in Hc. now rewrite Hl in Hc.
  - now apply compute_no_data_line.
  - now apply storage_no_data_line.
  - now apply network_no_data_line.
Qed.

(** C3, as the code has it.  When the project-identity fetch yields no
    data, the program prints the authentication hint and stops without
    creating any file.  When the identity decodes to a non-empty value
    whose project line can be rendered and every analyzer returns its
    section, the program writes the complete report, preamble and five
    sections, and prints its path.  When the compute analyzer raises, the
    run stops with that exception and the file keeps the preamble only. *)
Theorem C3_hint_or_complete_report :
  (fetches CONFIG_LIST None ->
   returns main tt
   /\ touches_files (fst main) = false
   /\ exists before,
        printed (fst main) = (before ++ [AUTH_ERROR; AUTH_HINT])%list)
  /\ (forall (info : value) (project : option string)
        (compute storage network : string),
        decodes CONFIG_LIST info -> truthy info = true ->
        project_line info = Ok project ->
        returns analyze_compute_instances compute ->
        returns analyze_storage storage ->
        returns analyze_network network ->
        returns main tt
        /\ file_after REPORT_FILE None (fst main)
           = Some (preamble ++ project_text project
                   ++ (compute ++ nl ++ nl) ++ (storage ++ nl ++ nl)
                   ++ (network ++ nl ++ nl) ++ (billing_report ++ nl ++ nl)
                   ++ generate_cost_recommendations)
        /\ In REPORT_GENERATED (printed (fst main)))
  /\ (forall (info : value) (project : option string) (e : exn),
        decodes CONFIG_LIST info -> truthy info = true ->
        project_line info = Ok project ->
        raises analyze_compute_instances e ->
        raises main e
        /\ file_after REPORT_FILE None (fst main)
           = Some (preamble ++ project_text project)).
Proof.
  split; [|split].
  - intro Hf. apply main_without_identity. now left.
  - intros info project compute storage network Hinfo Htruthy Hp Hc Hs Hn.
    exact (main_writes_report info project _ _ _ Hinfo Htruthy Hp Hc Hs Hn).
  - intros info project e Hinfo Htruthy Hp Hc.
    destruct (write_report_compute_raises info project e Hp Hc) as [Hw Hfile].
    pose proof (get_project_info_decodes info Hinfo) as Hg.
    unfold raises, returns in *. rewrite main_run. cbn [fst snd].
    rewrite Hg, Htruthy, Hw. split; [reflexivity|].
    cbn [file_after]. rewrite !file_after_app.
    rewrite (file_after_prints _ _ _ get_project_info_prints), Hfile.
    reflexivity.
Qed.

(** C9, as the code has it.  When the project-identity fetch succeeds with
    a text that is not JSON, the program raises the decoder's exception
    right after its first three progress lines: no hint, no file.  The
    program stops normally without creating a file exactly when the fetch
    returns no data or the text decodes to an empty value, such as the
    empty object. *)
Theorem C9_garbled_identity_raises :
  (garbled CONFIG_LIST ->
   main = ([Print "GCP Cost Optimization Tool";
            Print "=========================";
            Print "Getting project information..."],
           Raise JSONDecodeError))
  /\ (returns main tt /\ touches_files (fst main) = false <->
      fetches CONFIG_LIST None
      \/ exists v, decodes CONFIG_LIST v /\ truthy v = false).
Proof.
  split.
  - intros (text & Hf & Hl). rewrite main_run.
    pose proof (get_project_info_text text Hf) as Hg. rewrite Hl in Hg.
    rewrite Hg. f_equal. unfold get_project_info. run_steps.
    rewrite (fetches_some_run _ _ Hf). cbn [fst snd].
    rewrite (fetched_text _ _ Hf). run_steps. rewrite Hl. reflexivity.
  - split; [|intro H; now destruct (main_without_identity H) as (H1 & H2 & _)].
    unfold returns. rewrite main_run. cbn [fst snd].
    destruct (fetch_cases CONFIG_LIST) as [Hf|[(text & Hf)|(e & He)]].
    + intros _. now left.
    + rewrite (get_project_info_text text Hf).
      destruct (json_loads text) as [v|e] eqn:Hl; [|intros [H _]; discriminate].
      destruct (truthy v) eqn:Hv.
      * intros [_ H]. exfalso. revert H.
        cbn [touches_files existsb orb].
        fold (touches_files
                (fst get_project_info ++ fst (write_report v)
                 ++ match snd (write_report v) with
                    | Ok _ =>
                        [Print REPORT_GENERATED;
                         Print "To view the report, open it in a text editor."]
                    | Raise _ => []
                    end)%list).
        rewrite !touches_files_app, write_report_opens, orb_true_r.
        discriminate.
      * intros _. right. exists v. split; [now exists text | exact Hv].
    + assert (Hg : snd get_project_info = Raise e).
      { unfold get_project_info. run_steps. now rewrite He. }
      rewrite Hg. intros [H _]. discriminate.
Qed.

(* ===================================================================== *)
(** ** More of the summary table                                          *)
(* ===================================================================== *)

Lemma lookup_dict_set_any (k k' : string) (c : Z) (d : list (string * Z)) :
  lookup k (dict_set k' c d) = if k =? k' then Some c else lookup k d.
Proof.
  induction d as [|[k0 c0] d IH]; simpl.
  - destruct (k =? k'); reflexivity.
  - destruct (k' =? k0) eqn:E0; simpl.
    + apply String.eqb_eq in E0. subst k0. destruct (k =? k'); reflexivity.
    + rewrite IH. destruct (k =? k0) eqn:E1; [|reflexivity].
      apply String.eqb_eq in E1. subst k0.
      destruct (k =? k') eqn:E2; [|reflexivity].
      apply String.eqb_eq in E2. subst k'. now rewrite String.eqb_refl in E0.
Qed.

Lemma keys_dict_set (k : string) (c : Z) (d : list (string * Z)) :
  map fst (dict_set k c d)
  = (map fst d ++ match lookup k d with Some _ => [] | None => [k] end)%list.
Proof.
  induction d as [|[k0 c0] d IH]; simpl; [reflexivity|].
  destruct (k =? k0); simpl; [now rewrite app_nil_r | now rewrite IH].
Qed.

(** What one round of the counting loop does to the table. *)
Lemma tally_spec (k' : string) (d : list (string * Z)) :
  exists d',
    tally k' d = Ok d'
    /\ (forall k, lookup k d'
                  = if k =? k'
                    then Some (match lookup k' d with Some c => c + 1 | None => 1 end)%Z
                    else lookup k d)
    /\ map fst d'
       = (map fst d ++ match lookup k' d with Some _ => [] | None => [k'] end)%list.
Proof.
  unfold tally. destruct (lookup k' d) as [c|] eqn:E.
  - rewrite E. eexists. split; [reflexivity|]. split.
    + intro k. apply lookup_dict_set_any.
    + now rewrite keys_dict_set, E.
  - rewrite lookup_dict_set. eexists. split; [reflexivity|]. split.
    + intro k. rewrite !lookup_dict_set_any. now destruct (k =? k').
    + rewrite !keys_dict_set, lookup_dict_set, E. now rewrite app_nil_r.
Qed.

Lemma occurrences_cons (k x : string) (l : list string) :
  occurrences k (x :: l) = ((if (k =? x)%string then 1 else 0) + occurrences k l)%Z.
Proof.
  unfold occurrences. simpl. destruct (k =? x); simpl List.length; lia.
Qed.

Lemma occurrences_nonneg (k : string) (l : list string) : (0 <= occurrences k l)%Z.
Proof. unfold occurrences. lia. Qed.

Lemma lookup_none_keys {A : Type} (k : string) (d : list (string * A)) :
  existsb (String.eqb k) (map fst d)
  = match lookup k d with Some _ => true | None => false end.
Proof.
  induction d as [|[k0 c0] d IH]; simpl; [reflexivity|].
  destruct (k =? k0); [reflexivity | exact IH].
Qed.

Lemma filter_filter {A : Type} (f g : A -> bool) (l : list A) :
  filter f (filter g l) = filter (fun x => g x && f x) l.
Proof.
  induction l as [|x l IH]; simpl; [reflexivity|].
  destruct (g x); simpl; [destruct (f x)|]; now rewrite IH.
Qed.

(** The table after the loop: every count, and the order of the keys. *)
Lemma count_machine_types_spec (items : list value) :
  forallb is_instance items = true ->
  forall acc, exists table,
    count_machine_types items acc = Ok table
    /\ (forall k,
          lookup k table
          = match lookup k acc with
            | Some c => Some (c + occurrences k (map (segment "machineType") items))%Z
            | None =>
                if (occurrences k (map (segment "machineType") items) =? 0)%Z
                then None
                else Some (occurrences k (map (segment "machineType") items))
            end)
    /\ map fst table
       = (map fst acc
          ++ filter (fun y => negb (existsb (String.eqb y) (map fst acc)))
               (first_seen (map (segment "machineType") items)))%list.
Proof.
  induction items as [|i items IH]; intros H acc.
  - exists acc. split; [reflexivity|]. split.
    + intro k. cbn [map]. unfold occurrences. cbn.
      destruct (lookup k acc); [f_equal; lia | reflexivity].
    + cbn. now rewrite app_nil_r.
  - cbn [forallb] in H. apply andb_prop in H as [Hi Hitems].
    cbn [count_machine_types map]. rewrite (machine_type_of_instance i Hi).
    cbn [rbind]. set (x := segment "machineType" i).
    destruct (tally_spec x acc) as (acc1 & -> & Hlook1 & Hkeys1). cbn [rbind].
    destruct (IH Hitems acc1) as (table & -> & Hlook & Hkeys).
    exists table. split; [reflexivity|]. split.
    + intro k. rewrite Hlook, Hlook1, occurrences_cons.
      pose proof (occurrences_nonneg k (map (segment "machineType") items)) as Hocc.
      destruct (k =? x) eqn:E.
      * apply String.eqb_eq in E. subst k.
        destruct (lookup x acc) as [c|]; [f_equal; lia|].
        destruct (Z.eqb_spec (1 + occurrences x (map (segment "machineType") items)) 0);
          [lia | reflexivity].
      * destruct (lookup k acc); [f_equal; lia | reflexivity].
    + rewrite Hkeys, Hkeys1. cbn [first_seen filter].
      rewrite lookup_none_keys. rewrite filter_filter.
      destruct (lookup x acc) as [c|] eqn:E; cbn [negb].
      * rewrite app_nil_r. f_equal. apply filter_ext_in. intros y _.
        destruct (y =? x) eqn:Eyx; cbn [negb andb]; [|reflexivity].
        apply String.eqb_eq in Eyx. subst y. now rewrite lookup_none_keys, E.
      * rewrite <- app_assoc. f_equal. cbn [app]. f_equal.
        apply filter_ext_in. intros y _. rewrite existsb_app. cbn.
        rewrite orb_false_r, negb_orb. apply andb_comm.
Qed.

Lemma first_seen_in (x : string) (l : list string) :
  In x (first_seen l) <-> In x l.
Proof.
  induction l as [|y l IH]; simpl; [tauto|].
  rewrite filter_In, IH. split.
  - intros [H|[H _]]; [now left | now right].
  - intros [H|H]; [now left|].
    destruct (x =? y) eqn:E; [left; symmetry; now apply String.eqb_eq|].
    right. now split.
Qed.

(** Every string stands once in [first_seen]. *)
Lemma first_seen_nodup (l : list string) : NoDup (first_seen l).
Proof.
  induction l as [|x l IH]; simpl; constructor.
  - rewrite filter_In. intros [_ H]. cbn beta in H. now rewrite String.eqb_refl in H.
  - now apply NoDup_filter.
Qed.

Lemma in_lookup (k : string) (c : Z) (d : list (string * Z)) :
  NoDup (map fst d) -> In (k, c) d -> lookup k d = Some c.
Proof.
  induction d as [|[k0 c0] d IH]; simpl; intros Hnd H; [contradiction|].
  destruct H as [H|H].
  - injection H as -> ->. now rewrite String.eqb_refl.
  - inversion Hnd as [|? ? Hnotin Hnd']. subst.
    destruct (k =? k0) eqn:E; [|now apply IH].
    apply String.eqb_eq in E. subst k0. exfalso. apply Hnotin.
    now apply (in_map fst) in H.
Qed.

(* ===================================================================== *)
(** ** The summary table, the stopped instances and the empty listing     *)
(* ===================================================================== *)

Lemma table_of_keys (table : list (string * Z)) (count : string -> Z) :
  (forall k c, In (k, c) table -> c = count k) ->
  table = map (fun k => (k, count k)) (map fst table).
Proof.
  induction table as [|[k c] table IH]; intro H; [reflexivity|].
  cbn [map fst]. rewrite <- (H k c (or_introl eq_refl)). f_equal.
  apply IH. intros k' c' Hin. apply H. now right.
Qed.

(** The table the counting loop builds for well-formed instances: the
    distinct machine types where they are first seen, each with the number
    of its instances. *)
Lemma count_machine_types_table (items : list value) :
  forallb is_instance items = true ->
  count_machine_types items []
  = Ok (map (fun type =>
               (type, occurrences type (map (segment "machineType") items)))
            (first_seen (map (segment "machineType") items))).
Proof.
  intro H.
  destruct (count_machine_types_spec items H []) as (table & Htable & Hlook & Hkeys).
  cbn [map app existsb negb] in Hkeys.
  assert (Hkeys' : map fst table = first_seen (map (segment "machineType") items)).
  { rewrite Hkeys. clear. induction (first_seen _) as [|y l IH];
      [reflexivity | cbn; now rewrite IH]. }
  rewrite Htable. f_equal. rewrite <- Hkeys'. apply table_of_keys.
  intros k c Hin. apply in_lookup in Hin;
    [|rewrite Hkeys'; apply first_seen_nodup].
  rewrite Hlook in Hin. cbn [lookup] in Hin.
  destruct (Z.eqb_spec (occurrences k (map (segment "machineType") items)) 0);
    [discriminate|].
  now injection Hin as <-.
Qed.

Lemma summary_table_text (types : list string) :
  summary_table (map (fun type => (type, occurrences type types)) (first_seen types))
  = line "Instance Types Summary:" ++ summary_rows types.
Proof.
  unfold summary_table, summary_rows. f_equal. f_equal. now rewrite map_map.
Qed.

Lemma stopped_section_text (items : list value) :
  nonempty items = true -> stopped_section items = stopped_block items.
Proof.
  intro Hne. unfold stopped_section, stopped_block. rewrite Hne.
  unfold stopped_heading, stopped_advice, len. rewrite !app_assoc_s.
  reflexivity.
Qed.

(** The compute section of a non-empty listing of well-formed instances,
    up to the recommendations. *)
Lemma compute_section_fleet (items : list value) :
  decodes INSTANCES_LIST (VList items) ->
  nonempty items = true ->
  forallb is_instance items = true ->
  returns analyze_compute_instances
    (compute_top ++ line "Instance Types Summary:"
     ++ summary_rows (map (segment "machineType") items)
     ++ nl ++ line "Optimization Opportunities:"
     ++ stopped_section (filter (has_status "TERMINATED") items)
     ++ large_section (filter is_large_instance items)
     ++ compute_advice).
Proof.
  intros (text & Hfetch & Hloads) Hne H.
  destruct (compute_report_fleet items Hne H) as (table & Htable & Hreport).
  rewrite (count_machine_types_table items H) in Htable. apply Ok_inj in Htable.
  subst table. rewrite summary_table_text in Hreport.
  unfold returns. rewrite (compute_section (Some text) Hfetch).
  unfold try_loads. rewrite Hloads, Hreport. apply f_equal.
  unfold compute_header, compute_top, separator, opportunities_title, COMPUTE_TITLE.
  now rewrite ?app_assoc_s.
Qed.

(** C5: for every well-formed non-empty compute-instance listing, the
    summary table that the compute section prints has one row per distinct
    machine type, with the number of instances of the type, and the counts
    of these rows add up to the length of the instance list. *)
Theorem C5_summary_counts_add_up (items : list value) :
  decodes INSTANCES_LIST (VList items) ->
  nonempty items = true ->
  forallb is_instance items = true ->
  (exists after,
     returns analyze_compute_instances
       (compute_top ++ line "Instance Types Summary:"
        ++ summary_rows (map (segment "machineType") items)
        ++ nl ++ line "Optimization Opportunities:" ++ after))
  /\ sum_Z (map (fun type => occurrences type (map (segment "machineType") items))
              (first_seen (map (segment "machineType") items)))
     = Z.of_nat (List.length items).
Proof.
  intros Hdec Hne H. split.
  - eexists. exact (compute_section_fleet items Hdec Hne H).
  - destruct (count_machine_types_total items H []) as (table & Htable & Htotal).
    rewrite (count_machine_types_table items H) in Htable. apply Ok_inj in Htable.
    subst table. unfold total in Htotal. rewrite map_map in Htotal.
    cbn [snd map sum_Z] in Htotal. exact Htotal.
Qed.

(** A row of the stopped-instances listing shows the name of its
    instance. *)
Lemma stopped_row_shows_name (i : value) :
  str_contains (shown "name" i) (stopped_row i) = true.
Proof.
  unfold stopped_row, line. rewrite !app_assoc_s. apply str_contains_app.
Qed.


(** C8: on an empty, successfully decoded instance listing the compute
    analyzer emits its title and one none-found line; on text that is not
    JSON it returns one parse-error line, which is no none-found line,
    with no title, no summary table and no recommendation. *)
Theorem C8_empty_and_garbled_listing :
  (decodes INSTANCES_LIST (VList []) ->
   returns analyze_compute_instances
     (compute_top ++ line "No Compute Engine instances found."))
  /\ (garbled INSTANCES_LIST ->
      returns analyze_compute_instances "Error parsing Compute Engine data.")
  /\ lines (compute_top ++ line "No Compute Engine instances found.")
     = ["COMPUTE ENGINE OPTIMIZATION RECOMMENDATIONS:"; repeat_str "=" 50; "";
        "No Compute Engine instances found."; ""]
  /\ filter is_not_found
       (lines (compute_top ++ line "No Compute Engine instances found."))
     = ["No Compute Engine instances found."]
  /\ lines "Error parsing Compute Engine data."
     = ["Error parsing Compute Engine data."]
  /\ is_not_found "Error parsing Compute Engine data." = false.
Proof.
  split; [|split]; [| |repeat split; vm_compute; reflexivity].
  - intros (text & Hfetch & Hloads). unfold returns.
    rewrite (compute_section (Some text) Hfetch). unfold try_loads.
    rewrite Hloads. reflexivity.
  - intros (text & Hfetch & Hloads). unfold returns.
    rewrite (compute_section (Some text) Hfetch). unfold try_loads.
    rewrite Hloads. reflexivity.
Qed.

(** X1: the summary table of a well-formed listing has one row per machine
    type, in the order in which the types are first seen in the listing,
    and each row counts the instances of its type. *)
Theorem summary_table_rows (items : list value) :
  decodes INSTANCES_LIST (VList items) ->
  nonempty items = true ->
  forallb is_instance items = true ->
  exists table after,
    returns analyze_compute_instances
      (compute_header ++ summary_table table ++ after)
    /\ map fst table = first_seen (map (segment "machineType") items)
    /\ NoDup (map fst table)
    /\ forall k c, In (k, c) table ->
         c = occurrences k (map (segment "machineType") items) /\ (0 < c)%Z.
Proof.
  intros (text & Hfetch & Hloads) Hne H.
  destruct (compute_report_fleet items Hne H) as (table & Htable & Hreport).
  destruct (count_machine_types_spec items H []) as (table' & Htable' & Hlook & Hkeys).
  rewrite Htable in Htable'. apply Ok_inj in Htable'. subst table'.
  cbn [map app existsb negb] in Hkeys.
  assert (Hkeys' : map fst table = first_seen (map (segment "machineType") items)).
  { rewrite Hkeys. clear. induction (first_seen _) as [|y l IH];
      [reflexivity | cbn; now rewrite IH]. }
  exists table. eexists. split; [|split; [exact Hkeys'|split]].
  - unfold returns. rewrite (compute_section (Some text) Hfetch).
    unfold try_loads. rewrite Hloads, Hreport. reflexivity.
  - rewrite Hkeys'. apply first_seen_nodup.
  - intros k c Hin. apply in_lookup in Hin;
      [|rewrite Hkeys'; apply first_seen_nodup].
    rewrite Hlook in Hin. cbn [lookup] in Hin.
    pose proof (occurrences_nonneg k (map (segment "machineType") items)) as Hocc.
    destruct (Z.eqb_spec (occurrences k (map (segment "machineType") items)) 0);
      [discriminate|].
    apply (f_equal (fun o => match o with Some z => z | None => 0%Z end)) in Hin.
    cbn in Hin. subst c. split; [reflexivity | lia].
Qed.

(* ===================================================================== *)
(** ** More of the compute section                                        *)
(* ===================================================================== *)

Lemma filter_none {A : Type} (g : A -> bool) (l : list A) :
  forallb (fun x => negb (g x)) l = true -> filter g l = [].
Proof.
  induction l as [|x l IH]; simpl; [reflexivity|].
  intro H. apply andb_prop in H as [Hx Hl].
  destruct (g x); [discriminate | now apply IH].
Qed.

(** X2: the compute section of a well-formed, non-empty listing is laid out as
    header, summary table, title of the opportunities, the recommendation
    for the instances that are TERMINATED, the recommendation for the
    instances that are large, and the two advisory paragraphs; each
    recommendation keeps the listing order and is left out when it has no
    instance to show. *)
Theorem compute_section_layout (items : list value) :
  decodes INSTANCES_LIST (VList items) ->
  nonempty items = true ->
  forallb is_instance items = true ->
  exists table,
    count_machine_types items [] = Ok table
    /\ returns analyze_compute_instances
         (compute_header ++ summary_table table ++ opportunities_title
          ++ stopped_section (filter (has_status "TERMINATED") items)
          ++ large_section (filter is_large_instance items)
          ++ compute_advice)
    /\ (forallb (fun i => negb (has_status "TERMINATED" i)) items = true ->
        forallb (fun i => negb (is_large_instance i)) items = true ->
        returns analyze_compute_instances
          (compute_header ++ summary_table table ++ opportunities_title
           ++ compute_advice)).
Proof.
  intros (text & Hfetch & Hloads) Hne H.
  destruct (compute_report_fleet items Hne H) as (table & Htable & Hreport).
  assert (Hret : returns analyze_compute_instances
                   (compute_header ++ summary_table table ++ opportunities_title
                    ++ stopped_section (filter (has_status "TERMINATED") items)
                    ++ large_section (filter is_large_instance items)
                    ++ compute_advice)).
  { unfold returns. rewrite (compute_section (Some text) Hfetch).
    unfold try_loads. now rewrite Hloads, Hreport. }
  exists table. split; [exact Htable|]. split; [exact Hret|].
  intros Hs Hl. rewrite (filter_none _ _ Hs), (filter_none _ _ Hl) in Hret.
  exact Hret.
Qed.

Lemma count_machine_types_missing (good rest : list value) (bad : value) :
  forallb is_instance good = true ->
  is_dict bad = true -> field "machineType" bad = None ->
  forall acc, count_machine_types (good ++ bad :: rest) acc = Raise KeyError.
Proof.
  intros Hgood Hdict Hmissing.
  induction good as [|i good IH]; intro acc.
  - cbn [app count_machine_types]. unfold machine_type_of.
    destruct bad as [| | | | | |d]; try discriminate.
    cbn in Hmissing. cbn [py_getitem]. now rewrite Hmissing.
  - cbn [forallb] in Hgood. apply andb_prop in Hgood as [Hi Hgood].
    cbn [app count_machine_types]. rewrite (machine_type_of_instance i Hi).
    cbn [rbind].
    destruct (tally_total (segment "machineType" i) acc) as (acc' & -> & _).
    cbn [rbind]. now apply IH.
Qed.

(** X3: a listed instance without a machineType, after well-formed ones, makes
    the compute analyzer raise KeyError: nothing of the section is
    returned. *)
Theorem missing_machine_type_raises (good rest : list value) (bad : value) :
  decodes INSTANCES_LIST (VList (good ++ bad :: rest)) ->
  forallb is_instance good = true ->
  is_dict bad = true -> field "machineType" bad = None ->
  raises analyze_compute_instances KeyError.
Proof.
  intros (text & Hfetch & Hloads) Hgood Hdict Hmissing.
  unfold raises. rewrite (compute_section (Some text) Hfetch).
  unfold try_loads. rewrite Hloads. unfold compute_report.
  replace (truthy (VList (good ++ bad :: rest))) with true
    by (now destruct good).
  cbn [negb py_iter rbind].
  now rewrite (count_machine_types_missing good rest bad Hgood Hdict Hmissing).
Qed.

(** X4: an instance listing that decodes to something else than an array: an
    empty value (null, false, zero, the empty string or object) is taken
    for an empty listing, and a non-empty one (an object, a string, a
    number) makes the analyzer raise TypeError. *)
Theorem non_array_listing (v : value) :
  decodes INSTANCES_LIST v -> is_list v = false ->
  (truthy v = false ->
   returns analyze_compute_instances (compute_header ++ line NO_INSTANCES))
  /\ (truthy v = true -> raises analyze_compute_instances TypeError).
Proof.
  intros (text & Hfetch & Hloads) Hlist.
  unfold returns, raises. rewrite (compute_section (Some text) Hfetch).
  unfold try_loads. rewrite Hloads. unfold compute_report. split; intro Ht;
    rewrite Ht; cbn [negb]; [reflexivity|].
  destruct v as [|b|n|x|s|l|d]; try discriminate; try reflexivity.
  - destruct s as [|c s]; [discriminate | reflexivity].
  - destruct d as [|[k x] d]; [discriminate | reflexivity].
Qed.

Lemma split_no_sep (c : ascii) (s : string) :
  Forall (fun seg => str_contains (String c "") seg = false) (split c s).
Proof.
  induction s as [|x s IH]; simpl.
  - constructor; [reflexivity | constructor].
  - destruct (x =? c)%char eqn:E.
    + constructor; [reflexivity | exact IH].
    + destruct (split c s) as [|seg segs]; [constructor; [|constructor]|].
      * cbn. rewrite Ascii.eqb_sym, E. reflexivity.
      * inversion IH as [|? ? Hseg Hsegs]. subst. constructor; [|exact Hsegs].
        cbn. rewrite Ascii.eqb_sym, E. exact Hseg.
Qed.

Lemma last_in (l : list string) : l <> [] -> In (last l "") l.
Proof.
  induction l as [|x l IH]; [congruence|]. intros _.
  destruct l as [|y l]; [now left|]. right. apply IH. discriminate.
Qed.

(** A path is its only segment, or a directory, the separator and the
    final segment. *)
Lemma split_last_shape (c : ascii) (s : string) :
  match split c s with
  | [seg] => s = seg
  | segs => exists dir, s = dir ++ String c (last segs "")
  end.
Proof.
  induction s as [|x s IH]; [reflexivity|]. simpl split.
  destruct (x =? c)%char eqn:E.
  - apply Ascii.eqb_eq in E. subst x.
    destruct (split c s) as [|seg segs] eqn:Es; [now apply split_not_nil in Es|].
    destruct segs as [|seg2 segs].
    + subst s. now exists "".
    + destruct IH as [dir ->]. now exists (String c dir).
  - destruct (split c s) as [|seg segs] eqn:Es; [now apply split_not_nil in Es|].
    destruct segs as [|seg2 segs].
    + now subst s.
    + destruct IH as [dir ->]. now exists (String x dir).
Qed.

(** X5: the machine type that the report shows is the part of the machineType
    path after its last slash: it has no slash, and the path is this name
    alone or a directory, a slash and this name. *)
Theorem machine_type_is_final_segment (i : value) (path : string) :
  str_field "machineType" i = Some path ->
  exists name,
    machine_type_of i = Ok name
    /\ str_contains "/" name = false
    /\ (path = name \/ exists dir, path = dir ++ "/" ++ name).
Proof.
  unfold str_field, field. destruct i as [| | | | |l|d]; try discriminate.
  destruct (lookup "machineType" d) as [[| | | |mt| |]|] eqn:E; try discriminate.
  intro H. injection H as ->. exists (last_segment path).
  split; [unfold machine_type_of; cbn; now rewrite E|]. split.
  - pose proof (split_no_sep "/" path) as Hall.
    rewrite Forall_forall in Hall. apply Hall. apply last_in, split_not_nil.
  - unfold last_segment. pose proof (split_last_shape "/" path) as Hshape.
    destruct (split "/" path) as [|seg segs] eqn:Es; [now apply split_not_nil in Es|].
    destruct segs as [|seg2 segs]; [now left | now right].
Qed.

Lemma startswith_spec (sub s : string) :
  startswith sub s = true <-> exists b, s = sub ++ b.
Proof.
  split.
  - revert s. induction sub as [|c sub IH]; intros s H; [now exists s|].
    destruct s as [|x s]; [discriminate|]. cbn in H.
    apply andb_prop in H as [Hc Hs]. apply Ascii.eqb_eq in Hc. subst x.
    destruct (IH s Hs) as [b ->]. now exists b.
  - intros [b ->]. apply startswith_app.
Qed.

(** [sub in s] holds exactly when [s] is some text, [sub], some text. *)
Lemma str_contains_spec (sub s : string) :
  str_contains sub s = true <-> exists a b, s = a ++ sub ++ b.
Proof.
  split.
  - induction s as [|x s IH]; cbn; intro H.
    + rewrite orb_false_r in H. apply startswith_spec in H as [b Hb].
      now exists "", b.
    + apply orb_prop in H as [H|H].
      * apply startswith_spec in H as [b Hb]. now exists "", b.
      * destruct (IH H) as (a & b & ->). now exists (String x a), b.
  - intros (a & b & ->). apply str_contains_app.
Qed.

(** X6: the test for a large instance never fails on an instance whose
    machineType is a string, and it holds exactly when one of the six
    names occurs somewhere in that string. *)
Theorem large_test_is_occurrence (i : value) (machine_type : string) :
  str_field "machineType" i = Some machine_type ->
  exists large,
    is_large i = Ok large
    /\ (large = true <->
        exists large_type before after,
          In large_type LARGE_TYPES
          /\ machine_type = before ++ large_type ++ after).
Proof.
  intro H. exists (mentions_large machine_type).
  split; [now apply is_large_str|]. unfold mentions_large.
  rewrite existsb_exists. split.
  - intros (t & Ht & Hc). apply str_contains_spec in Hc as (a & b & ->).
    now exists t, a, b.
  - intros (t & a & b & Ht & ->). exists t. split; [exact Ht|].
    apply str_contains_app.
Qed.

(* ===================================================================== *)
(** ** More of the storage section                                        *)
(* ===================================================================== *)

(** X7: in the disk analysis the two selections are independent.  When the
    bucket analysis returns and the declared sizes of the disks without
    users add up to an integer of at most 4300 digits, the unattached rows
    and the total cover exactly the disks without users, in listing order;
    the SSD line counts exactly the disks whose type has ssd in any letter
    case; an attached disk is never in the unattached rows, and neither
    its name nor its size is read. *)
Theorem disk_selections (buckets : option string) (buckets_text : string)
  (items : list value) :
  fetches STORAGE_LS buckets ->
  buckets_report buckets = Ok buckets_text ->
  decodes DISKS_LIST (VList items) ->
  forallb is_listed_disk items = true ->
  (Z.abs (sum_Z (map declared_size (filter lacks_users items)))
   < 10 ^ INT_MAX_STR_DIGITS)%Z ->
  unattached_disks items = Ok (filter lacks_users items)
  /\ ssd_disks items = Ok (filter is_ssd_disk items)
  /\ returns analyze_storage
       (storage_top ++ buckets_text
        ++ nl ++ line "Persistent Disk Optimization:"
        ++ unattached_block (filter lacks_users items)
        ++ ssd_block (filter is_ssd_disk items)).
Proof.
  intros Hb Hbt Hdec H Hsum.
  assert (Hin : forall d, In d items -> is_listed_disk d = true)
    by now apply forallb_forall.
  split; [|split].
  - apply filterM_pure. intros d Hd. apply is_unattached_listed. now apply Hin.
  - apply filterM_pure. intros d Hd. apply is_ssd_listed. now apply Hin.
  - unfold returns.
    rewrite (storage_section_listed buckets buckets_text items Hb Hbt Hdec H).
    apply int_fits_lt in Hsum. rewrite Hsum. now rewrite andb_false_r.
Qed.

(** X22: the total of line 136 is an integer the script computed, and an
    integer of more than 4300 digits cannot be printed: when every size
    was read and the sizes of the disks without users add up to such an
    integer, the storage analyzer raises ValueError. *)
Theorem unprintable_total_raises (buckets : option string) (buckets_text : string)
  (items : list value) :
  fetches STORAGE_LS buckets ->
  buckets_report buckets = Ok buckets_text ->
  decodes DISKS_LIST (VList items) ->
  forallb is_listed_disk items = true ->
  nonempty (filter lacks_users items) = true ->
  (10 ^ INT_MAX_STR_DIGITS
   <= Z.abs (sum_Z (map declared_size (filter lacks_users items))))%Z ->
  mapM size_of (filter lacks_users items)
  = Ok (map declared_size (filter lacks_users items))
  /\ raises analyze_storage ValueError.
Proof.
  intros Hb Hbt Hdec H Hne Hsum.
  assert (Hin : forall d, In d items -> is_listed_disk d = true)
    by now apply forallb_forall.
  split.
  - apply mapM_pure. intros d Hd. apply filter_In in Hd as [Hd Hl].
    apply size_of_disk.
    destruct (listed_disk_fields d (Hin d Hd)) as (its & ty & _ & _ & Hdisk).
    now apply Hdisk.
  - unfold raises.
    rewrite (storage_section_listed buckets buckets_text items Hb Hbt Hdec H).
    rewrite Hne.
    destruct (int_fits (sum_Z (map declared_size (filter lacks_users items)))) eqn:E;
      [|reflexivity].
    apply int_fits_lt in E. lia.
Qed.

Lemma mapM_first_error {A B : Type} (f : A -> result B) (e : exn) (l : list A) :
  (forall x, In x l -> (exists y, f x = Ok y) \/ f x = Raise e) ->
  (exists x, In x l /\ f x = Raise e) ->
  mapM f l = Raise e.
Proof.
  induction l as [|x l IH]; intros Hall (x0 & Hin & Hbad); [contradiction|].
  cbn [mapM]. destruct (Hall x (or_introl eq_refl)) as [[y Hy]|Hx].
  - rewrite Hy. cbn [rbind].
    destruct Hin as [<-|Hin]; [rewrite Hy in Hbad; discriminate|].
    rewrite IH; [reflexivity | | now exists x0].
    intros z Hz. apply Hall. now right.
  - now rewrite Hx.
Qed.

(** [int] of a text returns or raises [ValueError]. *)
Lemma int_of_str_cases (s : string) :
  (exists n, int_of_str s = Ok n) \/ int_of_str s = Raise ValueError.
Proof.
  unfold int_of_str. destruct (parse_int s) as [n|]; [|now right].
  destruct (count_digits s <=? INT_MAX_STR_DIGITS)%Z; [left; now exists n | now right].
Qed.

(** X8: a size that [int] cannot read is not caught by the handler of the disk
    analysis: when every unattached disk has a sizeGb that is an integer
    or a string and one of these strings spells no integer, the storage
    analyzer raises ValueError. *)
Theorem unreadable_size_raises (buckets : option string) (buckets_text : string)
  (items : list value) (odd : value) :
  fetches STORAGE_LS buckets ->
  buckets_report buckets = Ok buckets_text ->
  decodes DISKS_LIST (VList items) ->
  forallb is_dict items = true ->
  (forall d, In d items -> lacks_users d = true ->
     exists size, field "sizeGb" d = Some size
                  /\ (is_str size = true \/ exists n, size = VInt n)) ->
  In odd items -> lacks_users odd = true ->
  (exists s, field "sizeGb" odd = Some (VStr s) /\ int_of_str s = Raise ValueError) ->
  raises analyze_storage ValueError.
Proof.
  intros Hb Hbt (text & Hfetch & Hloads) Hdicts Hsizes Hodd Hloose (s & Hs & Hbad).
  assert (Hin : forall d, In d items -> is_dict d = true)
    by now apply forallb_forall.
  unfold raises. rewrite (storage_section buckets (Some text) Hb Hfetch).
  rewrite Hbt. cbn [rbind]. unfold disks_report.
  rewrite (fetched_text _ _ Hfetch). unfold try_loads. rewrite Hloads.
  unfold disks_body. cbn [py_iter rbind]. unfold unattached_disks.
  rewrite (filterM_pure is_unattached lacks_users).
  2:{ intros d Hd. specialize (Hin d Hd). destruct d as [| | | | | |its]; try discriminate.
      unfold is_unattached, lacks_users, field. cbn [py_contains py_getitem rbind].
      now destruct (lookup "users" its). }
  cbn [rbind]. unfold unattached_report.
  assert (Hne : nonempty (filter lacks_users items) = true).
  { assert (Hf : In odd (filter lacks_users items)) by now apply filter_In.
    now destruct (filter lacks_users items). }
  rewrite Hne. rewrite (mapM_first_error size_of ValueError); [reflexivity| |].
  - intros d Hd. apply filter_In in Hd as [Hd Hl].
    destruct (Hsizes d Hd Hl) as (size & Hsize & Hkind).
    specialize (Hin d Hd). destruct d as [| | | | | |its]; try discriminate.
    unfold size_of. cbn [field] in Hsize. cbn [py_getitem]. rewrite Hsize. cbn [rbind].
    destruct Hkind as [Hstr|[n ->]]; [|left; now exists n].
    destruct size as [| | | |s'| |]; try discriminate. cbn [py_int].
    apply int_of_str_cases.
  - exists odd. split; [now apply filter_In|].
    specialize (Hin odd Hodd). destruct odd as [| | | | | |its]; try discriminate.
    unfold size_of. cbn [field] in Hs. cbn [py_getitem]. rewrite Hs. cbn [rbind py_int].
    exact Hbad.
Qed.

(** X9: what line 133 reads from a sizeGb written as the decimal text of
    an integer: this integer, which is also the size the text declares,
    when it has at most 4300 digits, also when it is negative, and
    ValueError when it has more. *)
Theorem size_of_decimal_text (d : value) (n : Z) :
  field "sizeGb" d = Some (VStr (str_int n)) ->
  ((Z.abs n < 10 ^ INT_MAX_STR_DIGITS)%Z ->
   size_of d = Ok n /\ declared_size d = n)
  /\ ((10 ^ INT_MAX_STR_DIGITS <= Z.abs n)%Z -> size_of d = Raise ValueError).
Proof.
  intro H. unfold size_of, declared_size. rewrite H.
  destruct d as [| | | | | |items]; try discriminate. cbn [field] in H.
  cbn [py_getitem]. rewrite H. cbn [rbind py_int].
  rewrite int_of_str_str_int. split.
  - intro Hfit. apply int_fits_lt in Hfit. rewrite Hfit.
    now rewrite (declared_str_int n Hfit).
  - intro Hbig. destruct (int_fits n) eqn:E; [|reflexivity].
    apply int_fits_lt in E. lia.
Qed.

(* ===================================================================== *)
(** ** More of the network section                                        *)
(* ===================================================================== *)

Lemma address_fields (a : value) :
  is_address a = true ->
  exists items st ad nm,
    a = VDict items /\ lookup "status" items = Some st
    /\ lookup "address" items = Some ad /\ lookup "name" items = Some nm.
Proof.
  unfold is_address, field. destruct a as [| | | | |l|items]; try discriminate.
  destruct (lookup "status" items) as [st|] eqn:Hst; try discriminate.
  destruct (lookup "address" items) as [ad|] eqn:Had; try discriminate.
  destruct (lookup "name" items) as [nm|] eqn:Hnm; try discriminate.
  intros _. now exists items, st, ad, nm.
Qed.

Lemma in_use_address (a : value) :
  is_address a = true -> in_use a = Ok (negb (lacks_users a)).
Proof.
  intro H. destruct (address_fields a H) as (items & st & ad & nm & -> & _).
  unfold in_use, lacks_users, field. cbn.
  destruct (lookup "users" items); cbn; [now rewrite negb_involutive | reflexivity].
Qed.

Lemma ip_line_address (a : value) :
  is_address a = true -> ip_line a = Ok (static_item a).
Proof.
  intro H. unfold ip_line. rewrite (in_use_address a H). cbn [rbind].
  destruct (address_fields a H) as (items & st & ad & nm & -> & _ & Had & Hnm).
  unfold static_item, shown, field. cbn [py_getitem]. rewrite Had, Hnm.
  cbn [rbind]. now destruct (lacks_users (VDict items)).
Qed.

Lemma is_reserved_address (a : value) :
  is_address a = true -> is_reserved a = Ok (has_status "RESERVED" a).
Proof.
  intro H. destruct (address_fields a H) as (items & st & ad & nm & -> & Hst & _).
  unfold is_reserved, has_status, field. cbn. now rewrite Hst.
Qed.

(** The address analysis of a listing of well-formed addresses. *)
Lemma addresses_body_addresses (items : list value) :
  forallb is_address items = true ->
  addresses_body (VList items)
  = Ok (static_section (filter (has_status "RESERVED") items)).
Proof.
  intro H. unfold addresses_body.
  destruct items as [|a0 items0] eqn:Eitems; [reflexivity|]. rewrite <- Eitems in *.
  replace (truthy (VList items)) with true by now rewrite Eitems.
  cbn [py_iter rbind]. unfold static_ips.
  assert (Hin : forall a, In a items -> is_address a = true)
    by now apply forallb_forall.
  rewrite (filterM_pure is_reserved (has_status "RESERVED"))
    by (intros a Ha; apply is_reserved_address; now apply Hin).
  cbn [rbind]. unfold static_section.
  destruct (filter (has_status "RESERVED") items) as [|r rs] eqn:Ef; [reflexivity|].
  cbn [nonempty]. rewrite (mapM_pure ip_line static_item); [reflexivity|].
  intros a Ha. apply ip_line_address, Hin.
  rewrite <- Ef in Ha. now apply filter_In in Ha.
Qed.

(** X10: the address analysis lists exactly the addresses whose status is
    RESERVED, in listing order, and shows an address as in use exactly
    when it has a non-empty users field; when no address is reserved it
    emits nothing under its title. *)
Theorem reserved_addresses_listed (rules : option string) (rules_text : string)
  (items : list value) :
  fetches RULES_LIST rules ->
  rules_report rules = Ok rules_text ->
  decodes ADDRESSES_LIST (VList items) ->
  forallb is_address items = true ->
  static_ips items = Ok (filter (has_status "RESERVED") items)
  /\ (forall ip, In ip items -> in_use ip = Ok (negb (lacks_users ip)))
  /\ returns analyze_network
       (network_header
        ++ (addresses_title ++ static_section (filter (has_status "RESERVED") items))
        ++ rules_text)
  /\ (forallb (fun a => negb (has_status "RESERVED" a)) items = true ->
      returns analyze_network (network_header ++ addresses_title ++ rules_text)).
Proof.
  intros Hr Hrt (text & Hfetch & Hloads) H.
  assert (Hin : forall a, In a items -> is_address a = true)
    by now apply forallb_forall.
  assert (Hret : returns analyze_network
                   (network_header
                    ++ (addresses_title
                        ++ static_section (filter (has_status "RESERVED") items))
                    ++ rules_text)).
  { unfold returns. rewrite (network_section (Some text) rules Hfetch Hr).
    unfold addresses_report. rewrite (fetched_text _ _ Hfetch). unfold try_loads.
    rewrite Hloads, (addresses_body_addresses items H). cbn [rbind].
    now rewrite Hrt. }
  split; [|split; [|split]].
  - apply filterM_pure. intros a Ha. apply is_reserved_address. now apply Hin.
  - intros ip Hip. apply in_use_address. now apply Hin.
  - exact Hret.
  - intro Hnone. rewrite (filter_none _ _ Hnone) in Hret. cbn [static_section] in Hret.
    now rewrite app_empty_r in Hret.
Qed.

Lemma rule_fields (r : value) :
  is_rule r = true ->
  exists items nm,
    r = VDict items /\ lookup "name" items = Some nm
    /\ (lookup "target" items = None
        \/ exists s, lookup "target" items = Some (VStr s)).
Proof.
  unfold is_rule, field. destruct r as [| | | | |l|items]; try discriminate.
  destruct (lookup "name" items) as [nm|] eqn:Hnm; try discriminate.
  destruct (lookup "target" items) as [[| | | |s| |]|] eqn:Ht; try discriminate;
    intros _; exists items, nm; (split; [reflexivity|]); (split; [exact Hnm|]).
  - right. now exists s.
  - now left.
Qed.

Lemma rule_line_rule (r : value) :
  is_rule r = true -> rule_line r = Ok (rule_item r).
Proof.
  intro H. destruct (rule_fields r H) as (items & nm & -> & Hnm & Ht).
  unfold rule_line, rule_item, rule_address, rule_target, shown, field.
  cbn [py_getitem py_get]. rewrite Hnm. cbn [rbind].
  destruct Ht as [Ht|[s Ht]]; rewrite Ht; cbn [rbind py_split_last];
    now destruct (lookup "IPAddress" items).
Qed.

(** The forwarding-rule analysis of a listing of well-formed rules. *)
Lemma rules_body_rules (items : list value) :
  forallb is_rule items = true ->
  rules_body (VList items) = Ok (rules_section items).
Proof.
  intro H. unfold rules_body, rules_section.
  destruct items as [|r0 items0] eqn:Eitems; [reflexivity|]. rewrite <- Eitems in *.
  replace (truthy (VList items)) with true by now rewrite Eitems.
  cbn [py_len py_iter rbind].
  rewrite (mapM_pure rule_line rule_item); [reflexivity|].
  intros r Hr. apply rule_line_rule. now apply (proj1 (forallb_forall _ _) H).
Qed.

(** X11: the forwarding-rule analysis lists every rule of the listing, in
    listing order, under a heading that reports their number.  A rule
    without an address shows the placeholder N/A for it; a target shows as
    its final path segment, and so does the placeholder of a rule without
    a target, which shows as the letter A. *)
Theorem forwarding_rules_listed (addresses : option string) (addresses_text : string)
  (items : list value) :
  fetches ADDRESSES_LIST addresses ->
  addresses_report addresses = Ok addresses_text ->
  decodes RULES_LIST (VList items) ->
  forallb is_rule items = true ->
  mapM rule_line items = Ok (map rule_item items)
  /\ (forall r, In r items -> field "target" r = None ->
        field "IPAddress" r = None ->
        rule_item r = line ("   - " ++ shown "name" r ++ " (IP: N/A, Target: A)"))
  /\ returns analyze_network
       (network_header ++ addresses_text ++ rules_title ++ rules_section items).
Proof.
  intros Ha Hat (text & Hfetch & Hloads) H. split; [|split].
  - apply mapM_pure. intros r Hr. apply rule_line_rule.
    now apply (proj1 (forallb_forall _ _) H).
  - intros r _ Ht Hip. unfold rule_item, rule_address, rule_target.
    now rewrite Ht, Hip.
  - unfold returns. rewrite (network_section addresses (Some text) Ha Hfetch).
    rewrite Hat. cbn [rbind]. unfold rules_report.
    rewrite (fetched_text _ _ Hfetch). unfold try_loads.
    now rewrite Hloads, (rules_body_rules items H).
Qed.

Lemma mapM_stops {A B : Type} (f : A -> result B) (e : exn)
  (good rest : list A) (bad : A) :
  (forall x, In x good -> exists y, f x = Ok y) ->
  f bad = Raise e ->
  mapM f (good ++ bad :: rest) = Raise e.
Proof.
  intros Hgood Hbad. induction good as [|x good IH]; cbn [app mapM].
  - now rewrite Hbad.
  - destruct (Hgood x (or_introl eq_refl)) as [y ->]. cbn [rbind].
    rewrite IH; [reflexivity|]. intros z Hz. apply Hgood. now right.
Qed.

(** X12: the placeholder stands in for a target that is absent, not for one
    that is there and is no string: a rule whose target is null, after
    well-formed rules, makes the network analyzer raise AttributeError. *)
Theorem non_string_target_raises (addresses : option string) (addresses_text : string)
  (good rest : list value) (bad target : value) :
  fetches ADDRESSES_LIST addresses ->
  addresses_report addresses = Ok addresses_text ->
  decodes RULES_LIST (VList (good ++ bad :: rest)) ->
  forallb is_rule good = true ->
  is_dict bad = true ->
  (exists name, field "name" bad = Some name) ->
  field "target" bad = Some target -> is_str target = false ->
  raises analyze_network AttributeError.
Proof.
  intros Ha Hat (text & Hfetch & Hloads) Hgood Hdict [name Hname] Htarget Hstr.
  unfold raises. rewrite (network_section addresses (Some text) Ha Hfetch).
  rewrite Hat. cbn [rbind]. unfold rules_report.
  rewrite (fetched_text _ _ Hfetch). unfold try_loads. rewrite Hloads.
  unfold rules_body.
  replace (truthy (VList (good ++ bad :: rest))) with true by now destruct good.
  cbn [py_len py_iter rbind].
  rewrite (mapM_stops rule_line AttributeError); [reflexivity| |].
  - intros r Hr. exists (rule_item r). apply rule_line_rule.
    now apply (proj1 (forallb_forall _ _) Hgood).
  - destruct bad as [| | | | | |items]; try discriminate.
    cbn in Hname, Htarget. unfold rule_line. cbn [py_getitem py_get].
    rewrite Hname, Htarget. cbn [rbind].
    now destruct target.
Qed.

(* ===================================================================== *)
(** ** More of the run: files                                             *)
(* ===================================================================== *)

Lemma opened_app (tr1 tr2 : list event) :
  opened (tr1 ++ tr2)%list = (opened tr1 ++ opened tr2)%list.
Proof.
  induction tr1 as [|[text|p|text] tr1 IH]; cbn; [reflexivity | exact IH | | exact IH].
  now rewrite IH.
Qed.

Lemma written_app (tr1 tr2 : list event) :
  written (tr1 ++ tr2)%list = written tr1 ++ written tr2.
Proof.
  induction tr1 as [|[text|p|text] tr1 IH]; cbn; [reflexivity | exact IH | exact IH |].
  now rewrite IH, app_assoc_s.
Qed.

Lemma prints_open_nothing (tr : list event) :
  touches_files tr = false -> opened tr = [] /\ written tr = "".
Proof.
  induction tr as [|[text|p|text] tr IH]; cbn; [now split | exact IH | discriminate ..].
Qed.

Lemma opened_bind_nil {A B : Type} (m : M A) (k : A -> M B) :
  opened (fst m) = [] -> (forall a, opened (fst (k a)) = []) ->
  opened (fst (bind m k)) = [].
Proof.
  intros Hm Hk. rewrite fst_bind, opened_app, Hm.
  destruct (snd m); [apply Hk | reflexivity].
Qed.

(** A trace that opens nothing appends what it writes to the file. *)
Lemma file_after_unopened (path : string) (tr : list event) (content : option string) :
  opened tr = [] ->
  file_after path content tr = option_map (fun c => c ++ written tr) content.
Proof.
  revert content. induction tr as [|[text|p|text] tr IH]; intros content H; cbn.
  - destruct content; cbn; [now rewrite app_empty_r | reflexivity].
  - now apply IH.
  - discriminate.
  - rewrite IH by exact H. destruct content; cbn; [now rewrite app_assoc_s | reflexivity].
Qed.

(** The body of the [with] block opens the report file, writes the
    preamble, and opens nothing else. *)
Lemma write_report_trace (info : value) :
  exists rest,
    fst (write_report info)
    = Open REPORT_FILE
      :: Write (line ("GCP COST OPTIMIZATION REPORT - " ++ TODAY))
      :: Write (separator ++ nl) :: rest
    /\ opened rest = [].
Proof.
  unfold write_report.
  do 3 (rewrite fst_bind; cbn [emit write fst snd app]).
  eexists. split; [reflexivity|].
  apply opened_bind_nil; [reflexivity|]. intro project.
  apply opened_bind_nil; [now destruct project|]. intros _.
  apply opened_bind_nil;
    [apply (prints_open_nothing _ analyze_compute_prints)|]. intro c.
  apply opened_bind_nil; [reflexivity|]. intros _.
  apply opened_bind_nil;
    [apply (prints_open_nothing _ analyze_storage_prints)|]. intro s.
  apply opened_bind_nil; [reflexivity|]. intros _.
  apply opened_bind_nil;
    [apply (prints_open_nothing _ analyze_network_prints)|]. intro n.
  apply opened_bind_nil; [reflexivity|]. intros _.
  apply opened_bind_nil; [reflexivity|]. intro b.
  apply opened_bind_nil; [reflexivity|]. intros _. reflexivity.
Qed.

(** What [main] leaves behind: prints, then possibly the trace of the
    [with] block, then prints. *)
Lemma main_trace_shape :
  (exists before, fst main = before /\ touches_files before = false)
  \/ (exists before info after,
        fst main = (before ++ fst (write_report info) ++ after)%list
        /\ touches_files before = false /\ touches_files after = false).
Proof.
  rewrite main_run. cbn [fst].
  pose proof get_project_info_prints as Hg.
  destruct (snd get_project_info) as [[info|]|e].
  - destruct (truthy info).
    + right.
      exists (Print "GCP Cost Optimization Tool" :: Print "========================="
              :: fst get_project_info), info.
      eexists. split; [reflexivity|]. split; [exact Hg|].
      now destruct (snd (write_report info)).
    + left. eexists. split; [reflexivity|]. cbn [touches_files existsb orb].
      fold (touches_files (fst get_project_info ++ [Print AUTH_ERROR; Print AUTH_HINT])%list).
      now rewrite touches_files_app, Hg.
  - left. eexists. split; [reflexivity|]. cbn [touches_files existsb orb].
    fold (touches_files (fst get_project_info ++ [Print AUTH_ERROR; Print AUTH_HINT])%list).
    now rewrite touches_files_app, Hg.
  - left. eexists. split; [reflexivity|]. cbn [touches_files existsb orb].
    fold (touches_files (fst get_project_info ++ [])%list).
    now rewrite touches_files_app, Hg.
Qed.

(** X13: in every run, whatever the commands print and however the run ends,
    the program opens no file but the report file, and this one at most
    once; the analyzers and the identity fetch open and write nothing. *)
Theorem only_the_report_file_is_opened :
  (opened (fst main) = [] \/ opened (fst main) = [REPORT_FILE])
  /\ (forall path, path <> REPORT_FILE -> file_after path None (fst main) = None)
  /\ touches_files (fst get_project_info) = false
  /\ touches_files (fst analyze_compute_instances) = false
  /\ touches_files (fst analyze_storage) = false
  /\ touches_files (fst analyze_network) = false.
Proof.
  split; [|split; [|repeat split]].
  - destruct main_trace_shape as [(before & -> & Hb)|(before & info & after & -> & Hb & Ha)].
    + left. now apply prints_open_nothing.
    + right. rewrite !opened_app.
      rewrite (proj1 (prints_open_nothing _ Hb)), (proj1 (prints_open_nothing _ Ha)).
      destruct (write_report_trace info) as (rest & -> & Hrest).
      cbn. now rewrite Hrest.
  - intros path Hpath.
    destruct main_trace_shape as [(before & -> & Hb)|(before & info & after & -> & Hb & Ha)].
    + now apply file_after_prints.
    + rewrite !file_after_app, (file_after_prints _ _ _ Hb).
      destruct (write_report_trace info) as (rest & -> & Hrest).
      cbn [file_after]. destruct (REPORT_FILE =? path) eqn:E.
      * apply String.eqb_eq in E. congruence.
      * cbn [option_map]. rewrite (file_after_unopened _ _ _ Hrest).
        now apply file_after_prints.
  - apply get_project_info_prints.
  - apply analyze_compute_prints.
  - apply analyze_storage_prints.
  - apply analyze_network_prints.
Qed.

(** X14: in every run that creates the report file, also one that ends in an
    exception, the file holds exactly what the run wrote, in order, and
    it starts with the preamble. *)
Theorem report_file_starts_with_preamble (content : string) :
  file_after REPORT_FILE None (fst main) = Some content ->
  content = written (fst main) /\ starts_with preamble content.
Proof.
  destruct main_trace_shape as [(before & -> & Hb)|(before & info & after & -> & Hb & Ha)].
  - rewrite (file_after_prints _ _ _ Hb). discriminate.
  - rewrite !file_after_app, (file_after_prints _ _ _ Hb), (file_after_prints _ _ _ Ha).
    rewrite !written_app.
    rewrite (proj2 (prints_open_nothing _ Hb)), (proj2 (prints_open_nothing _ Ha)).
    destruct (write_report_trace info) as (rest & -> & Hrest).
    cbn [file_after written]. rewrite String.eqb_refl. cbn [option_map].
    rewrite (file_after_unopened _ _ _ Hrest). cbn [option_map append].
    intro H. apply (f_equal (fun o => match o with Some c => c | None => "" end)) in H.
    cbn beta iota in H. subst content. split.
    + now rewrite !app_assoc_s, app_empty_r.
    + exists (written rest). unfold preamble. now rewrite !app_assoc_s.
Qed.

(* ===================================================================== *)
(** ** More of the run: aborted runs and progress lines                   *)
(* ===================================================================== *)

Lemma main_with_identity (info : value) :
  decodes CONFIG_LIST info -> truthy info = true ->
  snd main = match snd (write_report info) with Ok _ => Ok tt | Raise e => Raise e end
  /\ file_after REPORT_FILE None (fst main)
     = file_after REPORT_FILE None (fst (write_report info))
  /\ printed (fst main)
     = ("GCP Cost Optimization Tool" :: "========================="
        :: printed (fst get_project_info)
        ++ printed (fst (write_report info))
        ++ match snd (write_report info) with
           | Ok _ => [REPORT_GENERATED; "To view the report, open it in a text editor."]
           | Raise _ => []
           end)%list.
Proof.
  intros Hinfo Htruthy.
  pose proof (get_project_info_decodes info Hinfo) as Hg. unfold returns in Hg.
  rewrite main_run. cbn [fst snd]. rewrite Hg, Htruthy. split; [reflexivity|]. split.
  - cbn [file_after]. rewrite !file_after_app.
    rewrite (file_after_prints _ _ _ get_project_info_prints).
    apply file_after_prints. now destruct (snd (write_report info)).
  - cbn [printed]. rewrite !printed_app. do 4 f_equal.
    now destruct (snd (write_report info)).
Qed.

(** The file when the storage analyzer, or the network analyzer, raises. *)
Lemma write_report_later_raises (info : value) (project : option string)
  (compute : string) (e : exn) :
  project_line info = Ok project ->
  returns analyze_compute_instances compute ->
  (raises analyze_storage e ->
   snd (write_report info) = Raise e
   /\ file_after REPORT_FILE None (fst (write_report info))
      = Some (preamble ++ project_text project ++ (compute ++ nl ++ nl)))
  /\ (forall storage, returns analyze_storage storage ->
      raises analyze_network e ->
      snd (write_report info) = Raise e
      /\ file_after REPORT_FILE None (fst (write_report info))
         = Some (preamble ++ project_text project ++ (compute ++ nl ++ nl)
                 ++ (storage ++ nl ++ nl))).
Proof.
  unfold returns, raises. intros Hp Hc. split.
  - intro Hs. unfold write_report. split.
    + run_steps. rewrite Hp. run_steps.
      destruct project; run_steps; rewrite Hc; run_steps; now rewrite Hs.
    + run_steps. rewrite Hp. run_steps.
      destruct project; run_steps; rewrite Hc; run_steps; rewrite Hs.
      all: rewrite ?file_after_app.
      all: cbn [file_after app option_map].
      all: rewrite String.eqb_refl.
      all: rewrite (file_after_prints _ _ _ analyze_compute_prints),
             (file_after_prints _ _ _ analyze_storage_prints).
      all: cbn [option_map project_text]; unfold preamble.
      all: f_equal; cbn [append]; now rewrite ?app_assoc_s, ?app_empty_r.
  - intros storage Hs Hn. unfold write_report. split.
    + run_steps. rewrite Hp. run_steps.
      destruct project; run_steps; rewrite Hc; run_steps; rewrite Hs; run_steps;
        now rewrite Hn.
    + run_steps. rewrite Hp. run_steps.
      destruct project; run_steps; rewrite Hc; run_steps; rewrite Hs; run_steps;
        rewrite Hn.
      all: rewrite ?file_after_app.
      all: cbn [file_after app option_map].
      all: rewrite String.eqb_refl.
      all: rewrite (file_after_prints _ _ _ analyze_compute_prints),
             (file_after_prints _ _ _ analyze_storage_prints),
             (file_after_prints _ _ _ analyze_network_prints).
      all: cbn [option_map project_text]; unfold preamble.
      all: f_equal; cbn [append]; now rewrite ?app_assoc_s, ?app_empty_r.
Qed.

(** X15: an exception of a later analyzer ends the run and keeps in the file
    the sections written before it: the preamble and the compute section
    when the storage analyzer raises, and the storage section too when
    the network analyzer raises. *)
Theorem later_exception_keeps_earlier_sections
  (info : value) (project : option string) (compute : string) (e : exn) :
  decodes CONFIG_LIST info -> truthy info = true ->
  project_line info = Ok project ->
  returns analyze_compute_instances compute ->
  (raises analyze_storage e ->
   raises main e
   /\ file_after REPORT_FILE None (fst main)
      = Some (preamble ++ project_text project ++ (compute ++ nl ++ nl)))
  /\ (forall storage, returns analyze_storage storage ->
      raises analyze_network e ->
      raises main e
      /\ file_after REPORT_FILE None (fst main)
         = Some (preamble ++ project_text project ++ (compute ++ nl ++ nl)
                 ++ (storage ++ nl ++ nl))).
Proof.
  intros Hinfo Htruthy Hp Hc.
  destruct (main_with_identity info Hinfo Htruthy) as (Hsnd & Hfile & _).
  destruct (write_report_later_raises info project compute e Hp Hc) as [Hst Hnet].
  unfold raises at 2 4. rewrite Hsnd, Hfile. split.
  - intro Hs. destruct (Hst Hs) as [-> ->]. now split.
  - intros storage Hs Hn. destruct (Hnet storage Hs Hn) as [-> ->]. now split.
Qed.

Lemma analyze_compute_first_line :
  exists rest, printed (fst analyze_compute_instances)
               = "Analyzing Compute Engine instances..." :: rest.
Proof. unfold analyze_compute_instances. rewrite fst_bind. cbn. now eexists. Qed.

Lemma analyze_storage_first_line :
  exists rest, printed (fst analyze_storage) = "Analyzing storage resources..." :: rest.
Proof. unfold analyze_storage. rewrite fst_bind. cbn. now eexists. Qed.

Lemma analyze_network_first_line :
  exists rest, printed (fst analyze_network) = "Analyzing networking resources..." :: rest.
Proof. unfold analyze_network. rewrite fst_bind. cbn. now eexists. Qed.

Lemma get_project_info_first_line :
  exists rest, printed (fst get_project_info) = "Getting project information..." :: rest.
Proof. unfold get_project_info. rewrite fst_bind. cbn. now eexists. Qed.

(** What a completed [with] block printed. *)
Lemma write_report_printed (info : value) :
  snd (write_report info) = Ok tt ->
  printed (fst (write_report info))
  = (printed (fst analyze_compute_instances)
     ++ printed (fst analyze_storage)
     ++ printed (fst analyze_network)
     ++ ["Analyzing billing data..."])%list.
Proof.
  unfold write_report, analyze_billing. run_steps.
  destruct (project_line info) as [project|]; [|discriminate]. run_steps.
  destruct project as [text|]; run_steps.
  all: destruct (snd analyze_compute_instances) as [c|]; [|discriminate]; run_steps.
  all: destruct (snd analyze_storage) as [s|]; [|discriminate]; run_steps.
  all: destruct (snd analyze_network) as [n|]; [|discriminate]; run_steps.
  all: intros _; repeat first [rewrite printed_app | progress cbn [printed app]].
  all: now rewrite ?app_nil_r.
Qed.

Lemma subseq_step (x : string) (xs rest ys : list string) :
  subseq xs ys = true -> subseq (x :: xs) ((x :: rest) ++ ys)%list = true.
Proof.
  intro H. cbn [app]. apply subseq_cons. now apply subseq_app_r.
Qed.

(** X16: in every run that ends with the report written, the progress lines
    stand on standard output in the order of the sections: identity,
    compute, storage, network, billing, then the path of the report. *)
Theorem progress_lines_in_order (info : value) :
  decodes CONFIG_LIST info -> truthy info = true ->
  returns main tt ->
  subseq
    ["GCP Cost Optimization Tool";
     "=========================";
     "Getting project information...";
     "Analyzing Compute Engine instances...";
     "Analyzing storage resources...";
     "Analyzing networking resources...";
     "Analyzing billing data...";
     REPORT_GENERATED;
     "To view the report, open it in a text editor."]
    (printed (fst main)) = true.
Proof.
  intros Hinfo Htruthy Hmain.
  destruct (main_with_identity info Hinfo Htruthy) as (Hsnd & _ & Hprinted).
  unfold returns in Hmain. rewrite Hsnd in Hmain.
  destruct (snd (write_report info)) as [[]|e] eqn:Hw; [|discriminate].
  rewrite Hprinted, (write_report_printed info Hw).
  destruct get_project_info_first_line as [r0 ->].
  destruct analyze_compute_first_line as [r1 ->].
  destruct analyze_storage_first_line as [r2 ->].
  destruct analyze_network_first_line as [r3 ->].
  rewrite <- !app_assoc. do 2 apply subseq_cons.
  apply subseq_step. apply subseq_step. apply subseq_step. apply subseq_step.
  cbn [app]. do 3 apply subseq_cons. reflexivity.
Qed.

(** X17: a [gcloud] that cannot be run at all is not caught.  At the identity
    fetch the program raises after its first three lines, with no hint
    and no file; at the instance listing the compute analyzer raises. *)
Theorem spawn_failure_propagates (e : exn) :
  (subprocess_run ("gcloud" :: CONFIG_LIST) = SpawnError e ->
   main = ([Print "GCP Cost Optimization Tool";
            Print "=========================";
            Print "Getting project information..."],
           Raise e))
  /\ (subprocess_run ("gcloud" :: INSTANCES_LIST) = SpawnError e ->
      analyze_compute_instances
      = ([Print "Analyzing Compute Engine instances..."], Raise e)).
Proof.
  split; intro H.
  - assert (Hg : get_project_info = ([Print "Getting project information..."], Raise e)).
    { unfold get_project_info, run_gcloud. now rewrite H. }
    rewrite main_run, Hg. reflexivity.
  - unfold analyze_compute_instances, run_gcloud. now rewrite H.
Qed.

(** X18: a command that exits with an error is reported on standard output,
    with its command line and its error text, and the compute analyzer
    returns its no-data line; a command that succeeds and prints nothing
    gives the same line with no report on standard output, and the
    decoder is not run. *)
Theorem failed_fetch_is_reported :
  (forall stderr,
     subprocess_run ("gcloud" :: INSTANCES_LIST) = CalledProcessError stderr ->
     analyze_compute_instances
     = ([Print "Analyzing Compute Engine instances...";
         Print "Error running command: gcloud compute instances list --format=json";
         Print ("Error: " ++ stderr)],
        Ok NO_INSTANCES_DATA))
  /\ (subprocess_run ("gcloud" :: INSTANCES_LIST) = Completed "" ->
      analyze_compute_instances
      = ([Print "Analyzing Compute Engine instances..."], Ok NO_INSTANCES_DATA)).
Proof.
  split; [intros stderr H | intro H];
    unfold analyze_compute_instances, run_gcloud; now rewrite H.
Qed.

(** X19: the analyzers catch the decoder's JSONDecodeError only: any other
    exception of the decoder on a fetched text leaves the analyzer. *)
Theorem other_decoder_exceptions_propagate (text : string) (e : exn) :
  json_loads text = Raise e -> e <> JSONDecodeError ->
  (fetches INSTANCES_LIST (Some text) -> raises analyze_compute_instances e)
  /\ (forall disks, fetches STORAGE_LS (Some text) -> fetches DISKS_LIST disks ->
        raises analyze_storage e)
  /\ (forall rules, fetches ADDRESSES_LIST (Some text) -> fetches RULES_LIST rules ->
        raises analyze_network e).
Proof.
  intros Hl He.
  assert (Htry : forall (A : Type) (body : value -> result A) (handler : result A),
             try_loads text body handler = Raise e).
  { intros A body handler. unfold try_loads. rewrite Hl. now destruct e. }
  unfold raises. split; [|split].
  - intro Hf. rewrite (compute_section (Some text) Hf). apply Htry.
  - intros disks Hf Hd. rewrite (storage_section (Some text) disks Hf Hd).
    unfold buckets_report. rewrite (fetched_text _ _ Hf). now rewrite Htry.
  - intros rules Hf Hr. rewrite (network_section (Some text) rules Hf Hr).
    unfold addresses_report. rewrite (fetched_text _ _ Hf). now rewrite Htry.
Qed.

(** X20: a bucket listing that decodes to a value without a length (null, a
    number, true or false) is not handled: counting the buckets raises
    TypeError, which the handler of the bucket analysis does not catch,
    and the storage analyzer returns no section. *)
Theorem unsized_bucket_listing_raises (v : value) (disks : option string) :
  decodes STORAGE_LS v -> py_len v = Raise TypeError ->
  fetches DISKS_LIST disks ->
  raises analyze_storage TypeError.
Proof.
  intros (text & Hf & Hl) Hlen Hd. unfold raises.
  rewrite (storage_section (Some text) disks Hf Hd). unfold buckets_report.
  rewrite (fetched_text _ _ Hf). unfold try_loads. now rewrite Hl, Hlen.
Qed.

Lemma project_line_config (d : list (string * value)) :
  (lookup "core" d = None -> project_line (VDict d) = Ok None)
  /\ (forall core, lookup "core" d = Some (VDict core) ->
        project_line (VDict d)
        = Ok (match lookup "project" core with
              | Some project => Some ("Project: " ++ py_str project ++ nl ++ nl)
              | None => None
              end)).
Proof.
  unfold project_line. cbn [py_contains py_getitem]. split.
  - now intros ->.
  - intros core ->. cbn [rbind py_contains py_getitem].
    now destruct (lookup "project" core).
Qed.

(** X21: the project line is guarded by membership tests: a configuration
    without a core section, or with a core section without a project, is
    no error.  When the analyzers return, the run ends without an
    exception and the completed report goes from the preamble straight to
    the compute section; with a project it has the line that names it in
    between. *)
Theorem project_line_in_report (d : list (string * value))
  (compute storage network : string) :
  decodes CONFIG_LIST (VDict d) -> truthy (VDict d) = true ->
  returns analyze_compute_instances compute ->
  returns analyze_storage storage ->
  returns analyze_network network ->
  (lookup "core" d = None ->
   returns main tt
   /\ file_after REPORT_FILE None (fst main)
      = Some (full_report "" compute storage network))
  /\ (forall core, lookup "core" d = Some (VDict core) ->
      returns main tt
      /\ file_after REPORT_FILE None (fst main)
         = Some (full_report
                   (match lookup "project" core with
                    | Some project => "Project: " ++ py_str project ++ nl ++ nl
                    | None => ""
                    end)
                   compute storage network)).
Proof.
  intros Hinfo Htruthy Hc Hs Hn.
  destruct (project_line_config d) as [Hnone Hcore]. split.
  - intro H.
    destruct (main_writes_report (VDict d) None _ _ _ Hinfo Htruthy (Hnone H) Hc Hs Hn)
      as (Hmain & Hfile & _).
    split; [exact Hmain | exact Hfile].
  - intros core H.
    destruct (main_writes_report (VDict d) _ _ _ _ Hinfo Htruthy (Hcore core H) Hc Hs Hn)
      as (Hmain & Hfile & _).
    split; [exact Hmain|]. rewrite Hfile. now destruct (lookup "project" core).
Qed.

End Analyzer.

(* ===================================================================== *)
(** ** The properties at sample worlds                                    *)
(* ===================================================================== *)

Ltac sample_fetch :=
  eexists; eexists; split; vm_compute; reflexivity.

Ltac sample_decodes :=
  eexists; split; [sample_fetch | vm_compute; reflexivity].

Lemma C5_witness :
  (exists after,
     returns
       (analyze_compute_instances (Sample.fleet Sample.mixed_fleet) Sample.json_loads)
       (compute_top ++ line "Instance Types Summary:"
        ++ summary_rows (map (segment "machineType") Sample.mixed_fleet)
        ++ nl ++ line "Optimization Opportunities:" ++ after))
  /\ sum_Z (map (fun type =>
                   occurrences type (map (segment "machineType") Sample.mixed_fleet))
               (first_seen (map (segment "machineType") Sample.mixed_fleet)))
     = Z.of_nat (List.length Sample.mixed_fleet).
Proof.
  apply (C5_summary_counts_add_up
           (Sample.fleet Sample.mixed_fleet) Sample.json_loads Sample.mixed_fleet);
    [sample_decodes | reflexivity | reflexivity].
Defined.

Lemma C1_witness :
  large_instances Sample.mixed_fleet
  = Ok [Sample.instance "vm-b" "n1-standard-16" "RUNNING"]
  /\ exists before,
       returns
         (analyze_compute_instances (Sample.fleet Sample.mixed_fleet) Sample.json_loads)
         (before
          ++ large_section [Sample.instance "vm-b" "n1-standard-16" "RUNNING"]
          ++ compute_advice).
Proof.
  destruct (C1_large_is_substring_match
              (Sample.fleet Sample.mixed_fleet) Sample.json_loads Sample.mixed_fleet)
    as (Hlarge & _ & _ & Hreport);
    [sample_decodes | reflexivity | reflexivity |].
  split; [exact Hlarge | exact Hreport].
Defined.

(** C1 as stated fails: the final segment [n2-standard-80] of the machine
    type of [vm-80] is none of the six large names, and the instance is
    selected and listed as oversized. *)
Lemma C1_counterexample :
  segment "machineType" Sample.vm80 = "n2-standard-80"
  /\ ~ In (segment "machineType" Sample.vm80) LARGE_TYPES
  /\ large_instances [Sample.vm80] = Ok [Sample.vm80]
  /\ exists before after,
       returns
         (analyze_compute_instances (Sample.fleet [Sample.vm80]) Sample.json_loads)
         (before
          ++ large_heading 1
          ++ large_entry "vm-80" "n2-standard-80" "us-central1-a"
          ++ after).
Proof.
  split; [reflexivity|]. split; [|split; [reflexivity|]].
  - vm_compute. intros [H|[H|[H|[H|[H|[H|[]]]]]]]; discriminate.
  - exists (compute_header ++ summary_table [("n2-standard-80", 1%Z)]
            ++ opportunities_title).
    exists (large_advice ++ compute_advice). vm_compute. reflexivity.
Qed.


Lemma C7_witness :
  unattached_disks Sample.loose_disks = Ok Sample.loose_disks
  /\ mapM size_of Sample.loose_disks = Ok [10%Z; 200%Z]
  /\ exists after,
       returns
         (analyze_storage (Sample.disks_only Sample.loose_disks) Sample.json_loads)
         (storage_top
          ++ (line "Cloud Storage Optimization:"
              ++ line "No Cloud Storage buckets found or error retrieving data.")
          ++ nl ++ line "Persistent Disk Optimization:"
          ++ unattached_block Sample.loose_disks
          ++ after).
Proof.
  destruct (C7_all_unattached_total_and_names
              (Sample.disks_only Sample.loose_disks) Sample.json_loads
              None
              (line "Cloud Storage Optimization:"
               ++ line "No Cloud Storage buckets found or error retrieving data.")
              Sample.loose_disks)
    as (Hloose & Hsizes & Hreport & _);
    [sample_fetch | reflexivity | sample_decodes
     | reflexivity | reflexivity | reflexivity | vm_compute; reflexivity |].
  split; [exact Hloose | split; [exact Hsizes | exact Hreport]].
Defined.

(** C7 as stated fails: every disk of the listing is well formed and lacks
    users, the bucket listing is the JSON null, and the storage analyzer
    raises TypeError: no unattached-disk report is emitted. *)
Lemma C7_counterexample :
  decodes (Sample.null_buckets Sample.loose_disks) Sample.json_loads
    DISKS_LIST (VList Sample.loose_disks)
  /\ nonempty Sample.loose_disks = true
  /\ forallb is_disk Sample.loose_disks = true
  /\ forallb lacks_users Sample.loose_disks = true
  /\ decodes (Sample.null_buckets Sample.loose_disks) Sample.json_loads
       STORAGE_LS VNone
  /\ raises (analyze_storage (Sample.null_buckets Sample.loose_disks) Sample.json_loads)
       TypeError.
Proof.
  split; [sample_decodes|]. split; [reflexivity|]. split; [reflexivity|].
  split; [reflexivity|]. split; [sample_decodes|]. vm_compute. reflexivity.
Qed.

Lemma C8_witness :
  returns (analyze_compute_instances Sample.empty_project Sample.json_loads)
    (compute_top ++ line "No Compute Engine instances found.")
  /\ returns (analyze_compute_instances Sample.garbled_listings Sample.json_loads)
       "Error parsing Compute Engine data.".
Proof.
  split.
  - apply (C8_empty_and_garbled_listing Sample.empty_project Sample.json_loads).
    sample_decodes.
  - apply (C8_empty_and_garbled_listing Sample.garbled_listings Sample.json_loads).
    sample_decodes.
Defined.

Lemma C10_witness :
  returns (analyze_storage Sample.garbled_listings Sample.json_loads)
    (storage_top ++ line "Cloud Storage Optimization:"
     ++ line "1. You have Cloud Storage buckets, but couldn't parse the data."
     ++ cat (map line GUIDANCE_LINES)
     ++ nl ++ line "Persistent Disk Optimization:" ++ line "Error parsing disk data.")
  /\ returns (analyze_storage Sample.empty_project Sample.json_loads)
       (storage_top ++ line "Cloud Storage Optimization:"
        ++ line ("1. You have " ++ str_int 0 ++ " Cloud Storage buckets.")
        ++ cat (map line GUIDANCE_LINES)
        ++ nl ++ line "Persistent Disk Optimization:")
  /\ returns (analyze_storage Sample.listings_denied Sample.json_loads)
       (storage_top ++ line "Cloud Storage Optimization:"
        ++ line "No Cloud Storage buckets found or error retrieving data."
        ++ nl ++ line "Persistent Disk Optimization:"
        ++ line "No persistent disks found or error retrieving data.")
  /\ raises (analyze_storage (Sample.project_with STORAGE_LS VNone) Sample.json_loads)
       TypeError.
Proof.
  split; [|split; [|split]].
  - destruct (C10_guidance_follows_the_fetch Sample.garbled_listings Sample.json_loads
                (Some "<html>")
                (nl ++ line "Persistent Disk Optimization:"
                 ++ line "Error parsing disk data."))
      as (Hgarbled & _); [sample_fetch | vm_compute; reflexivity |].
    apply Hgarbled. sample_decodes.
  - destruct (C10_guidance_follows_the_fetch Sample.empty_project Sample.json_loads
                (Some "[]") (nl ++ line "Persistent Disk Optimization:"))
      as (_ & Hlist & _); [sample_fetch | vm_compute; reflexivity |].
    apply (Hlist (VList []) 0%Z); [sample_decodes | reflexivity].
  - destruct (C10_guidance_follows_the_fetch Sample.listings_denied Sample.json_loads
                None
                (nl ++ line "Persistent Disk Optimization:"
                 ++ line "No persistent disks found or error retrieving data."))
      as (_ & _ & Hnone & _); [sample_fetch | vm_compute; reflexivity |].
    apply Hnone. sample_fetch.
  - destruct (C10_guidance_follows_the_fetch
                (Sample.project_with STORAGE_LS VNone) Sample.json_loads
                (Some "[]") (nl ++ line "Persistent Disk Optimization:"))
      as (_ & _ & _ & Hscalar & _); [sample_fetch | vm_compute; reflexivity |].
    apply (Hscalar VNone); [sample_decodes | reflexivity].
Defined.

(** C10 as stated fails: the bucket-listing fetch returns the non-empty
    text null, the storage analyzer raises TypeError at the count, and
    there is no storage section, so no guidance line. *)
Lemma C10_counterexample :
  fetches (Sample.project_with STORAGE_LS VNone) STORAGE_LS (Some "null")
  /\ Sample.json_loads "null" = Ok VNone
  /\ raises (analyze_storage (Sample.project_with STORAGE_LS VNone) Sample.json_loads)
       TypeError
  /\ raises (main (Sample.project_with STORAGE_LS VNone) Sample.json_loads Sample.TODAY)
       TypeError.
Proof.
  split; [sample_fetch|]. repeat split; vm_compute; reflexivity.
Qed.

Lemma C4_witness :
  (exists rules_text,
     returns
       (analyze_network (Sample.rules_only Sample.some_rules) Sample.more_loads)
       (network_top ++ line "External IP Address Optimization:"
        ++ line "No external IP addresses found or error retrieving data."
        ++ rules_text))
  /\ (exists addresses_text,
        returns
          (analyze_network (Sample.addresses_only Sample.some_addresses)
             Sample.more_loads)
          (network_top ++ addresses_text
           ++ nl ++ line "Load Balancer Optimization:"
           ++ line "No load balancers found or error retrieving data."))
  /\ returns (analyze_network Sample.garbled_listings Sample.json_loads)
       (network_top ++ line "External IP Address Optimization:"
        ++ line "Error parsing IP address data."
        ++ nl ++ line "Load Balancer Optimization:"
        ++ line "Error parsing forwarding rules data.")
  /\ returns (analyze_network Sample.empty_project Sample.json_loads)
       (network_top ++ line "External IP Address Optimization:"
        ++ nl ++ line "Load Balancer Optimization:").
Proof.
  split; [|split; [|split]].
  - eexists.
    edestruct (C4_network_falls_back_by_case
                 (Sample.rules_only Sample.some_rules) Sample.more_loads)
      as (Haddresses & _).
    edestruct (Haddresses (Some (Sample.json_text (VList Sample.some_rules))))
      as (Hnone & _); [sample_fetch | vm_compute; reflexivity |].
    apply Hnone. sample_fetch.
  - eexists.
    edestruct (C4_network_falls_back_by_case
                 (Sample.addresses_only Sample.some_addresses) Sample.more_loads)
      as (_ & Hrules & _).
    edestruct (Hrules (Some (Sample.json_text (VList Sample.some_addresses))))
      as (Hnone & _); [sample_fetch | vm_compute; reflexivity |].
    apply Hnone. sample_fetch.
  - destruct (C4_network_falls_back_by_case Sample.garbled_listings Sample.json_loads)
      as (Haddresses & _).
    destruct (Haddresses (Some "<html>")
                (nl ++ line "Load Balancer Optimization:"
                 ++ line "Error parsing forwarding rules data."))
      as (_ & Hgarbled & _); [sample_fetch | vm_compute; reflexivity |].
    apply Hgarbled. sample_decodes.
  - destruct (C4_network_falls_back_by_case Sample.empty_project Sample.json_loads)
      as (_ & Hrules & _).
    destruct (Hrules (Some "[]") (line "External IP Address Optimization:"))
      as (_ & _ & Hempty); [sample_fetch | vm_compute; reflexivity |].
    apply Hempty. sample_decodes.
Defined.

(** C4 as stated fails: with both listings garbled, each sub-analysis
    emits its parse-error line and the network section has no none-found
    line. *)
Lemma C4_counterexample :
  garbled Sample.garbled_listings Sample.json_loads ADDRESSES_LIST
  /\ garbled Sample.garbled_listings Sample.json_loads RULES_LIST
  /\ exists network,
       returns (analyze_network Sample.garbled_listings Sample.json_loads) network
       /\ lines network
          = [NETWORK_TITLE; repeat_str "=" 50; "";
             "External IP Address Optimization:"; ADDRESSES_PARSE_ERROR; "";
             "Load Balancer Optimization:"; RULES_PARSE_ERROR; ""]
       /\ has_not_found_line network = false.
Proof.
  split; [sample_decodes|]. split; [sample_decodes|].
  eexists; repeat split; vm_compute; reflexivity.
Qed.

Lemma C2_witness :
  exists project compute storage network,
    returns (analyze_compute_instances Sample.listings_denied Sample.json_loads) compute
    /\ returns (analyze_storage Sample.listings_denied Sample.json_loads) storage
    /\ returns (analyze_network Sample.listings_denied Sample.json_loads) network
    /\ file_after (REPORT_FILE Sample.TODAY) None
         (fst (main Sample.listings_denied Sample.json_loads Sample.TODAY))
       = Some (full_report Sample.TODAY (project_text project) compute storage network)
    /\ has_not_found_line compute = true
    /\ has_not_found_line storage = true
    /\ has_not_found_line network = true.
Proof.
  destruct (C2_sections_of_empty_fetches
              Sample.listings_denied Sample.json_loads Sample.TODAY)
    as (_ & _ & _ & Hrun).
  destruct (Hrun Sample.demo_config)
    as (project & compute & storage & network
        & _ & Hc & Hs & Hn & Hfile & _ & _ & Hcl & Hsl & Hnl);
    [sample_decodes | reflexivity | vm_compute; reflexivity |].
  exists project, compute, storage, network.
  repeat split; try assumption.
  - apply Hcl. left. sample_fetch.
  - apply Hsl. left. sample_fetch.
  - apply Hnl. left. sample_fetch.
Defined.

(** C2 as stated fails: the project identity is there and every listing
    fetch fails; the compute section is its bare not-found line, and the
    assembled report has no compute title line. *)
Lemma C2_counterexample :
  decodes Sample.listings_denied Sample.json_loads CONFIG_LIST Sample.demo_config
  /\ fetches Sample.listings_denied INSTANCES_LIST None
  /\ returns (analyze_compute_instances Sample.listings_denied Sample.json_loads)
       NO_INSTANCES_DATA
  /\ returns (main Sample.listings_denied Sample.json_loads Sample.TODAY) tt
  /\ exists report,
       file_after (REPORT_FILE Sample.TODAY) None
         (fst (main Sample.listings_denied Sample.json_loads Sample.TODAY))
       = Some report
       /\ has_line COMPUTE_TITLE report = false
       /\ subseq LATER_TITLES (lines report) = true.
Proof.
  split; [sample_decodes|]. split; [sample_fetch|].
  split; [vm_compute; reflexivity|]. split; [vm_compute; reflexivity|].
  eexists; repeat split; vm_compute; reflexivity.
Qed.

Lemma C3_witness :
  returns (main Sample.logged_out Sample.json_loads Sample.TODAY) tt
  /\ touches_files (fst (main Sample.logged_out Sample.json_loads Sample.TODAY)) = false
  /\ (exists compute storage network,
        file_after (REPORT_FILE Sample.TODAY) None
          (fst (main Sample.listings_denied Sample.json_loads Sample.TODAY))
        = Some (preamble Sample.TODAY ++ ("Project: demo" ++ nl ++ nl)
                ++ (compute ++ nl ++ nl) ++ (storage ++ nl ++ nl)
                ++ (network ++ nl ++ nl) ++ (billing_report ++ nl ++ nl)
                ++ generate_cost_recommendations)
        /\ In (REPORT_GENERATED Sample.TODAY)
             (printed (fst (main Sample.listings_denied Sample.json_loads Sample.TODAY))))
  /\ raises (main Sample.odd_instance Sample.json_loads Sample.TODAY) KeyError.
Proof.
  split; [|split; [|split]].
  - apply (C3_hint_or_complete_report Sample.logged_out Sample.json_loads Sample.TODAY).
    sample_fetch.
  - apply (C3_hint_or_complete_report Sample.logged_out Sample.json_loads Sample.TODAY).
    sample_fetch.
  - destruct (C3_hint_or_complete_report
                Sample.listings_denied Sample.json_loads Sample.TODAY)
      as (_ & Hfull & _).
    eexists. eexists. eexists.
    edestruct (Hfull Sample.demo_config (Some ("Project: demo" ++ nl ++ nl)))
      as (_ & Hfile & Hpath);
      [sample_decodes | reflexivity | reflexivity
       | vm_compute; reflexivity | vm_compute; reflexivity
       | vm_compute; reflexivity |].
    split; [exact Hfile | exact Hpath].
  - destruct (C3_hint_or_complete_report
                Sample.odd_instance Sample.json_loads Sample.TODAY)
      as (_ & _ & Hraise).
    apply (Hraise Sample.demo_config (Some ("Project: demo" ++ nl ++ nl)));
      [sample_decodes | reflexivity | reflexivity | vm_compute; reflexivity].
Defined.

(** C3 as stated fails: the project identity is there, one listed
    instance has no machineType, and the run ends in an exception with the
    preamble alone in the file and no path printed. *)
Lemma C3_counterexample :
  decodes Sample.odd_instance Sample.json_loads CONFIG_LIST Sample.demo_config
  /\ truthy Sample.demo_config = true
  /\ raises (main Sample.odd_instance Sample.json_loads Sample.TODAY) KeyError
  /\ file_after (REPORT_FILE Sample.TODAY) None
       (fst (main Sample.odd_instance Sample.json_loads Sample.TODAY))
     = Some (preamble Sample.TODAY ++ "Project: demo" ++ nl ++ nl)
  /\ ~ In (REPORT_GENERATED Sample.TODAY)
         (printed (fst (main Sample.odd_instance Sample.json_loads Sample.TODAY))).
Proof.
  split; [sample_decodes|]. split; [reflexivity|].
  split; [vm_compute; reflexivity|]. split; [vm_compute; reflexivity|].
  vm_compute. intros [H|[H|[H|[H|[]]]]]; discriminate.
Qed.

Lemma C9_witness :
  main Sample.garbled_config Sample.json_loads Sample.TODAY
  = ([Print "GCP Cost Optimization Tool";
      Print "=========================";
      Print "Getting project information..."],
     Raise JSONDecodeError)
  /\ returns (main Sample.logged_out Sample.json_loads Sample.TODAY) tt
  /\ touches_files (fst (main Sample.logged_out Sample.json_loads Sample.TODAY)) = false.
Proof.
  split.
  - apply (C9_garbled_identity_raises Sample.garbled_config Sample.json_loads Sample.TODAY).
    sample_decodes.
  - apply (C9_garbled_identity_raises Sample.logged_out Sample.json_loads Sample.TODAY).
    left. sample_fetch.
Defined.

(** C9 as stated fails: [gcloud config list] prints the empty object, the
    fetch returns this text, and the program prints the hint and stops
    normally. *)
Lemma C9_counterexample :
  fetches Sample.unset_config CONFIG_LIST (Some "{}")
  /\ Sample.json_loads "{}" = Ok (VDict [])
  /\ main Sample.unset_config Sample.json_loads Sample.TODAY
     = ([Print "GCP Cost Optimization Tool";
         Print "=========================";
         Print "Getting project information...";
         Print AUTH_ERROR;
         Print AUTH_HINT],
        Ok tt).
Proof.
  split; [sample_fetch|]. split; vm_compute; reflexivity.
Qed.

(* ===================================================================== *)
(** ** More properties at sample worlds                                   *)
(* ===================================================================== *)

Lemma summary_table_rows_witness :
  exists table after,
    returns
      (analyze_compute_instances
         (Sample.project_with INSTANCES_LIST (VList Sample.mixed_fleet)) Sample.more_loads)
      (compute_header ++ summary_table table ++ after)
    /\ map fst table = first_seen (map (segment "machineType") Sample.mixed_fleet)
    /\ NoDup (map fst table)
    /\ forall k c, In (k, c) table ->
         c = occurrences k (map (segment "machineType") Sample.mixed_fleet) /\ (0 < c)%Z.
Proof.
  apply (summary_table_rows
           (Sample.project_with INSTANCES_LIST (VList Sample.mixed_fleet))
           Sample.more_loads Sample.mixed_fleet);
    [sample_decodes | reflexivity | reflexivity].
Defined.

Lemma compute_section_layout_witness :
  exists table,
    count_machine_types Sample.quiet_fleet [] = Ok table
    /\ returns
         (analyze_compute_instances
            (Sample.project_with INSTANCES_LIST (VList Sample.quiet_fleet)) Sample.more_loads)
         (compute_header ++ summary_table table ++ opportunities_title ++ compute_advice).
Proof.
  destruct (compute_section_layout
              (Sample.project_with INSTANCES_LIST (VList Sample.quiet_fleet))
              Sample.more_loads Sample.quiet_fleet)
    as (table & Htable & _ & Hquiet);
    [sample_decodes | reflexivity | reflexivity |].
  exists table. split; [exact Htable | apply Hquiet; reflexivity].
Defined.

Lemma missing_machine_type_raises_witness :
  raises
    (analyze_compute_instances
       (Sample.project_with INSTANCES_LIST (VList Sample.odd_fleet)) Sample.more_loads)
    KeyError.
Proof.
  apply (missing_machine_type_raises
           (Sample.project_with INSTANCES_LIST (VList Sample.odd_fleet)) Sample.more_loads
           [Sample.instance "vm-a" "e2-micro" "RUNNING"]
           [Sample.instance "vm-b" "e2-small" "RUNNING"]
           (VDict [("name", VStr "vm-x")]));
    [sample_decodes | reflexivity | reflexivity | reflexivity].
Defined.

Lemma non_array_listing_witness :
  returns
    (analyze_compute_instances (Sample.project_with INSTANCES_LIST VNone) Sample.json_loads)
    (compute_header ++ line NO_INSTANCES)
  /\ raises
       (analyze_compute_instances
          (Sample.project_with INSTANCES_LIST (VDict [("kind", VStr "compute#instanceList")]))
          Sample.more_loads)
       TypeError.
Proof.
  split.
  - destruct (non_array_listing
                (Sample.project_with INSTANCES_LIST VNone) Sample.json_loads VNone)
      as (Hfalsy & _); [sample_decodes | reflexivity |].
    apply Hfalsy. reflexivity.
  - destruct (non_array_listing
                (Sample.project_with INSTANCES_LIST
                   (VDict [("kind", VStr "compute#instanceList")]))
                Sample.more_loads (VDict [("kind", VStr "compute#instanceList")]))
      as (_ & Htruthy); [sample_decodes | reflexivity |].
    apply Htruthy. reflexivity.
Defined.

Lemma machine_type_is_final_segment_witness :
  exists name,
    machine_type_of Sample.vm80 = Ok name
    /\ str_contains "/" name = false
    /\ ("https://www.googleapis.com/compute/v1/projects/demo/zones/us-central1-a/machineTypes/n2-standard-80"
        = name
        \/ exists dir,
             "https://www.googleapis.com/compute/v1/projects/demo/zones/us-central1-a/machineTypes/n2-standard-80"
             = dir ++ "/" ++ name).
Proof.
  apply (machine_type_is_final_segment Sample.vm80). reflexivity.
Defined.

Lemma large_test_is_occurrence_witness :
  exists large,
    is_large Sample.vm80 = Ok large
    /\ (large = true <->
        exists large_type before after,
          In large_type LARGE_TYPES
          /\ "https://www.googleapis.com/compute/v1/projects/demo/zones/us-central1-a/machineTypes/n2-standard-80"
             = before ++ large_type ++ after).
Proof.
  apply (large_test_is_occurrence Sample.vm80). reflexivity.
Defined.

Lemma disk_selections_witness :
  exists buckets_text,
    unattached_disks Sample.some_disks = Ok (filter lacks_users Sample.some_disks)
    /\ ssd_disks Sample.some_disks = Ok (filter is_ssd_disk Sample.some_disks)
    /\ returns
         (analyze_storage
            (Sample.project_with DISKS_LIST (VList Sample.some_disks)) Sample.more_loads)
         (storage_top ++ buckets_text
          ++ nl ++ line "Persistent Disk Optimization:"
          ++ unattached_block (filter lacks_users Sample.some_disks)
          ++ ssd_block (filter is_ssd_disk Sample.some_disks)).
Proof.
  eexists.
  apply (disk_selections
           (Sample.project_with DISKS_LIST (VList Sample.some_disks)) Sample.more_loads
           (Some "[]"));
    [sample_fetch | vm_compute; reflexivity | sample_decodes | reflexivity
     | vm_compute; reflexivity].
Defined.

Lemma unprintable_total_raises_witness :
  mapM size_of Sample.huge_disks = Ok (map declared_size Sample.huge_disks)
  /\ sum_Z (map declared_size Sample.huge_disks) = (10 ^ 4300)%Z
  /\ raises
       (analyze_storage
          (Sample.project_with DISKS_LIST (VList Sample.huge_disks)) Sample.huge_loads)
       ValueError.
Proof.
  destruct (unprintable_total_raises
               (Sample.project_with DISKS_LIST (VList Sample.huge_disks))
               Sample.huge_loads (Some "[]")
               (line "Cloud Storage Optimization:"
                ++ line "1. You have 0 Cloud Storage buckets."
                ++ cat (map line GUIDANCE_LINES))
               Sample.huge_disks)
    as (Hsizes & Hraises);
    [sample_fetch | vm_compute; reflexivity | sample_decodes | vm_compute; reflexivity
     | reflexivity | vm_compute; discriminate |].
  split; [exact Hsizes | split; [vm_compute; reflexivity | exact Hraises]].
Defined.

Lemma unreadable_size_raises_witness :
  raises
    (analyze_storage
       (Sample.project_with DISKS_LIST (VList Sample.odd_size_disks)) Sample.more_loads)
    ValueError.
Proof.
  eapply (unreadable_size_raises
            (Sample.project_with DISKS_LIST (VList Sample.odd_size_disks)) Sample.more_loads
            (Some "[]") _ Sample.odd_size_disks
            (Sample.disk "data-3" "10.5" "pd-standard")).
  - sample_fetch.
  - vm_compute; reflexivity.
  - sample_decodes.
  - reflexivity.
  - intros d [<-|[<-|[]]] _; eexists; (split; [reflexivity | left; reflexivity]).
  - right. left. reflexivity.
  - reflexivity.
  - eexists. split; [reflexivity | vm_compute; reflexivity].
Defined.

Lemma size_of_decimal_text_witness :
  (size_of (Sample.disk "data-2" "200" "pd-standard") = Ok 200%Z
   /\ declared_size (Sample.disk "data-2" "200" "pd-standard") = 200%Z)
  /\ size_of (VDict [("sizeGb", VStr (str_int (10 ^ 4300)))]) = Raise ValueError.
Proof.
  split.
  - destruct (size_of_decimal_text (Sample.disk "data-2" "200" "pd-standard") 200)
      as (Hfits & _); [vm_compute; reflexivity|].
    apply Hfits. vm_compute. reflexivity.
  - destruct (size_of_decimal_text
                (VDict [("sizeGb", VStr (str_int (10 ^ 4300)))]) (10 ^ 4300))
      as (_ & Hbig); [reflexivity|].
    apply Hbig. vm_compute. discriminate.
Defined.

Lemma reserved_addresses_listed_witness :
  exists rules_text,
    static_ips Sample.some_addresses
    = Ok (filter (has_status "RESERVED") Sample.some_addresses)
    /\ (forall ip, In ip Sample.some_addresses -> in_use ip = Ok (negb (lacks_users ip)))
    /\ returns
         (analyze_network
            (Sample.project_with ADDRESSES_LIST (VList Sample.some_addresses))
            Sample.more_loads)
         (network_header
          ++ (addresses_title
              ++ static_section (filter (has_status "RESERVED") Sample.some_addresses))
          ++ rules_text).
Proof.
  eexists.
  edestruct (reserved_addresses_listed
               (Sample.project_with ADDRESSES_LIST (VList Sample.some_addresses))
               Sample.more_loads (Some "[]"))
    as (Hstatic & Huse & Hreport & _);
    [sample_fetch | vm_compute; reflexivity | sample_decodes | reflexivity |].
  split; [exact Hstatic | split; [exact Huse | exact Hreport]].
Defined.

Lemma forwarding_rules_listed_witness :
  exists addresses_text,
    mapM rule_line Sample.some_rules = Ok (map rule_item Sample.some_rules)
    /\ rule_item (VDict [("name", VStr "lb-b")])
       = line "   - lb-b (IP: N/A, Target: A)"
    /\ returns
         (analyze_network
            (Sample.project_with RULES_LIST (VList Sample.some_rules)) Sample.more_loads)
         (network_header ++ addresses_text ++ rules_title
          ++ rules_section Sample.some_rules).
Proof.
  eexists.
  edestruct (forwarding_rules_listed
               (Sample.project_with RULES_LIST (VList Sample.some_rules))
               Sample.more_loads (Some "[]"))
    as (Hlines & Hbare & Hreport);
    [sample_fetch | vm_compute; reflexivity | sample_decodes | reflexivity |].
  split; [exact Hlines | split; [|exact Hreport]].
  apply (Hbare (VDict [("name", VStr "lb-b")]));
    [right; left; reflexivity | reflexivity | reflexivity].
Defined.

Lemma non_string_target_raises_witness :
  raises
    (analyze_network
       (Sample.project_with RULES_LIST (VList Sample.null_target_rules)) Sample.more_loads)
    AttributeError.
Proof.
  eapply (non_string_target_raises
            (Sample.project_with RULES_LIST (VList Sample.null_target_rules))
            Sample.more_loads (Some "[]") _
            [VDict [("name", VStr "lb-a"); ("target", VStr "regions/r/targetPools/pool")]]
            [] (VDict [("name", VStr "lb-c"); ("target", VNone)]) VNone).
  - sample_fetch.
  - vm_compute; reflexivity.
  - sample_decodes.
  - reflexivity.
  - reflexivity.
  - eexists. reflexivity.
  - reflexivity.
  - reflexivity.
Defined.

Lemma only_the_report_file_is_opened_witness :
  file_after "notes.txt" None
    (fst (main Sample.empty_project Sample.json_loads Sample.TODAY)) = None.
Proof.
  apply (only_the_report_file_is_opened
           Sample.empty_project Sample.json_loads Sample.TODAY).
  vm_compute. discriminate.
Defined.

Lemma report_file_starts_with_preamble_witness :
  exists content,
    file_after (REPORT_FILE Sample.TODAY) None
      (fst (main Sample.odd_instance Sample.json_loads Sample.TODAY)) = Some content
    /\ content = written (fst (main Sample.odd_instance Sample.json_loads Sample.TODAY))
    /\ starts_with (preamble Sample.TODAY) content.
Proof.
  exists (preamble Sample.TODAY ++ "Project: demo" ++ nl ++ nl).
  split; [vm_compute; reflexivity|].
  apply (report_file_starts_with_preamble
           Sample.odd_instance Sample.json_loads Sample.TODAY).
  vm_compute. reflexivity.
Defined.

Lemma later_exception_keeps_earlier_sections_witness :
  (raises
     (main (Sample.project_with DISKS_LIST (VList Sample.odd_size_disks))
        Sample.more_loads Sample.TODAY)
     ValueError
   /\ file_after (REPORT_FILE Sample.TODAY) None
        (fst (main (Sample.project_with DISKS_LIST (VList Sample.odd_size_disks))
                Sample.more_loads Sample.TODAY))
      = Some (preamble Sample.TODAY
              ++ project_text (Some ("Project: demo" ++ nl ++ nl))
              ++ ((compute_header ++ line NO_INSTANCES) ++ nl ++ nl)))
  /\ (raises
        (main (Sample.project_with RULES_LIST (VList Sample.null_target_rules))
           Sample.more_loads Sample.TODAY)
        AttributeError
      /\ file_after (REPORT_FILE Sample.TODAY) None
           (fst (main (Sample.project_with RULES_LIST (VList Sample.null_target_rules))
                   Sample.more_loads Sample.TODAY))
         = Some (preamble Sample.TODAY
                 ++ project_text (Some ("Project: demo" ++ nl ++ nl))
                 ++ ((compute_header ++ line NO_INSTANCES) ++ nl ++ nl)
                 ++ ((storage_header
                      ++ (buckets_title ++ buckets_count 0 ++ storage_class_guidance)
                      ++ disks_title) ++ nl ++ nl))).
Proof.
  split.
  - destruct (later_exception_keeps_earlier_sections
                (Sample.project_with DISKS_LIST (VList Sample.odd_size_disks))
                Sample.more_loads Sample.TODAY
                Sample.demo_config (Some ("Project: demo" ++ nl ++ nl))
                (compute_header ++ line NO_INSTANCES) ValueError)
      as (Hstorage & _);
      [sample_decodes | reflexivity | reflexivity | vm_compute; reflexivity |].
    apply Hstorage. vm_compute. reflexivity.
  - destruct (later_exception_keeps_earlier_sections
                (Sample.project_with RULES_LIST (VList Sample.null_target_rules))
                Sample.more_loads Sample.TODAY
                Sample.demo_config (Some ("Project: demo" ++ nl ++ nl))
                (compute_header ++ line NO_INSTANCES) AttributeError)
      as (_ & Hnetwork);
      [sample_decodes | reflexivity | reflexivity | vm_compute; reflexivity |].
    apply Hnetwork; vm_compute; reflexivity.
Defined.

Lemma progress_lines_in_order_witness :
  subseq
    ["GCP Cost Optimization Tool";
     "=========================";
     "Getting project information...";
     "Analyzing Compute Engine instances...";
     "Analyzing storage resources...";
     "Analyzing networking resources...";
     "Analyzing billing data...";
     REPORT_GENERATED Sample.TODAY;
     "To view the report, open it in a text editor."]
    (printed (fst (main Sample.empty_project Sample.json_loads Sample.TODAY))) = true.
Proof.
  apply (progress_lines_in_order
           Sample.empty_project Sample.json_loads Sample.TODAY Sample.demo_config);
    [sample_decodes | reflexivity | vm_compute; reflexivity].
Defined.

Lemma spawn_failure_propagates_witness :
  main Sample.no_gcloud Sample.json_loads Sample.TODAY
  = ([Print "GCP Cost Optimization Tool";
      Print "=========================";
      Print "Getting project information..."],
     Raise OSError)
  /\ analyze_compute_instances Sample.no_gcloud Sample.json_loads
     = ([Print "Analyzing Compute Engine instances..."], Raise OSError).
Proof.
  destruct (spawn_failure_propagates
              Sample.no_gcloud Sample.json_loads Sample.TODAY OSError)
    as (Hmain & Hcompute).
  split; [apply Hmain | apply Hcompute]; reflexivity.
Defined.

Lemma failed_fetch_is_reported_witness :
  analyze_compute_instances Sample.listings_denied Sample.json_loads
  = ([Print "Analyzing Compute Engine instances...";
      Print "Error running command: gcloud compute instances list --format=json";
      Print "Error: ERROR: (gcloud) not available"],
     Ok NO_INSTANCES_DATA)
  /\ analyze_compute_instances (Sample.gcloud [(INSTANCES_LIST, EmptyString)])
       Sample.json_loads
     = ([Print "Analyzing Compute Engine instances..."], Ok NO_INSTANCES_DATA).
Proof.
  split.
  - destruct (failed_fetch_is_reported Sample.listings_denied Sample.json_loads)
      as (Hfailed & _).
    apply (Hfailed "ERROR: (gcloud) not available"). reflexivity.
  - destruct (failed_fetch_is_reported
                (Sample.gcloud [(INSTANCES_LIST, EmptyString)]) Sample.json_loads)
      as (_ & Hsilent).
    apply Hsilent. reflexivity.
Defined.

Lemma other_decoder_exceptions_propagate_witness :
  raises (analyze_compute_instances Sample.empty_project Sample.exhausted_loads)
    RecursionError
  /\ raises (analyze_storage Sample.empty_project Sample.exhausted_loads) RecursionError
  /\ raises (analyze_network Sample.empty_project Sample.exhausted_loads) RecursionError.
Proof.
  destruct (other_decoder_exceptions_propagate
              Sample.empty_project Sample.exhausted_loads "[]" RecursionError)
    as (Hcompute & Hstorage & Hnetwork); [reflexivity | discriminate |].
  split; [|split].
  - apply Hcompute. sample_fetch.
  - apply (Hstorage (Some "[]")); sample_fetch.
  - apply (Hnetwork (Some "[]")); sample_fetch.
Defined.

Lemma unsized_bucket_listing_raises_witness :
  raises (analyze_storage (Sample.project_with STORAGE_LS VNone) Sample.json_loads)
    TypeError.
Proof.
  apply (unsized_bucket_listing_raises
           (Sample.project_with STORAGE_LS VNone) Sample.json_loads VNone (Some "[]"));
    [sample_decodes | reflexivity | sample_fetch].
Defined.

Lemma project_line_in_report_witness :
  (exists compute storage network,
     returns
       (main (Sample.project_with CONFIG_LIST Sample.regional_config)
          Sample.more_loads Sample.TODAY) tt
     /\ file_after (REPORT_FILE Sample.TODAY) None
          (fst (main (Sample.project_with CONFIG_LIST Sample.regional_config)
                  Sample.more_loads Sample.TODAY))
        = Some (full_report Sample.TODAY "" compute storage network))
  /\ (exists compute storage network,
        returns (main Sample.empty_project Sample.json_loads Sample.TODAY) tt
        /\ file_after (REPORT_FILE Sample.TODAY) None
             (fst (main Sample.empty_project Sample.json_loads Sample.TODAY))
           = Some (full_report Sample.TODAY ("Project: demo" ++ nl ++ nl)
                     compute storage network)).
Proof.
  split.
  - eexists. eexists. eexists.
    edestruct (project_line_in_report
                 (Sample.project_with CONFIG_LIST Sample.regional_config)
                 Sample.more_loads Sample.TODAY
                 [("compute", VDict [("region", VStr "us-central1")])])
      as (Hnone & _);
      [sample_decodes | reflexivity | vm_compute; reflexivity | vm_compute; reflexivity
       | vm_compute; reflexivity |].
    apply Hnone. reflexivity.
  - eexists. eexists. eexists.
    edestruct (project_line_in_report
                 Sample.empty_project Sample.json_loads Sample.TODAY
                 [("core", VDict [("account", VStr "dev@example.com");
                                  ("project", VStr "demo")])])
      as (_ & Hcore);
      [sample_decodes | reflexivity | vm_compute; reflexivity | vm_compute; reflexivity
       | vm_compute; reflexivity |].
    apply (Hcore [("account", VStr "dev@example.com"); ("project", VStr "demo")]).
    reflexivity.
Defined.
